(** * xlinux-sh / web_management: the site-configuration lifecycle

    A shallow embedding of the nginx site manager
    ([core/runner.py], [core/rollback.py], [core/paths.py],
    [storage/sites_repo.py], [nginx/service.py], [nginx/sites.py],
    [nginx/ssl.py]) and the properties of its enable / disable / create /
    bind transactions.

    The Python functions act on the host through three channels only: the
    filesystem, external commands started by [run] / [sudo_write], and
    [print_colored].  They are embedded as functions of a state-and-exception
    monad over a [World] holding the filesystem, and which collects the
    printed messages.
    Everything the host decides on its own (whether a command exits with
    status 0, the wall clock) and the Python library functions whose code is
    not part of the repository ([json.load], [json.dump], [str.format]) are
    fields of an environment [Env], over which every statement is
    quantified. *)

From stdpp Require Import gmap strings list fin_maps pretty.

Open Scope string_scope.
Open Scope list_scope.

(** ** Paths, files and the filesystem *)

(** A [pathlib.Path] is kept as the list of its components below the root;
    [p / name] appends one component.  A domain name is one component. *)
Abbreviation Path := (list string).

Definition path_join (p : Path) (name : string) : Path := p ++ [name].
Infix "//" := path_join (at level 40, left associativity).

(** [Path.name] *)
Definition name (p : Path) : string := List.last p "".

(** [Path.parent] *)
Definition parent (p : Path) : Path := removelast p.

Inductive Node :=
| File (content : string)
| Link (target : Path)
| Dir.

Abbreviation FS := (gmap Path Node).

(** The kernel follows at most this many symbolic links when it resolves a
    name (ELOOP beyond). *)
Definition MAXSYMLINKS : nat := 40.

(** [follow n fs p]: the entry [p] names once symbolic links are followed,
    with the path it is stored at.  Only the last component is followed. *)
Fixpoint follow (fuel : nat) (fs : FS) (p : Path) : option (Path * Node) :=
  match fs !! p with
  | None => None
  | Some (Link t) =>
      match fuel with
      | O => None
      | S k => follow k fs t
      end
  | Some n => Some (p, n)
  end.

(** [os.stat], and [os.lstat] is the plain lookup [fs !! p]. *)
Definition stat (fs : FS) (p : Path) : option (Path * Node) :=
  follow MAXSYMLINKS fs p.

(** [Path.exists()]: false for a dangling link. *)
Definition path_exists (fs : FS) (p : Path) : bool :=
  match stat fs p with Some _ => true | None => false end.

(** [Path.is_symlink()] *)
Definition is_symlink (fs : FS) (p : Path) : bool :=
  match fs !! p with Some (Link _) => true | _ => false end.

(** [Path.is_dir()]; the root is a directory. *)
Definition is_dir (fs : FS) (p : Path) : bool :=
  match p with
  | [] => true
  | _ => match stat fs p with Some (_, Dir) => true | _ => false end
  end.

(** What reading [p] returns. *)
Definition read_file (fs : FS) (p : Path) : option string :=
  match stat fs p with Some (_, File c) => Some c | _ => None end.

(** Where [open(p, O_WRONLY|O_CREAT|O_TRUNC)] puts the data: through links,
    creating the file when the name is free and its directory is there. *)
Fixpoint write_target (fuel : nat) (fs : FS) (p : Path) : option Path :=
  match fs !! p with
  | None => if is_dir fs (parent p) then Some p else None
  | Some (File _) => Some p
  | Some Dir => None
  | Some (Link t) =>
      match fuel with
      | O => None
      | S k => write_target k fs t
      end
  end.

Definition write_file (fs : FS) (p : Path) (c : string) : option FS :=
  match write_target MAXSYMLINKS fs p with
  | Some q => Some (<[q := File c]> fs)
  | None => None
  end.

(** [rm -f p]: silent when [p] is absent, refuses a directory, and removes
    a link rather than what it points at. *)
Definition rm_f (fs : FS) (p : Path) : option FS :=
  match fs !! p with
  | None => Some fs
  | Some Dir => None
  | Some _ => Some (delete p fs)
  end.

(** [ln -s t l]: creates [l]; when [l] is (a link to) a directory the link
    is made inside it; any other existing [l] is an error. *)
Definition ln_s (fs : FS) (t l : Path) : option FS :=
  match fs !! l with
  | None => if is_dir fs (parent l) then Some (<[l := Link t]> fs) else None
  | Some _ =>
      match stat fs l with
      | Some (q, Dir) =>
          match fs !! (q // name t) with
          | None => Some (<[q // name t := Link t]> fs)
          | Some _ => None
          end
      | _ => None
      end
  end.

(** [cp src dst] of one regular file: into [dst] when that is a directory,
    over the file [dst] resolves to otherwise; it refuses to copy a file
    onto itself and to write through a dangling link. *)
Definition cp (fs : FS) (src dst : Path) : option FS :=
  match stat fs src with
  | Some (s, File c) =>
      match stat fs dst with
      | Some (q, Dir) =>
          match stat fs (q // name src) with
          | Some (q', File _) =>
              if decide (q' = s) then None else Some (<[q' := File c]> fs)
          | Some _ => None
          | None =>
              match fs !! (q // name src) with
              | None => Some (<[q // name src := File c]> fs)
              | Some _ => None
              end
          end
      | Some (q, File _) =>
          if decide (q = s) then None else Some (<[q := File c]> fs)
      | Some (_, Link _) => None
      | None =>
          match fs !! dst with
          | None =>
              if is_dir fs (parent dst) then Some (<[dst := File c]> fs)
              else None
          | Some _ => None
          end
      end
  | _ => None
  end.

(** [mkdir -p], also [Path.mkdir(parents=True, exist_ok=True)]: walks down
    from the root, creates what is missing and stops at the first component
    that is there and is not a directory. *)
Fixpoint mkdirs (fs : FS) (pre : Path) (rest : list string) : FS * bool :=
  match rest with
  | [] => (fs, true)
  | c :: rest' =>
      match fs !! (pre // c) with
      | None => mkdirs (<[pre // c := Dir]> fs) (pre // c) rest'
      | Some _ =>
          if is_dir fs (pre // c) then mkdirs fs (pre // c) rest'
          else (fs, false)
      end
  end.

Definition mkdir_p (fs : FS) (p : Path) : FS * bool := mkdirs fs [] p.

(** ** Python values: what [json.load] returns and [json.dump] accepts *)

#[warnings="-register-all"]
Inductive pyval :=
| PNone
| PBool (b : bool)
| PInt (z : Z)
| PFloat (mantissa exponent : Z)
| PStr (s : string)
| PList (l : list pyval)
| PDict (items : list (string * pyval)).

(** Truth value of an object, as [if] and [and] test it. *)
Definition truthy (v : pyval) : bool :=
  match v with
  | PNone => false
  | PBool b => b
  | PInt z => negb (z =? 0)%Z
  | PFloat m _ => negb (m =? 0)%Z
  | PStr s => negb (String.eqb s "")
  | PList l => match l with [] => false | _ => true end
  | PDict kvs => match kvs with [] => false | _ => true end
  end.

(** A [dict] keeps its items in insertion order. *)
Abbreviation items := (list (string * pyval)).

Fixpoint dict_get (k : string) (d : items) : option pyval :=
  match d with
  | [] => None
  | (k', v) :: d' => if String.eqb k k' then Some v else dict_get k d'
  end.

(** [d.get(k, default)] *)
Definition get_default (k : string) (default : pyval) (d : items) : pyval :=
  match dict_get k d with Some v => v | None => default end.

(** [d[k] = v]: in place when the key is there, appended otherwise. *)
Fixpoint dict_set (k : string) (v : pyval) (d : items) : items :=
  match d with
  | [] => [(k, v)]
  | (k', v') :: d' =>
      if String.eqb k k' then (k, v) :: d' else (k', v') :: dict_set k v d'
  end.

(** [d.pop(k, None)] and the comprehension [{k: v ... if k != key}] *)
Fixpoint dict_remove (k : string) (d : items) : items :=
  match d with
  | [] => []
  | (k', v) :: d' =>
      if String.eqb k k' then dict_remove k d' else (k', v) :: dict_remove k d'
  end.

(** [k in d] *)
Definition dict_mem (k : string) (d : items) : bool :=
  match dict_get k d with Some _ => true | None => false end.

(** ** External operations and the environment *)

(** The command lines the modelled functions pass to [run] and
    [sudo_write]. *)
Inductive Cmd :=
| Rm_f (p : Path)
| Ln_s (target link : Path)
| Cp (src dst : Path)
| Mkdir_p (p : Path)
| Chown (recursive : bool) (owner : string) (p : Path)
| Chmod (mode : string) (p : Path)
| Nginx_t
| Systemctl_reload_nginx
| Tee (p : Path) (content : string)
| Sudo (c : Cmd).

(** What the host is asked to do: start a process, or serve a Python file
    operation. *)
Inductive Op :=
| Spawn (c : Cmd)
| PyOpenWrite (p : Path)
| PyOpenRead (p : Path)
| PyMkdir (p : Path).

Record datetime := {
  year : nat; month : nat; day : nat;
  hour : nat; minute : nat; second : nat; microsecond : nat
}.

Record Env := {
  (** [Path(__file__).parent.parent.absolute()] of [core/paths.py] *)
  NGINX_MANAGER_DIR : Path;
  (** does the host let the [n]-th operation go through?  [false] is a
      non-zero exit status, respectively an [OSError]. *)
  ok : nat -> Op -> bool;
  (** [datetime.now()] at the time of the [n]-th operation *)
  clock : nat -> datetime;
  (** [json.loads]; [None] when it raises *)
  json_loads : string -> option pyval;
  (** [json.dumps(v, indent=2, ensure_ascii=False)] *)
  json_dumps : pyval -> string;
  (** [template.format] with keyword arguments; [None] when it raises *)
  str_format : string -> items -> option string
}.

(** The lines [print_colored] writes, by kind.  The progress line and the
    stderr echo of [run] are not recorded. *)
Inductive Msg :=
| MsgNginxTestPassed
| MsgNginxTestRefused
| MsgNginxReloaded
| MsgNginxReloadFailed
| MsgRolledBackToBackup
| MsgLoadRegistryFailed
| MsgSaveRegistryFailed
| MsgSavedToProject (p : Path)
| MsgCopiedToSystem (p : Path)
| MsgSaveConfigFailed
| MsgConfigMissing (p : Path)
| MsgSiteEnabled (domain : string)
| MsgEnableFailed (domain : string)
| MsgSiteNotEnabled (domain : string)
| MsgSiteDisabled (domain : string)
| MsgDisableFailed (domain : string)
| MsgDomainExists (domain : string)
| MsgCreateRootFailed
| MsgSiteAdded (domain : string)
| MsgSiteUnknown
| MsgAlreadySecured
| MsgCertificateNotFound (domain : string)
| MsgApplyFirst
| MsgCertificateBound (domain : string)
| MsgConfigTestFailed.

Record World := {
  fs : FS;
  (** operations handed to the host so far *)
  steps : nat
}.

(** ** The monad of the embedded functions *)

Inductive Exn :=
| RuntimeError
| OSError
| ValueError
| TypeError
| AttributeError
| KeyError
| ImportError.

Inductive Res (A : Type) :=
| Val (a : A)
| Raise (e : Exn).
Arguments Val {A} a.
Arguments Raise {A} e.

(** What a call leaves behind: its result, the world after it and the
    lines it printed, oldest first. *)
Record Run (A : Type) := {
  result : Res A;
  after : World;
  printed : list Msg
}.
Arguments result {A} r.
Arguments after {A} r.
Arguments printed {A} r.

Definition M (A : Type) : Type := World -> Run A.

Definition ret {A} (a : A) : M A :=
  fun w => {| result := Val a; after := w; printed := [] |}.

Definition raise {A} (e : Exn) : M A :=
  fun w => {| result := Raise e; after := w; printed := [] |}.

Definition bind {A B} (m : M A) (k : A -> M B) : M B :=
  fun w =>
    let r := m w in
    match result r with
    | Val a =>
        let r' := k a (after r) in
        {| result := result r'; after := after r';
           printed := printed r ++ printed r' |}
    | Raise e =>
        {| result := Raise e; after := after r; printed := printed r |}
    end.

Notation "'let*' x := m 'in' k" := (bind m (fun x => k))
  (at level 10, x name, m at level 100, k at level 200,
   format "'[v' 'let*'  x  :=  m  'in' '/' k ']'").
Notation "m ;; k" := (bind m (fun _ => k))
  (at level 100, right associativity, format "'[v' m  ;; '/' k ']'").

(** [try: m  except <the e with catches e>: h e] *)
Definition try_except {A} (m : M A) (catches : Exn -> bool) (h : Exn -> M A)
  : M A :=
  fun w =>
    let r := m w in
    match result r with
    | Raise e =>
        if catches e then
          let r' := h e (after r) in
          {| result := result r'; after := after r';
             printed := printed r ++ printed r' |}
        else r
    | Val _ => r
    end.

(** [except RuntimeError] *)
Definition is_RuntimeError (e : Exn) : bool :=
  match e with RuntimeError => true | _ => false end.

(** [except Exception] *)
Definition is_Exception (e : Exn) : bool := true.

Definition print_colored (m : Msg) : M unit :=
  fun w => {| result := Val tt; after := w; printed := [m] |}.

Definition when (b : bool) (m : M unit) : M unit := if b then m else ret tt.

(** ** Time stamps *)

Definition digits (width n : nat) : string :=
  let s := pretty n in
  String.concat "" (replicate (width - String.length s) "0") +:+ s.

(** [strftime('%Y%m%d_%H%M%S')] *)
Definition strftime_compact (t : datetime) : string :=
  digits 4 (year t) +:+ digits 2 (month t) +:+ digits 2 (day t) +:+ "_" +:+
  digits 2 (hour t) +:+ digits 2 (minute t) +:+ digits 2 (second t).

(** [strftime('%Y-%m-%d %H:%M:%S')] *)
Definition strftime_human (t : datetime) : string :=
  digits 4 (year t) +:+ "-" +:+ digits 2 (month t) +:+ "-" +:+
  digits 2 (day t) +:+ " " +:+
  digits 2 (hour t) +:+ ":" +:+ digits 2 (minute t) +:+ ":" +:+
  digits 2 (second t).

(** [isoformat()] *)
Definition isoformat (t : datetime) : string :=
  digits 4 (year t) +:+ "-" +:+ digits 2 (month t) +:+ "-" +:+
  digits 2 (day t) +:+ "T" +:+
  digits 2 (hour t) +:+ ":" +:+ digits 2 (minute t) +:+ ":" +:+
  digits 2 (second t) +:+
  match microsecond t with
  | O => ""
  | us => "." +:+ digits 6 us
  end.

(** ** The container protocol on Python values

    The registry is whatever [json.load] found in the file, so the
    functions that index it are given for every value; [None] stands for
    the [TypeError], [KeyError], [IndexError] or [AttributeError] Python
    raises. *)

(** [for x in v] *)
Definition py_iter (v : pyval) : option (list pyval) :=
  match v with
  | PDict kvs => Some (map (fun kv => PStr (fst kv)) kvs)
  | PList l => Some l
  | PStr s =>
      Some (map (fun a => PStr (String a EmptyString)) (String.list_ascii_of_string s))
  | _ => None
  end.

(** the position a list index denotes; [True] and [False] are 1 and 0 *)
Definition list_index (len : nat) (k : pyval) : option nat :=
  let norm (z : Z) :=
    if decide (0 <= z < Z.of_nat len)%Z then Some (Z.to_nat z)
    else if decide (- Z.of_nat len <= z < 0)%Z
         then Some (Z.to_nat (Z.of_nat len + z))
         else None in
  match k with
  | PInt z => norm z
  | PBool b => norm (if b then 1 else 0)%Z
  | _ => None
  end.

(** [c[k]] *)
Definition py_getitem (c k : pyval) : option pyval :=
  match c with
  | PDict kvs => match k with PStr s => dict_get s kvs | _ => None end
  | PList l => match list_index (length l) k with
               | Some i => l !! i
               | None => None
               end
  | PStr s =>
      match list_index (String.length s) k with
      | Some i => match String.get i s with
                  | Some a => Some (PStr (String a EmptyString))
                  | None => None
                  end
      | None => None
      end
  | _ => None
  end.

(** [c[k] = v] *)
Definition py_setitem (c k v : pyval) : option pyval :=
  match c with
  | PDict kvs => match k with
                 | PStr s => Some (PDict (dict_set s v kvs))
                 | _ => None
                 end
  | PList l => match list_index (length l) k with
               | Some i => Some (PList (<[i := v]> l))
               | None => None
               end
  | _ => None
  end.

(** [s == v] for a string [s] *)
Definition str_eq (s : string) (v : pyval) : bool :=
  match v with PStr s' => String.eqb s s' | _ => false end.

(** [pat in s] on strings *)
Fixpoint substring_of (pat s : string) : bool :=
  String.prefix pat s ||
  match s with
  | EmptyString => false
  | String _ s' => substring_of pat s'
  end.

(** [s in c] for a string [s] *)
Definition py_contains (s : string) (c : pyval) : option bool :=
  match c with
  | PDict kvs => Some (dict_mem s kvs)
  | PList l => Some (existsb (str_eq s) l)
  | PStr s' => Some (substring_of s s')
  | _ => None
  end.

(** [v.pop('enabled', None)], and the comprehension
    [{k: v for k, v in v.items() if k != 'enabled'}]: both need a [dict] *)
Definition without_enabled (v : pyval) : option pyval :=
  match v with
  | PDict r => Some (PDict (dict_remove "enabled" r))
  | _ => None
  end.

(** [v.get(k)] *)
Definition py_get (k : string) (v : pyval) : option pyval :=
  match v with
  | PDict r => Some (get_default k PNone r)
  | _ => None
  end.

(** ** core/paths.py *)

Definition NGINX_CONF_DIR : Path := ["etc"; "nginx"; "sites-available"].
Definition NGINX_ENABLED_DIR : Path := ["etc"; "nginx"; "sites-enabled"].
Definition WEB_ROOT_BASE : Path := ["var"; "www"].
Definition SSL_DIR : Path := ["etc"; "nginx"; "ssl"].

(** [str(path)] *)
Definition path_str (p : Path) : string :=
  match p with
  | [] => "/"
  | _ => String.concat "" (map (fun c => "/" +:+ c) p)
  end.

Section Program.

Context (env : Env).

Definition SITES_CONFIG : Path := NGINX_MANAGER_DIR env // "sites.json".
Definition NGINX_CONFIGS_DIR : Path := NGINX_MANAGER_DIR env // "configs".
Definition TEMPLATES_DIR : Path := NGINX_MANAGER_DIR env // "templates".
Definition CONFIGS_SITES : Path := NGINX_CONFIGS_DIR // "sites".
Definition TEMPLATES_SITES : Path := TEMPLATES_DIR // "sites".

(** ** The host *)

(** What a command does to the filesystem when the host runs it, and
    whether it exits with status 0. *)
Fixpoint effect (c : Cmd) (fs : FS) : FS * bool :=
  match c with
  | Rm_f p => match rm_f fs p with Some fs' => (fs', true) | None => (fs, false) end
  | Ln_s t l => match ln_s fs t l with Some fs' => (fs', true) | None => (fs, false) end
  | Cp s d => match cp fs s d with Some fs' => (fs', true) | None => (fs, false) end
  | Mkdir_p p => mkdir_p fs p
  | Chown _ _ p => (fs, path_exists fs p)
  | Chmod _ p => (fs, path_exists fs p)
  | Nginx_t => (fs, true)
  | Systemctl_reload_nginx => (fs, true)
  | Tee p c => match write_file fs p c with Some fs' => (fs', true) | None => (fs, false) end
  | Sudo c' => effect c' fs
  end.

Definition tick (w : World) (fs' : FS) : World :=
  {| fs := fs'; steps := S (steps w) |}.

Definition finish {A} (r : Res A) (w : World) : Run A :=
  {| result := r; after := w; printed := [] |}.

(** [subprocess.run(cmd)], returning whether [returncode == 0] *)
Definition spawn (c : Cmd) : M bool :=
  fun w =>
    if ok env (steps w) (Spawn c) then
      let '(fs', b) := effect c (fs w) in finish (Val b) (tick w fs')
    else finish (Val false) (tick w (fs w)).

(** [with open(p, 'w') as f: f.write(c)] *)
Definition py_write (p : Path) (c : string) : M unit :=
  fun w =>
    if ok env (steps w) (PyOpenWrite p) then
      match write_file (fs w) p c with
      | Some fs' => finish (Val tt) (tick w fs')
      | None => finish (Raise OSError) (tick w (fs w))
      end
    else finish (Raise OSError) (tick w (fs w)).

(** [with open(p, 'r') as f: f.read()] *)
Definition py_read (p : Path) : M string :=
  fun w =>
    if ok env (steps w) (PyOpenRead p) then
      match read_file (fs w) p with
      | Some c => finish (Val c) (tick w (fs w))
      | None => finish (Raise OSError) (tick w (fs w))
      end
    else finish (Raise OSError) (tick w (fs w)).

(** [p.mkdir(parents=True, exist_ok=True)] *)
Definition py_mkdir (p : Path) : M unit :=
  fun w =>
    if ok env (steps w) (PyMkdir p) then
      let '(fs', b) := mkdir_p (fs w) p in
      finish (if b then Val tt else Raise OSError) (tick w fs')
    else finish (Raise OSError) (tick w (fs w)).

(** [p.exists()] *)
Definition exists_ (p : Path) : M bool :=
  fun w => finish (Val (path_exists (fs w) p)) w.

(** [datetime.now()] *)
Definition now : M datetime := fun w => finish (Val (clock env (steps w))) w.

(** ** core/runner.py *)

Definition run (cmd : Cmd) (check sudo : bool) : M bool :=
  let cmd := if sudo then Sudo cmd else cmd in
  let* b := spawn cmd in
  if negb b && check then raise RuntimeError else ret b.

(** a call of [run] whose result is dropped *)
Definition run_ (cmd : Cmd) (check sudo : bool) : M unit :=
  run cmd check sudo ;; ret tt.

Definition sudo_write (path : Path) (content : string) : M unit :=
  let* b := spawn (Sudo (Tee path content)) in
  if negb b then raise RuntimeError else ret tt.

(** ** nginx/service.py *)

Definition test_nginx_config : M bool :=
  try_except
    (run_ Nginx_t true true ;;
     print_colored MsgNginxTestPassed ;;
     ret true)
    is_RuntimeError
    (fun _ => print_colored MsgNginxTestRefused ;; ret false).

Definition reload_nginx : M bool :=
  let* t := test_nginx_config in
  if negb t then ret false
  else
    try_except
      (run_ Systemctl_reload_nginx true true ;;
       print_colored MsgNginxReloaded ;;
       ret true)
      is_RuntimeError
      (fun _ => print_colored MsgNginxReloadFailed ;; ret false).

(** ** nginx/sites.py: the enabled set *)

Definition is_site_enabled (domain : string) : M bool :=
  let enabled_link := NGINX_ENABLED_DIR // domain in
  fun w =>
    finish
      (Val (path_exists (fs w) enabled_link && is_symlink (fs w) enabled_link))
      w.

Definition enable_site_with_rollback (domain : string) : M bool :=
  let config_file := NGINX_CONF_DIR // domain in
  let enabled_link := NGINX_ENABLED_DIR // domain in
  let* c := exists_ config_file in
  if negb c then
    print_colored (MsgConfigMissing config_file) ;;
    ret false
  else
    let* was_enabled := is_site_enabled domain in
    try_except
      (let* e := exists_ enabled_link in
       when e (run_ (Rm_f enabled_link) true true) ;;
       run_ (Ln_s config_file enabled_link) true true ;;
       let* t := test_nginx_config in
       if negb t then
         when (negb was_enabled) (run_ (Rm_f enabled_link) false true) ;;
         ret false
       else
         let* r := reload_nginx in
         if negb r then
           when (negb was_enabled) (run_ (Rm_f enabled_link) false true) ;;
           ret false
         else
           print_colored (MsgSiteEnabled domain) ;;
           ret true)
      is_RuntimeError
      (fun _ =>
         let* e := exists_ enabled_link in
         when (negb was_enabled && e) (run_ (Rm_f enabled_link) false true) ;;
         print_colored (MsgEnableFailed domain) ;;
         ret false).

Definition disable_site_with_rollback (domain : string) : M bool :=
  let enabled_link := NGINX_ENABLED_DIR // domain in
  let* e := exists_ enabled_link in
  if negb e then
    print_colored (MsgSiteNotEnabled domain) ;;
    ret false
  else
    let* backup_state := is_site_enabled domain in
    try_except
      (run_ (Rm_f enabled_link) true true ;;
       let* t := test_nginx_config in
       if negb t then
         run_ (Ln_s (NGINX_CONF_DIR // domain) enabled_link) false true ;;
         ret false
       else
         let* r := reload_nginx in
         if negb r then
           run_ (Ln_s (NGINX_CONF_DIR // domain) enabled_link) false true ;;
           ret false
         else
           print_colored (MsgSiteDisabled domain) ;;
           ret true)
      is_RuntimeError
      (fun _ =>
         let* e' := exists_ enabled_link in
         when (negb e' && backup_state)
           (run_ (Ln_s (NGINX_CONF_DIR // domain) enabled_link) false true) ;;
         print_colored (MsgDisableFailed domain) ;;
         ret false).

(** ** core/rollback.py *)

Definition backup_config_file (file_path backup_dir : Path)
  : M (option Path) :=
  let* e := exists_ file_path in
  if negb e then ret None
  else
    py_mkdir backup_dir ;;
    let* t := now in
    let timestamp := strftime_compact t in
    let backup_file :=
      backup_dir // (name file_path +:+ ".backup." +:+ timestamp) in
    try_except
      (run_ (Cp file_path backup_file) true true ;;
       ret (Some backup_file))
      is_RuntimeError
      (fun _ => ret None).

Definition restore_config_file (backup_file target_file : Path) : M unit :=
  let* e := exists_ backup_file in
  when e
    (run_ (Cp backup_file target_file) true true ;;
     print_colored MsgRolledBackToBackup).

(** ** storage/sites_repo.py *)

(** an [Option] failing with the exception [e] *)
Definition or_raise {A} (e : Exn) (o : option A) : M A :=
  match o with Some a => ret a | None => raise e end.

(** one round of [for domain in config: config[domain].pop('enabled', None)];
    the popped object is the one stored in [config] *)
Definition pop_enabled_at (config k : pyval) : option pyval :=
  match py_getitem config k with
  | Some v =>
      match without_enabled v with
      | Some v' => py_setitem config k v'
      | None => None
      end
  | None => None
  end.

Fixpoint pop_enabled_loop (keys : list pyval) (config : pyval)
  : option pyval :=
  match keys with
  | [] => Some config
  | k :: keys' =>
      match pop_enabled_at config k with
      | Some config' => pop_enabled_loop keys' config'
      | None => None
      end
  end.

Definition load_sites_config : M pyval :=
  let* e := exists_ SITES_CONFIG in
  if negb e then ret (PDict [])
  else
    try_except
      (let* text := py_read SITES_CONFIG in
       let* config := or_raise ValueError (json_loads env text) in
       let* keys := or_raise TypeError (py_iter config) in
       or_raise TypeError (pop_enabled_loop keys config))
      is_Exception
      (fun _ => print_colored MsgLoadRegistryFailed ;; ret (PDict [])).

(** [for domain, site_config in config.items(): clean_config[domain] = ...] *)
Fixpoint clean_loop (its clean_config : items) : option items :=
  match its with
  | [] => Some clean_config
  | (domain, site_config) :: its' =>
      match without_enabled site_config with
      | Some c => clean_loop its' (dict_set domain c clean_config)
      | None => None
      end
  end.

Definition save_sites_config (config : pyval) : M bool :=
  match config with
  | PDict its =>
      let* clean_config := or_raise AttributeError (clean_loop its []) in
      try_except
        (py_write SITES_CONFIG (json_dumps env (PDict clean_config)) ;;
         ret true)
        is_Exception
        (fun _ => print_colored MsgSaveRegistryFailed ;; ret false)
  | _ => raise AttributeError
  end.

(** ** nginx/sites.py: rendering and writing a site configuration *)

Definition php_fragment : string := "
    location ~ \.php$ {
        include snippets/fastcgi-php.conf;
        fastcgi_pass unix:/run/php/php-fpm.sock;
        fastcgi_param SCRIPT_FILENAME $document_root$fastcgi_script_name;
        include fastcgi_params;
    }
".

Definition fallback_template : string := "server {
    listen 80;
    server_name {domain};
    root {root_dir};
    index index.html index.php;

    location / {
        try_files $uri $uri/ =404;
    }
{php_config}
}
".

(** the [if enable_ssl and ssl_cert and ssl_key] of [generate_nginx_config] *)
Definition template_file (config : items) : Path :=
  let enable_ssl := get_default "enable_ssl" (PBool false) config in
  let ssl_cert := get_default "ssl_cert" (PStr "") config in
  let ssl_key := get_default "ssl_key" (PStr "") config in
  if truthy enable_ssl && truthy ssl_cert && truthy ssl_key
  then TEMPLATES_SITES // "site-ssl.conf.template"
  else TEMPLATES_SITES // "site.conf.template".

(** the keyword arguments of the final [template.format] *)
Definition format_fields (domain : string) (config : items) (t : datetime)
  : items :=
  let root_dir :=
    get_default "root_dir" (PStr (path_str (WEB_ROOT_BASE // domain))) config in
  let enable_php := get_default "enable_php" (PBool false) config in
  let ssl_cert := get_default "ssl_cert" (PStr "") config in
  let ssl_key := get_default "ssl_key" (PStr "") config in
  let php_config := if truthy enable_php then php_fragment else "" in
  [("domain", PStr domain);
   ("root_dir", root_dir);
   ("php_config", PStr php_config);
   ("generated_at", PStr (strftime_human t));
   ("ssl_cert", ssl_cert);
   ("ssl_key", ssl_key)].

Definition generate_nginx_config (domain : string) (config : items)
  : M string :=
  let* generated_at := now in
  let* e := exists_ (template_file config) in
  let* template :=
    if e then py_read (template_file config) else ret fallback_template in
  or_raise ValueError
    (str_format env template (format_fields domain config generated_at)).

Definition BACKUPS_CONFIGS : Path :=
  NGINX_MANAGER_DIR env // "backups" // "configs".

(** [if backup_file and backup_file.exists(): restore_config_file(...)] *)
Definition restore_if_backed_up (backup_file : option Path) (target : Path)
  : M unit :=
  match backup_file with
  | None => ret tt
  | Some b =>
      let* e := exists_ b in
      when e (restore_config_file b target)
  end.

Definition save_nginx_config (domain config_content : string)
  (auto_backup : bool) : M bool :=
  let system_config_file := NGINX_CONF_DIR // domain in
  let project_config_file := CONFIGS_SITES // (domain +:+ ".conf") in
  let* e := exists_ system_config_file in
  let* backup_file :=
    if auto_backup && e
    then backup_config_file system_config_file BACKUPS_CONFIGS
    else ret None in
  try_except
    (py_mkdir (parent project_config_file) ;;
     py_write project_config_file config_content ;;
     print_colored (MsgSavedToProject project_config_file) ;;
     let* pe := exists_ (parent system_config_file) in
     when (negb pe)
       (run_ (Mkdir_p (parent system_config_file)) true true) ;;
     sudo_write system_config_file config_content ;;
     print_colored (MsgCopiedToSystem system_config_file) ;;
     let* t := test_nginx_config in
     if negb t then
       restore_if_backed_up backup_file system_config_file ;;
       ret false
     else ret true)
    is_Exception
    (fun _ =>
       print_colored MsgSaveConfigFailed ;;
       restore_if_backed_up backup_file system_config_file ;;
       ret false).

(** ** nginx/sites.py: creating a site *)

Definition index_content (domain : string) (t : datetime) : string :=
  "<!DOCTYPE html>
<html>
<head>
    <title>Welcome to " +:+ domain +:+ "</title>
    <style>
        body { font-family: Arial, sans-serif; text-align: center; padding: 50px; }
        h1 { color: #4CAF50; }
    </style>
</head>
<body>
    <h1>Welcome to " +:+ domain +:+ "</h1>
    <p>This site is powered by nginx-manager</p>
    <p>Created at " +:+ strftime_human t +:+ "</p>
</body>
</html>
".

(** the [try] block of [add_site] that prepares the document root *)
Definition provision_root (domain : string) (root_path : Path) : M unit :=
  run_ (Mkdir_p root_path) true true ;;
  run_ (Chown true "www-data:www-data" root_path) true true ;;
  run_ (Chmod "755" root_path) true true ;;
  let index_file := root_path // "index.html" in
  let* ie := exists_ index_file in
  when (negb ie)
    (let* t := now in
     sudo_write index_file (index_content domain t) ;;
     run_ (Chown false "www-data:www-data" index_file) true true).

(** [root_dir] is [None] for a missing or empty argument *)
Definition add_site (domain : string) (root_dir : option Path)
  (enable_php : bool) : M bool :=
  let* sites := load_sites_config in
  let* dup := or_raise TypeError (py_contains domain sites) in
  if dup then
    print_colored (MsgDomainExists domain) ;;
    ret false
  else
    let root_dir :=
      match root_dir with Some r => r | None => WEB_ROOT_BASE // domain end in
    let* created_at := now in
    let site_config :=
      [("domain", PStr domain);
       ("root_dir", PStr (path_str root_dir));
       ("enable_php", PBool enable_php);
       ("enable_ssl", PBool false);
       ("created_at", PStr (isoformat created_at))] in
    let* config_content := generate_nginx_config domain site_config in
    let* saved := save_nginx_config domain config_content true in
    if negb saved then ret false
    else
      let* provisioned :=
        try_except
          (provision_root domain root_dir ;; ret true)
          is_RuntimeError
          (fun _ => print_colored MsgCreateRootFailed ;; ret false) in
      if negb provisioned then ret false
      else
        let* sites' :=
          or_raise TypeError
            (py_setitem sites (PStr domain) (PDict site_config)) in
        let* stored := save_sites_config sites' in
        if stored then
          print_colored (MsgSiteAdded domain) ;;
          ret true
        else ret false.

(** ** nginx/ssl.py: binding a certificate *)

(** [from ..m import x], with [level] dots, run in a module whose
    [__package__] is [package]: the import system refuses to climb above
    the top-level package, with [ImportError] ([ValueError] before
    Python 3.9); below that the modules named here are found *)
Definition import_from (package : list string) (level : nat) : M unit :=
  if Nat.leb level (length package) then ret tt else raise ImportError.

(** [bind_ssl_to_site] starts with three imports that are resolved when it
    is called, against the package [nginx/ssl.py] was loaded in *)
Definition bind_ssl_to_site (package : list string) (domain : string)
  : M unit :=
  import_from package 2 ;;
  import_from package 1 ;;
  import_from package 1 ;;
  let* sites := load_sites_config in
  let* known := or_raise TypeError (py_contains domain sites) in
  if negb known then print_colored MsgSiteUnknown
  else
    let* site := or_raise KeyError (py_getitem sites (PStr domain)) in
    let* enable_ssl := or_raise AttributeError (py_get "enable_ssl" site) in
    if truthy enable_ssl then print_colored MsgAlreadySecured
    else
      let cert_file := SSL_DIR // domain // "fullchain.pem" in
      let key_file := SSL_DIR // domain // "key.pem" in
      let* ce := exists_ cert_file in
      let* ke := exists_ key_file in
      if negb ce || negb ke then
        print_colored (MsgCertificateNotFound domain) ;;
        print_colored MsgApplyFirst
      else
        let* site :=
          or_raise TypeError (py_setitem site (PStr "enable_ssl") (PBool true)) in
        let* site :=
          or_raise TypeError
            (py_setitem site (PStr "ssl_cert") (PStr (path_str cert_file))) in
        let* site :=
          or_raise TypeError
            (py_setitem site (PStr "ssl_key") (PStr (path_str key_file))) in
        let* sites := or_raise TypeError (py_setitem sites (PStr domain) site) in
        let* fields :=
          or_raise TypeError
            (match site with PDict r => Some r | _ => None end) in
        let* config_content := generate_nginx_config domain fields in
        let* saved := save_nginx_config domain config_content true in
        if saved then
          save_sites_config sites ;;
          let* t := test_nginx_config in
          if t then
            reload_nginx ;;
            print_colored (MsgCertificateBound domain)
          else print_colored MsgConfigTestFailed
        else ret tt.

End Program.

(** [web_management/main.py] puts its own directory on [sys.path] and
    imports the module as [nginx.ssl]: its package is [nginx] *)
Definition ssl_package : list string := ["nginx"].

(** the name [backup_config_file] gives a backup made at the [n]-th
    operation *)
Definition backup_path (env : Env) (file_path backup_dir : Path) (n : nat)
  : Path :=
  backup_dir //
    (name file_path +:+ ".backup." +:+ strftime_compact (clock env n)).

(** ** Assumptions on the host, named *)

Fixpoint is_file_cmd (c : Cmd) : bool :=
  match c with
  | Nginx_t | Systemctl_reload_nginx => false
  | Sudo c' => is_file_cmd c'
  | _ => true
  end.

Definition is_file_op (o : Op) : bool :=
  match o with
  | Spawn c => is_file_cmd c
  | _ => true
  end.

(** The host never makes a file operation fail on its own account (no
    permission refused, no disk full): [rm], [ln], [cp], [mkdir], [tee],
    [chown], [chmod] and the file operations of Python fail only when the
    state of the filesystem makes them fail.  Nothing is assumed on
    [nginx -t] and [systemctl reload nginx]. *)
Definition reliable (env : Env) : Prop :=
  forall n o, is_file_op o = true -> ok env n o = true.

(** The syntax checker rejects the configuration whenever it is asked. *)
Definition checker_rejects (env : Env) : Prop :=
  forall n, ok env n (Spawn (Sudo Nginx_t)) = false.

(** [p] holds no symbolic link *)
Definition no_link_at (fs : FS) (p : Path) : Prop :=
  forall t, fs !! p <> Some (Link t).

(** Symbolic links occur in [sites-enabled] only, and point into
    [sites-available]. *)
Definition links_ok (fs : FS) : Prop :=
  forall p t, fs !! p = Some (Link t) ->
    parent p = NGINX_ENABLED_DIR /\ parent t = NGINX_CONF_DIR.

(** A filesystem laid out the way the tool itself lays it out: the tool
    is not installed below [/etc], the symbolic links are those of
    [sites-enabled], and the backup directory holds no directory. *)
Definition tidy (env : Env) (fs : FS) : Prop :=
  hd_error (NGINX_MANAGER_DIR env) <> Some "etc" /\
  links_ok fs /\
  (forall n, fs !! (BACKUPS_CONFIGS env // n) <> Some Dir).

(** the text of the persisted registry, if there is one *)
Definition registry_text (env : Env) (fs : FS) : option string :=
  read_file fs (SITES_CONFIG env).

(** Weakest preconditions of monadic code. *)
Definition wp {A} (m : M A) (w : World)
  (Q : Res A -> World -> list Msg -> Prop) : Prop :=
  Q (result (m w)) (after (m w)) (printed (m w)).

(** ** Hosts and worlds used as concrete instances *)

(** a host on which every operation goes through *)
Definition host_fine : Env := {|
  NGINX_MANAGER_DIR := ["opt"; "xlinux-sh"; "web_management"];
  ok := fun _ _ => true;
  clock := fun n => {| year := 2024; month := 5; day := 17; hour := 9;
                       minute := 30; second := n; microsecond := 0 |};
  json_loads := fun _ => None;
  json_dumps := fun _ => "{}";
  str_format := fun template _ => Some template
|}.

(** a host whose [nginx -t] always fails, everything else going through *)
Definition host_rejecting : Env := {|
  NGINX_MANAGER_DIR := ["opt"; "xlinux-sh"; "web_management"];
  ok := fun _ o => is_file_op o;
  clock := fun n => {| year := 2024; month := 5; day := 17; hour := 9;
                       minute := 30; second := n; microsecond := 0 |};
  json_loads := fun _ => None;
  json_dumps := fun _ => "{}";
  str_format := fun template _ => Some template
|}.

Definition nginx_dirs : list (Path * Node) :=
  [(["etc"], Dir); (["etc"; "nginx"], Dir);
   (NGINX_CONF_DIR, Dir); (NGINX_ENABLED_DIR, Dir)].

(** [a.com] has a live configuration and is not enabled *)
Definition w_available : World := {|
  fs := list_to_map
          (nginx_dirs ++ [(NGINX_CONF_DIR // "a.com", File "server { }")]);
  steps := 0
|}.

(** [a.com] is enabled through a link to its live configuration *)
Definition w_enabled : World := {|
  fs := list_to_map
          (nginx_dirs ++
           [(NGINX_CONF_DIR // "a.com", File "server { }");
            (NGINX_ENABLED_DIR // "a.com", Link (NGINX_CONF_DIR // "a.com"))]);
  steps := 0
|}.

(** the same, with the directory of the tool in place and no registry
    file yet *)
Definition w_enabled_installed : World := {|
  fs := list_to_map
          (nginx_dirs ++
           [(NGINX_CONF_DIR // "a.com", File "server { }");
            (NGINX_ENABLED_DIR // "a.com", Link (NGINX_CONF_DIR // "a.com"));
            (["opt"], Dir); (["opt"; "xlinux-sh"], Dir);
            (NGINX_MANAGER_DIR host_fine, Dir)]);
  steps := 0
|}.

(** the entry of [a.com] in [sites-enabled] is a regular file *)
Definition w_regular_file : World := {|
  fs := list_to_map
          (nginx_dirs ++
           [(NGINX_CONF_DIR // "a.com", File "server { }");
            (NGINX_ENABLED_DIR // "a.com", File "server { }")]);
  steps := 0
|}.

(** the entry of [a.com] in [sites-enabled] is a link to a file that is not
    there *)
Definition w_dangling : World := {|
  fs := list_to_map
          (nginx_dirs ++
           [(NGINX_ENABLED_DIR // "a.com", Link (NGINX_CONF_DIR // "a.com"))]);
  steps := 0
|}.


(** the entry of [a.com] in [sites-enabled] is a link to the registry file,
    which has not been written yet *)
Definition w_link_to_registry : World := {|
  fs := list_to_map
          (nginx_dirs ++
           [(["opt"], Dir); (["opt"; "xlinux-sh"], Dir);
            (NGINX_MANAGER_DIR host_fine, Dir);
            (NGINX_ENABLED_DIR // "a.com", Link (SITES_CONFIG host_fine))]);
  steps := 0
|}.

(** [a.com] has a live configuration, and a regular file sits where the
    directory of the backups would go *)
Definition w_backups_blocked : World := {|
  fs := list_to_map
          (nginx_dirs ++
           [(NGINX_CONF_DIR // "a.com", File "server { }");
            (["opt"], Dir); (["opt"; "xlinux-sh"], Dir);
            (NGINX_MANAGER_DIR host_fine, Dir);
            (NGINX_MANAGER_DIR host_fine // "backups", File "")]);
  steps := 0
|}.


(** * More of the program, and what the further lemmas are stated with *)

(** ** core/paths.py: the main configuration and the modules *)

Definition NGINX_MAIN_CONF : Path := ["etc"; "nginx"; "nginx.conf"].

Section MainAndModules.

Context (env : Env).

Definition CONFIGS_MAIN : Path := NGINX_CONFIGS_DIR env // "main".

(** ** nginx/main_conf.py

    The lines that [save_main_config] and [save_module_config] print
    themselves are not recorded; those of the functions they call are. *)

Definition save_main_config (config_content : string) (backup : bool)
  : M bool :=
  let* e := exists_ NGINX_MAIN_CONF in
  let* backup_file :=
    if backup && e
    then backup_config_file env NGINX_MAIN_CONF CONFIGS_MAIN
    else ret None in
  let project_config_file := CONFIGS_MAIN // "nginx.conf" in
  try_except
    (py_write env project_config_file config_content ;;
     sudo_write env NGINX_MAIN_CONF config_content ;;
     let* t := test_nginx_config env in
     if negb t then
       restore_if_backed_up env backup_file NGINX_MAIN_CONF ;;
       ret false
     else ret true)
    is_RuntimeError
    (fun _ =>
       restore_if_backed_up env backup_file NGINX_MAIN_CONF ;;
       ret false).

(** ** nginx/modules.py *)


End MainAndModules.

(** the registry file as an entry of the tree *)
Definition registry_entry (env : Env) (fs : FS) : option string :=
  match fs !! SITES_CONFIG env with
  | Some (File c) => Some c
  | _ => None
  end.

(** [fs] has the links and the registry of [fs0] *)
Definition kept (env : Env) (fs0 fs : FS) : Prop :=
  links_ok fs /\ registry_entry env fs = registry_entry env fs0.

(** ** Frames: what every step of a function preserves and prints *)

(** every step of [m] keeps [I] on the filesystem and prints only
    messages in [P] *)
Definition sound {A : Type} (I : FS -> Prop) (P : Msg -> Prop) (m : M A) : Prop :=
  forall w, I (fs w) ->
    I (fs (after (m w))) /\ forall x, x ∈ printed (m w) -> P x.

(** the messages of [save_nginx_config] *)
Definition save_msg (x : Msg) : Prop :=
  match x with
  | MsgSavedToProject _ | MsgCopiedToSystem _ | MsgNginxTestPassed
  | MsgNginxTestRefused | MsgSaveConfigFailed | MsgRolledBackToBackup => True
  | _ => False
  end.

(** the document root [add_site] uses: the argument, or the directory of
    the domain below [WEB_ROOT_BASE] *)
Definition root_of (domain : string) (root_dir : option Path) : Path :=
  match root_dir with Some r => r | None => WEB_ROOT_BASE // domain end.

(** the record [add_site] builds for a new site *)
Definition site_config (domain : string) (root_dir : Path)
  (enable_php : bool) (created_at : datetime) : items :=
  [("domain", PStr domain);
   ("root_dir", PStr (path_str root_dir));
   ("enable_php", PBool enable_php);
   ("enable_ssl", PBool false);
   ("created_at", PStr (isoformat created_at))].

(** the record of [d] once [bind_ssl_to_site] has set its three fields *)
Definition with_certificate (d : string) (r : items) : items :=
  dict_set "ssl_key" (PStr (path_str (SSL_DIR // d // "key.pem")))
    (dict_set "ssl_cert" (PStr (path_str (SSL_DIR // d // "fullchain.pem")))
       (dict_set "enable_ssl" (PBool true) r)).

(** the package of [nginx/ssl.py] when [web_management] itself is imported
    as a package, the layout its relative imports are written for; the
    program does not load it so, see [ssl_package] *)
Definition nested_package : list string := ["web_management"; "nginx"].

(** ** A host with a JSON codec *)

Definition dquote : string := String (Ascii.ascii_of_nat 34) EmptyString.
Definition newline : string := String (Ascii.ascii_of_nat 10) EmptyString.

(** [json.dumps(v, indent=2, ensure_ascii=False)] on values whose strings
    need no escaping, [indent] being the indentation of the line the value
    starts on *)
Fixpoint json_text (indent : string) (v : pyval) : string :=
  let inner := indent +:+ "  " in
  let block (opening closing : string) (members : list string) :=
    match members with
    | [] => opening +:+ closing
    | _ =>
        opening +:+ newline +:+ inner +:+
        String.concat ("," +:+ newline +:+ inner) members +:+
        newline +:+ indent +:+ closing
    end in
  match v with
  | PNone => "null"
  | PBool b => if b then "true" else "false"
  | PInt z => pretty z
  | PFloat m e => pretty m +:+ "e" +:+ pretty e
  | PStr s => dquote +:+ s +:+ dquote
  | PList l => block "[" "]" (map (json_text inner) l)
  | PDict kvs =>
      block "{" "}"
        (map (fun kv =>
                dquote +:+ fst kv +:+ dquote +:+ ": " +:+
                json_text inner (snd kv)) kvs)
  end.

Definition t0 : datetime :=
  {| year := 2024; month := 5; day := 17; hour := 9; minute := 30;
     second := 0; microsecond := 0 |}.

(** a registry with the one site [a.com], and the same once a certificate
    is bound to it *)
Definition registry_plain : pyval :=
  PDict [("a.com", PDict (site_config "a.com" (WEB_ROOT_BASE // "a.com") false t0))].

Definition registry_bound : pyval :=
  PDict [("a.com",
          PDict (with_certificate "a.com"
                   (site_config "a.com" (WEB_ROOT_BASE // "a.com") false t0)))].

(** a host that reads and writes these two registries, with the given
    outcomes of the operations *)
Definition host_json (ok : nat -> Op -> bool) : Env := {|
  NGINX_MANAGER_DIR := ["opt"; "xlinux-sh"; "web_management"];
  ok := ok;
  clock := fun n => {| year := 2024; month := 5; day := 17; hour := 9;
                       minute := 30; second := n; microsecond := 0 |};
  json_loads := fun s =>
    if String.eqb s (json_text "" registry_plain) then Some registry_plain
    else if String.eqb s (json_text "" registry_bound) then Some registry_bound
    else None;
  json_dumps := json_text "";
  str_format := fun template _ => Some template
|}.

(** every operation goes through but [systemctl reload nginx] *)
Definition host_reload_fails : Env :=
  host_json (fun _ o =>
    match o with
    | Spawn (Sudo Systemctl_reload_nginx) => false
    | _ => true
    end).

Definition host_registry : Env := host_json (fun _ _ => true).

(** [nginx -t] fails, every other operation goes through *)
Definition host_check_fails : Env := host_json (fun _ o => is_file_op o).

(** [a.com] is registered and live, its certificate and key are on disk;
    [b.com] is not registered and has a live configuration *)
Definition w_site : World := {|
  fs := list_to_map
          (nginx_dirs ++
           [(NGINX_CONF_DIR // "a.com", File "server { }");
            (NGINX_CONF_DIR // "b.com", File "server { listen 8080; }");
            (SSL_DIR, Dir); (SSL_DIR // "a.com", Dir);
            (SSL_DIR // "a.com" // "fullchain.pem", File "certificate");
            (SSL_DIR // "a.com" // "key.pem", File "key");
            (["opt"], Dir); (["opt"; "xlinux-sh"], Dir);
            (NGINX_MANAGER_DIR host_registry, Dir);
            (TEMPLATES_DIR host_registry, Dir);
            (TEMPLATES_SITES host_registry, Dir);
            (TEMPLATES_SITES host_registry // "site.conf.template",
             File "include snippets/site.conf;");
            (TEMPLATES_SITES host_registry // "site-ssl.conf.template",
             File "include snippets/site-ssl.conf;");
            (SITES_CONFIG host_registry, File (json_text "" registry_plain));
            (["var"], Dir); (WEB_ROOT_BASE, Dir);
            (WEB_ROOT_BASE // "a.com", Dir);
            (WEB_ROOT_BASE // "a.com" // "index.html", File "<h1>a.com</h1>")]);
  steps := 0
|}.

(** a registry that carries an [enabled] key *)
Definition registry_with_enabled : items :=
  [("a.com",
    PDict (("enabled", PBool true)
           :: site_config "a.com" (WEB_ROOT_BASE // "a.com") false t0))].


(** ** The registry without the [enabled] keys *)

(** what a record is without its [enabled] key *)
Definition strip_record (v : pyval) : pyval :=
  match v with
  | PDict r => PDict (dict_remove "enabled" r)
  | _ => v
  end.

Definition strip_enabled (its : items) : items :=
  map (fun kv => (fst kv, strip_record (snd kv))) its.

(** every value of the registry is a [dict] *)
Definition records (its : items) : Prop :=
  forall k x, (k, x) ∈ its -> exists r, x = PDict r.

(** * Reasoning *)

(** ** Paths *)

Lemma parent_join p n : parent (p // n) = p.
Proof. apply removelast_last. Qed.

Lemma name_join p n : name (p // n) = n.
Proof. apply last_last. Qed.

Lemma path_join_ne p n : p // n <> p.
Proof.
  unfold path_join. intros E. apply (f_equal length) in E.
  rewrite length_app in E. simpl in E. lia.
Qed.

(** two paths built from the path constants differ *)
Ltac path_ne :=
  unfold SITES_CONFIG, BACKUPS_CONFIGS, CONFIGS_SITES, TEMPLATES_SITES,
    NGINX_CONFIGS_DIR, TEMPLATES_DIR, path_join,
    NGINX_CONF_DIR, NGINX_ENABLED_DIR, SSL_DIR, WEB_ROOT_BASE;
  rewrite <- ?app_assoc; simpl;
  let E := fresh "E" in
  intros E;
  first
    [ solve [clear -E; simplify_list_eq; try congruence]
    | match goal with
      | H : hd_error ?M <> Some _ |- _ =>
          revert H E; clear; destruct M as [|? ?]; simpl; intros H E;
          simplify_list_eq; congruence
      end ].

(** ** The filesystem *)

Lemma follow_unfold n fs p :
  follow n fs p =
  match fs !! p with
  | None => None
  | Some (Link t) => match n with O => None | S k => follow k fs t end
  | Some nd => Some (p, nd)
  end.
Proof. by destruct n. Qed.

Lemma stat_lookup fs p :
  stat fs p =
  match fs !! p with
  | None => None
  | Some (Link t) => follow (pred MAXSYMLINKS) fs t
  | Some nd => Some (p, nd)
  end.
Proof. unfold stat. by rewrite follow_unfold. Qed.

Lemma path_exists_lookup fs p :
  path_exists fs p =
  match fs !! p with
  | None => false
  | Some (Link t) => bool_decide (is_Some (follow (pred MAXSYMLINKS) fs t))
  | Some _ => true
  end.
Proof.
  unfold path_exists. rewrite stat_lookup.
  destruct (fs !! p) as [[]|]; try done.
  destruct (follow _ _ _) eqn:E; symmetry.
  - by apply bool_decide_eq_true.
  - apply bool_decide_eq_false. by intros [? ?].
Qed.

Lemma path_exists_delete_eq fs p : path_exists (delete p fs) p = false.
Proof. by rewrite path_exists_lookup, lookup_delete_eq. Qed.

Lemma path_exists_stat fs p x : stat fs p = Some x -> path_exists fs p = true.
Proof. unfold path_exists. by intros ->. Qed.

Lemma path_exists_None fs p : fs !! p = None -> path_exists fs p = false.
Proof. intros H. by rewrite path_exists_lookup, H. Qed.

Lemma path_exists_File fs p c : fs !! p = Some (File c) -> path_exists fs p = true.
Proof. intros H. by rewrite path_exists_lookup, H. Qed.

Lemma path_exists_Dir fs p : fs !! p = Some Dir -> path_exists fs p = true.
Proof. intros H. by rewrite path_exists_lookup, H. Qed.

Lemma is_dir_Dir fs p : fs !! p = Some Dir -> is_dir fs p = true.
Proof.
  intros H. unfold is_dir. rewrite stat_lookup, H. by destruct p.
Qed.

Lemma is_symlink_true fs p :
  is_symlink fs p = true <-> exists t, fs !! p = Some (Link t).
Proof.
  unfold is_symlink. destruct (fs !! p) as [[]|]; naive_solver.
Qed.

(** the file a write lands in was free or a regular file *)
Lemma write_target_lookup n fs p q :
  write_target n fs p = Some q ->
  fs !! q = None \/ exists c, fs !! q = Some (File c).
Proof.
  revert p. induction n as [|n IH]; intros p; simpl;
    destruct (fs !! p) as [[c|t|]|] eqn:E; try done.
  - intros; simplify_eq; eauto.
  - destruct (is_dir _ _); intros; simplify_eq; eauto.
  - intros; simplify_eq; eauto.
  - apply IH.
  - destruct (is_dir _ _); intros; simplify_eq; eauto.
Qed.

(** writing a regular file where none or a regular file was keeps every
    name that resolved resolving *)
Lemma follow_insert_file n fs p q c :
  (fs !! q = None \/ exists c', fs !! q = Some (File c')) ->
  is_Some (follow n fs p) ->
  is_Some (follow n (<[q := File c]> fs) p).
Proof.
  intros Hq. revert p. induction n as [|n IH]; intros p;
    rewrite !follow_unfold; destruct (decide (p = q)) as [->|Hne].
  - rewrite lookup_insert_eq. eauto.
  - rewrite lookup_insert_ne by done. done.
  - rewrite lookup_insert_eq. eauto.
  - rewrite lookup_insert_ne by done.
    destruct (fs !! p) as [[]|]; eauto.
Qed.

Lemma is_symlink_insert_file fs p q c :
  (fs !! q = None \/ exists c', fs !! q = Some (File c')) ->
  is_symlink (<[q := File c]> fs) p = is_symlink fs p.
Proof.
  intros Hq. unfold is_symlink. destruct (decide (p = q)) as [->|Hne].
  - rewrite lookup_insert_eq. by destruct Hq as [->|[? ->]].
  - by rewrite lookup_insert_ne.
Qed.

(** ** A program logic for the monad *)

Section Logic.

Context (env : Env).

Lemma wp_ret {A} (a : A) w (Q : Res A -> World -> list Msg -> Prop) :
  Q (Val a) w [] -> wp (ret a) w Q.
Proof. done. Qed.

Lemma wp_raise {A} e w (Q : Res A -> World -> list Msg -> Prop) :
  Q (Raise e) w [] -> wp (raise e) w Q.
Proof. done. Qed.

Lemma wp_bind {A B} (m : M A) (k : A -> M B) w
  (Q : Res B -> World -> list Msg -> Prop) :
  wp m w (fun r w1 l1 =>
    match r with
    | Val a => wp (k a) w1 (fun r' w2 l2 => Q r' w2 (l1 ++ l2))
    | Raise e => Q (Raise e) w1 l1
    end) ->
  wp (bind m k) w Q.
Proof. unfold wp, bind. by destruct (result (m w)). Qed.

Lemma wp_try {A} (m : M A) (c : Exn -> bool) (h : Exn -> M A) w
  (Q : Res A -> World -> list Msg -> Prop) :
  wp m w (fun r w1 l1 =>
    match r with
    | Val a => Q (Val a) w1 l1
    | Raise e =>
        if c e then wp (h e) w1 (fun r' w2 l2 => Q r' w2 (l1 ++ l2))
        else Q (Raise e) w1 l1
    end) ->
  wp (try_except m c h) w Q.
Proof.
  unfold wp, try_except. destruct (result (m w)) eqn:E; [by rewrite E|].
  destruct (c e); [done | by rewrite E].
Qed.

(** a fact on the run of [m] from [w] is a weakest precondition *)
Lemma wp_run_of {A} (m : M A) w (Q : Res A -> World -> list Msg -> Prop) :
  Q (result (m w)) (after (m w)) (printed (m w)) -> wp m w Q.
Proof. done. Qed.

Lemma wp_print m w (Q : Res unit -> World -> list Msg -> Prop) :
  Q (Val tt) w [m] -> wp (print_colored m) w Q.
Proof. done. Qed.

Lemma wp_exists p w (Q : Res bool -> World -> list Msg -> Prop) :
  Q (Val (path_exists (fs w) p)) w [] -> wp (exists_ p) w Q.
Proof. done. Qed.

Lemma wp_now w (Q : Res datetime -> World -> list Msg -> Prop) :
  Q (Val (clock env (steps w))) w [] -> wp (now env) w Q.
Proof. done. Qed.

Lemma wp_or_raise {A} e (o : option A) w
  (Q : Res A -> World -> list Msg -> Prop) :
  match o with Some a => Q (Val a) w [] | None => Q (Raise e) w [] end ->
  wp (or_raise e o) w Q.
Proof. by destruct o. Qed.

Lemma wp_is_site_enabled d w (Q : Res bool -> World -> list Msg -> Prop) :
  Q (Val (path_exists (fs w) (NGINX_ENABLED_DIR // d)
          && is_symlink (fs w) (NGINX_ENABLED_DIR // d))) w [] ->
  wp (is_site_enabled d) w Q.
Proof. done. Qed.

(** A command is stopped by the host, or has its effect and its status. *)
Lemma wp_run (c : Cmd) (check sudo : bool) w
  (Q : Res bool -> World -> list Msg -> Prop) :
  (ok env (steps w) (Spawn (if sudo then Sudo c else c)) = false ->
   Q (if check then Raise RuntimeError else Val false) (tick w (fs w)) []) ->
  (ok env (steps w) (Spawn (if sudo then Sudo c else c)) = true ->
   forall fs' b, effect c (fs w) = (fs', b) ->
   Q (if b then Val true else if check then Raise RuntimeError else Val false)
     (tick w fs') []) ->
  wp (run env c check sudo) w Q.
Proof.
  intros Hf Ht. unfold wp, run, bind, spawn.
  destruct (ok env _ _) eqn:E.
  - replace (effect (if sudo then Sudo c else c) (fs w))
      with (effect c (fs w)) by by destruct sudo.
    destruct (effect c (fs w)) as [fs' b] eqn:Ee.
    specialize (Ht eq_refl _ _ eq_refl).
    destruct b, check; simpl; exact Ht.
  - specialize (Hf eq_refl). destruct check; exact Hf.
Qed.

Lemma wp_run_ (c : Cmd) (check sudo : bool) w
  (Q : Res unit -> World -> list Msg -> Prop) :
  (ok env (steps w) (Spawn (if sudo then Sudo c else c)) = false ->
   Q (if check then Raise RuntimeError else Val tt) (tick w (fs w)) []) ->
  (ok env (steps w) (Spawn (if sudo then Sudo c else c)) = true ->
   forall fs' b, effect c (fs w) = (fs', b) ->
   Q (if b then Val tt else if check then Raise RuntimeError else Val tt)
     (tick w fs') []) ->
  wp (run_ env c check sudo) w Q.
Proof.
  intros Hf Ht. unfold run_. apply wp_bind, wp_run.
  - intros E. specialize (Hf E). destruct check; [done | by apply wp_ret].
  - intros E fs' b Eb. specialize (Ht E fs' b Eb).
    destruct b, check; try done; by apply wp_ret.
Qed.

(** [sudo rm -f p] removes the entry unless it is a directory *)
Lemma wp_rm_f p (check : bool) w (Q : Res unit -> World -> list Msg -> Prop) :
  (ok env (steps w) (Spawn (Sudo (Rm_f p))) = true ->
   fs w !! p <> Some Dir ->
   Q (Val tt) (tick w (delete p (fs w))) []) ->
  (ok env (steps w) (Spawn (Sudo (Rm_f p))) = false \/ fs w !! p = Some Dir ->
   Q (if check then Raise RuntimeError else Val tt) (tick w (fs w)) []) ->
  wp (run_ env (Rm_f p) check true) w Q.
Proof.
  intros Hs Hf. apply wp_run_; [eauto|].
  intros E fs' b. simpl. unfold rm_f.
  destruct (fs w !! p) as [[]|] eqn:El; intros; simplify_eq.
  - by apply Hs.
  - by apply Hs.
  - apply Hf. by right.
  - rewrite (delete_id (fs w) p El) in Hs. by apply Hs.
Qed.

(** [sudo ln -s t l] *)
Lemma wp_ln_s t l (check : bool) w (Q : Res unit -> World -> list Msg -> Prop) :
  (forall fs',
   ok env (steps w) (Spawn (Sudo (Ln_s t l))) = true ->
   ln_s (fs w) t l = Some fs' ->
   Q (Val tt) (tick w fs') []) ->
  (ok env (steps w) (Spawn (Sudo (Ln_s t l))) = false \/
   ln_s (fs w) t l = None ->
   Q (if check then Raise RuntimeError else Val tt) (tick w (fs w)) []) ->
  wp (run_ env (Ln_s t l) check true) w Q.
Proof.
  intros Hs Hf. apply wp_run_; [eauto|].
  intros E fs' b. simpl.
  destruct (ln_s (fs w) t l) eqn:El; intros; simplify_eq; eauto.
Qed.

Lemma wp_test_nginx_config w (Q : Res bool -> World -> list Msg -> Prop) :
  (ok env (steps w) (Spawn (Sudo Nginx_t)) = true ->
   Q (Val true) (tick w (fs w)) [MsgNginxTestPassed]) ->
  (ok env (steps w) (Spawn (Sudo Nginx_t)) = false ->
   Q (Val false) (tick w (fs w)) [MsgNginxTestRefused]) ->
  wp (test_nginx_config env) w Q.
Proof.
  intros Hp Hr. unfold test_nginx_config.
  apply wp_try, wp_bind, wp_run_.
  - intros E. cbn [is_RuntimeError]. apply wp_bind, wp_print, wp_ret.
    by apply Hr.
  - intros E fs' b [= <- <-]. apply wp_bind, wp_print, wp_ret. by apply Hp.
Qed.

Lemma wp_reload_nginx w (Q : Res bool -> World -> list Msg -> Prop) :
  (ok env (steps w) (Spawn (Sudo Nginx_t)) = false ->
   Q (Val false) (tick w (fs w)) [MsgNginxTestRefused]) ->
  (ok env (steps w) (Spawn (Sudo Nginx_t)) = true ->
   ok env (S (steps w)) (Spawn (Sudo Systemctl_reload_nginx)) = false ->
   Q (Val false) (tick (tick w (fs w)) (fs w))
     [MsgNginxTestPassed; MsgNginxReloadFailed]) ->
  (ok env (steps w) (Spawn (Sudo Nginx_t)) = true ->
   ok env (S (steps w)) (Spawn (Sudo Systemctl_reload_nginx)) = true ->
   Q (Val true) (tick (tick w (fs w)) (fs w))
     [MsgNginxTestPassed; MsgNginxReloaded]) ->
  wp (reload_nginx env) w Q.
Proof.
  intros H1 H2 H3. unfold reload_nginx. apply wp_bind, wp_test_nginx_config.
  - intros E. cbn [negb]. apply wp_try, wp_bind, wp_run_.
    + intros E2. cbn [is_RuntimeError]. apply wp_bind, wp_print, wp_ret.
      by apply H2.
    + intros E2 fs' b [= <- <-]. apply wp_bind, wp_print, wp_ret.
      by apply H3.
  - intros E. cbn [negb]. apply wp_ret. by apply H1.
Qed.

End Logic.

(** what [ln -s] did when it succeeded *)
Lemma ln_s_Some fs t l fs' :
  ln_s fs t l = Some fs' ->
  (fs !! l = None /\ fs' = <[l := Link t]> fs) \/
  (exists q, is_Some (fs !! l) /\ stat fs l = Some (q, Dir) /\
             fs' = <[q // name t := Link t]> fs).
Proof.
  unfold ln_s. destruct (fs !! l) eqn:El.
  - destruct (stat fs l) as [[q []]|]; try done.
    destruct (fs !! (q // name t)); intros; simplify_eq; eauto 10.
  - destruct (is_dir _ _); intros; simplify_eq; eauto.
Qed.


(** ** Dictionaries *)

Lemma dict_get_set_eq k v d : dict_get k (dict_set k v d) = Some v.
Proof.
  induction d as [|[k' v'] d IH]; simpl.
  - by rewrite String.eqb_refl.
  - destruct (String.eqb k k') eqn:E; simpl; by rewrite ?E, ?String.eqb_refl.
Qed.

Lemma dict_get_set_ne k k' v d :
  k <> k' -> dict_get k' (dict_set k v d) = dict_get k' d.
Proof.
  intros Hne. induction d as [|[k0 v0] d IH]; simpl.
  - by apply String.eqb_neq in Hne; rewrite String.eqb_sym, Hne.
  - destruct (String.eqb k k0) eqn:E; simpl.
    + apply String.eqb_eq in E as <-.
      by apply String.eqb_neq in Hne; rewrite String.eqb_sym, Hne.
    + by rewrite IH.
Qed.







Lemma map_PStr_fst (kvs : items) :
  map (fun kv => PStr (fst kv)) kvs = map PStr (map fst kvs).
Proof. by rewrite map_map. Qed.




(** ** Files *)

(** what is read after a write is what was written *)
Lemma follow_write_target n fs p q c :
  write_target n fs p = Some q ->
  follow n (<[q := File c]> fs) p = Some (q, File c).
Proof.
  revert p. induction n as [|n IH]; intros p; simpl;
    destruct (fs !! p) as [[c'|t|]|] eqn:E; try done.
  - intros [= <-]. by rewrite lookup_insert_eq.
  - destruct (is_dir _ _); [|done]. intros [= <-]. by rewrite lookup_insert_eq.
  - intros [= <-]. by rewrite lookup_insert_eq.
  - intros H. destruct (decide (p = q)) as [->|Hne].
    + apply write_target_lookup in H as [H|[? H]]; congruence.
    + rewrite lookup_insert_ne, E by done. by apply IH.
  - destruct (is_dir _ _); [|done]. intros [= <-]. by rewrite lookup_insert_eq.
Qed.

Lemma read_file_write_file fs p c fs' :
  write_file fs p c = Some fs' -> read_file fs' p = Some c.
Proof.
  unfold write_file, read_file, stat.
  destruct (write_target _ _ _) as [q|] eqn:E; [|done]. intros [= <-].
  by rewrite (follow_write_target _ _ _ _ _ E).
Qed.

Section LogicIO.

Context (env : Env).

Lemma wp_py_write p c w (Q : Res unit -> World -> list Msg -> Prop) :
  (forall fs',
   ok env (steps w) (PyOpenWrite p) = true ->
   write_file (fs w) p c = Some fs' ->
   Q (Val tt) (tick w fs') []) ->
  (ok env (steps w) (PyOpenWrite p) = false \/ write_file (fs w) p c = None ->
   Q (Raise OSError) (tick w (fs w)) []) ->
  wp (py_write env p c) w Q.
Proof.
  intros Hs Hf. unfold wp, py_write.
  destruct (ok env _ _); [|by apply Hf; left].
  destruct (write_file _ _ _) eqn:E; [by apply Hs | by apply Hf; right].
Qed.

Lemma wp_py_read p w (Q : Res string -> World -> list Msg -> Prop) :
  (forall c,
   ok env (steps w) (PyOpenRead p) = true ->
   read_file (fs w) p = Some c ->
   Q (Val c) (tick w (fs w)) []) ->
  (ok env (steps w) (PyOpenRead p) = false \/ read_file (fs w) p = None ->
   Q (Raise OSError) (tick w (fs w)) []) ->
  wp (py_read env p) w Q.
Proof.
  intros Hs Hf. unfold wp, py_read.
  destruct (ok env _ _); [|by apply Hf; left].
  destruct (read_file _ _) eqn:E; [by apply Hs | by apply Hf; right].
Qed.

Lemma wp_py_mkdir p w (Q : Res unit -> World -> list Msg -> Prop) :
  (ok env (steps w) (PyMkdir p) = true ->
   (mkdir_p (fs w) p).2 = true ->
   Q (Val tt) (tick w (mkdir_p (fs w) p).1) []) ->
  (forall fs',
   ok env (steps w) (PyMkdir p) = false /\ fs' = fs w \/
   ok env (steps w) (PyMkdir p) = true /\ (mkdir_p (fs w) p).2 = false /\
   fs' = (mkdir_p (fs w) p).1 ->
   Q (Raise OSError) (tick w fs') []) ->
  wp (py_mkdir env p) w Q.
Proof.
  intros Hs Hf. unfold wp, py_mkdir.
  destruct (ok env _ _); [|by apply Hf; left].
  destruct (mkdir_p (fs w) p) as [fs' []] eqn:E; cbn [result after printed finish].
  - by apply Hs.
  - apply Hf. by right.
Qed.

Lemma wp_cp s d (check : bool) w (Q : Res unit -> World -> list Msg -> Prop) :
  (forall fs',
   ok env (steps w) (Spawn (Sudo (Cp s d))) = true ->
   cp (fs w) s d = Some fs' ->
   Q (Val tt) (tick w fs') []) ->
  (ok env (steps w) (Spawn (Sudo (Cp s d))) = false \/ cp (fs w) s d = None ->
   Q (if check then Raise RuntimeError else Val tt) (tick w (fs w)) []) ->
  wp (run_ env (Cp s d) check true) w Q.
Proof.
  intros Hs Hf. apply wp_run_; [eauto|].
  intros E fs' b. simpl.
  destruct (cp (fs w) s d) eqn:El; intros; simplify_eq; eauto.
Qed.

(** [save_sites_config] either writes the cleaned registry and returns
    [True], or leaves the filesystem as it was *)
Lemma save_sites_config_run config w :
  (exists its clean fs',
     config = PDict its /\ clean_loop its [] = Some clean /\
     write_file (fs w) (SITES_CONFIG env)
       (json_dumps env (PDict clean)) = Some fs' /\
     result (save_sites_config env config w) = Val true /\
     fs (after (save_sites_config env config w)) = fs') \/
  (result (save_sites_config env config w) <> Val true /\
   fs (after (save_sites_config env config w)) = fs w).
Proof.
  change (wp (save_sites_config env config) w (fun r w' _ =>
    (exists its clean fs',
       config = PDict its /\ clean_loop its [] = Some clean /\
       write_file (fs w) (SITES_CONFIG env)
         (json_dumps env (PDict clean)) = Some fs' /\
       r = Val true /\ fs w' = fs') \/
    (r <> Val true /\ fs w' = fs w))).
  unfold save_sites_config.
  destruct config as [| | | | |l|its]; try (apply wp_raise; by right).
  apply wp_bind, wp_or_raise.
  destruct (clean_loop its []) as [clean|] eqn:Ec; [|by right].
  apply wp_try, wp_bind, wp_py_write.
  - intros fs' _ Hw. apply wp_ret. left. by exists its, clean, fs'.
  - intros _. simpl. apply wp_bind, wp_print, wp_ret. by right.
Qed.

End LogicIO.


(** ** Creating directories *)

Lemma follow_insert_fresh n fs p q nd x :
  fs !! q = None ->
  follow n fs p = Some x -> follow n (<[q := nd]> fs) p = Some x.
Proof.
  intros Hq. revert p. induction n as [|n IH]; intros p;
    rewrite !follow_unfold; destruct (decide (p = q)) as [->|Hne];
    rewrite ?Hq, ?lookup_insert_ne by done; try done.
  destruct (fs !! p) as [[]|]; eauto.
Qed.

Lemma mkdirs_lookup_Some fs pre rest p x :
  fs !! p = Some x -> (mkdirs fs pre rest).1 !! p = Some x.
Proof.
  revert fs pre. induction rest as [|c rest IH]; intros fs pre Hp; simpl;
    [done|].
  destruct (fs !! (pre // c)) eqn:E.
  - destruct (is_dir fs (pre // c)); [by apply IH | done].
  - apply IH. rewrite lookup_insert_ne; [done | congruence].
Qed.

Lemma mkdirs_lookup_inv fs pre rest p x :
  (mkdirs fs pre rest).1 !! p = Some x -> x = Dir \/ fs !! p = Some x.
Proof.
  revert fs pre. induction rest as [|c rest IH]; intros fs pre; simpl;
    [by right|].
  destruct (fs !! (pre // c)) eqn:E.
  - destruct (is_dir fs (pre // c)); [apply IH | by right].
  - intros [->|H]%IH; [by left|].
    destruct (decide (pre // c = p)) as [<-|Hne].
    + rewrite lookup_insert_eq in H. left. congruence.
    + rewrite lookup_insert_ne in H by done. by right.
Qed.

Lemma mkdirs_lookup_longer fs pre rest p :
  length (pre ++ rest) < length p -> (mkdirs fs pre rest).1 !! p = fs !! p.
Proof.
  revert fs pre. induction rest as [|c rest IH]; intros fs pre Hlen; simpl;
    [done|].
  assert (Hlen' : length ((pre // c) ++ rest) < length p)
    by (unfold path_join; by rewrite <- app_assoc).
  assert (Hne : pre // c <> p).
  { intros <-. rewrite length_app in Hlen'. lia. }
  destruct (fs !! (pre // c)) eqn:E.
  - destruct (is_dir fs (pre // c)); [by apply IH | done].
  - rewrite IH by done. by rewrite lookup_insert_ne.
Qed.

Lemma mkdirs_follow n fs pre rest p x :
  follow n fs p = Some x -> follow n (mkdirs fs pre rest).1 p = Some x.
Proof.
  revert fs pre. induction rest as [|c rest IH]; intros fs pre Hp; simpl;
    [done|].
  destruct (fs !! (pre // c)) eqn:E.
  - destruct (is_dir fs (pre // c)); [by apply IH | done].
  - apply IH. by apply follow_insert_fresh.
Qed.

Lemma is_dir_mkdirs fs pre rest p :
  is_dir fs p = true -> is_dir (mkdirs fs pre rest).1 p = true.
Proof.
  unfold is_dir, stat. destruct p as [|a p]; [done|].
  destruct (follow _ fs _) as [[q []]|] eqn:E; try done.
  by rewrite (mkdirs_follow _ _ _ _ _ _ E).
Qed.

Lemma mkdirs_is_dir fs pre rest :
  is_dir fs pre = true ->
  (mkdirs fs pre rest).2 = true ->
  is_dir (mkdirs fs pre rest).1 (pre ++ rest) = true.
Proof.
  revert fs pre. induction rest as [|c rest IH]; intros fs pre Hpre; simpl.
  - by rewrite app_nil_r.
  - replace (pre ++ c :: rest) with ((pre // c) ++ rest)
      by (unfold path_join; by rewrite <- app_assoc).
    destruct (fs !! (pre // c)) eqn:E.
    + destruct (is_dir fs (pre // c)) eqn:Ed; [by apply IH | done].
    + apply IH. apply is_dir_Dir. by rewrite lookup_insert_eq.
Qed.

Lemma mkdir_p_is_dir fs p :
  (mkdir_p fs p).2 = true -> is_dir (mkdir_p fs p).1 p = true.
Proof. intros H. by apply (mkdirs_is_dir fs [] p). Qed.

(** ** Operations on entries that are no links *)

Lemma stat_not_link fs p :
  (forall t, fs !! p <> Some (Link t)) ->
  stat fs p = match fs !! p with Some nd => Some (p, nd) | None => None end.
Proof.
  intros H. rewrite stat_lookup. destruct (fs !! p) as [[]|] eqn:E; try done.
  by destruct (H target).
Qed.

Lemma write_file_not_link fs p c fs' :
  (forall t, fs !! p <> Some (Link t)) ->
  write_file fs p c = Some fs' -> fs' = <[p := File c]> fs.
Proof.
  intros H. unfold write_file, MAXSYMLINKS. simpl.
  destruct (fs !! p) as [[]|] eqn:E; try done.
  - by intros [= <-].
  - by destruct (H target).
  - destruct (is_dir fs (parent p)); [|done]. by intros [= <-].
Qed.

Lemma write_file_File fs p c c' :
  fs !! p = Some (File c') -> write_file fs p c = Some (<[p := File c]> fs).
Proof. intros H. unfold write_file, MAXSYMLINKS. simpl. by rewrite H. Qed.

Lemma write_file_fresh fs p c :
  fs !! p = None -> is_dir fs (parent p) = true ->
  write_file fs p c = Some (<[p := File c]> fs).
Proof. intros H Hd. unfold write_file, MAXSYMLINKS. simpl. by rewrite H, Hd. Qed.

Lemma cp_File_fresh fs s d c :
  fs !! s = Some (File c) -> fs !! d = None -> is_dir fs (parent d) = true ->
  cp fs s d = Some (<[d := File c]> fs).
Proof.
  intros Hs Hd Hp. unfold cp. rewrite !stat_lookup, Hs, Hd. by rewrite Hp.
Qed.

Lemma cp_File_File fs s d c c' :
  fs !! s = Some (File c) -> fs !! d = Some (File c') -> s <> d ->
  cp fs s d = Some (<[d := File c]> fs).
Proof.
  intros Hs Hd Hne. unfold cp. rewrite !stat_lookup, Hs, Hd.
  by rewrite decide_False by done.
Qed.

Lemma follow_insert_same n fs p t e c :
  (fs !! t = None \/ exists c', fs !! t = Some (File c')) ->
  follow n fs p = Some (e, File c) ->
  follow n (<[t := File c]> fs) p = Some (e, File c).
Proof.
  intros Ht. revert p. induction n as [|n IH]; intros p;
    rewrite !follow_unfold; destruct (decide (p = t)) as [->|Hne];
    rewrite ?lookup_insert_eq, ?lookup_insert_ne by done; try done.
  - destruct Ht as [->|[c' ->]]; [done|]. by intros [= <- <-].
  - destruct Ht as [->|[c' ->]]; [done|]. by intros [= <- <-].
  - destruct (fs !! p) as [[]|]; eauto.
Qed.

Lemma read_file_write_same fs p q c fs' :
  read_file fs p = Some c -> write_file fs q c = Some fs' ->
  read_file fs' p = Some c.
Proof.
  unfold read_file, write_file, stat.
  destruct (follow _ fs p) as [[e [c0| |]]|] eqn:Ef; try done.
  intros [= ->].
  destruct (write_target _ _ _) as [t|] eqn:Et; [|done]. intros [= <-].
  apply write_target_lookup in Et.
  by rewrite (follow_insert_same _ _ _ _ _ _ Et Ef).
Qed.

Lemma read_file_mkdirs fs pre rest p c :
  read_file fs p = Some c -> read_file (mkdirs fs pre rest).1 p = Some c.
Proof.
  unfold read_file, stat.
  destruct (follow _ fs p) as [[e [c0| |]]|] eqn:Ef; try done.
  intros [= ->]. by rewrite (mkdirs_follow _ _ _ _ _ _ Ef).
Qed.


Section LogicCmd.
Context (env : Env).

Lemma wp_sudo_write p c w (Q : Res unit -> World -> list Msg -> Prop) :
  (forall fs',
   ok env (steps w) (Spawn (Sudo (Tee p c))) = true ->
   write_file (fs w) p c = Some fs' ->
   Q (Val tt) (tick w fs') []) ->
  (ok env (steps w) (Spawn (Sudo (Tee p c))) = false \/
   write_file (fs w) p c = None ->
   Q (Raise RuntimeError) (tick w (fs w)) []) ->
  wp (sudo_write env p c) w Q.
Proof.
  intros Hs Hf. unfold wp, sudo_write, bind, spawn.
  destruct (ok env _ _); [|by apply Hf; left]. simpl.
  destruct (write_file _ _ _) eqn:E; [by apply Hs | by apply Hf; right].
Qed.

Lemma wp_mkdir_p p (check : bool) w
  (Q : Res unit -> World -> list Msg -> Prop) :
  (ok env (steps w) (Spawn (Sudo (Mkdir_p p))) = true ->
   (mkdir_p (fs w) p).2 = true ->
   Q (Val tt) (tick w (mkdir_p (fs w) p).1) []) ->
  (forall fs',
   ok env (steps w) (Spawn (Sudo (Mkdir_p p))) = false /\ fs' = fs w \/
   ok env (steps w) (Spawn (Sudo (Mkdir_p p))) = true /\
   (mkdir_p (fs w) p).2 = false /\ fs' = (mkdir_p (fs w) p).1 ->
   Q (if check then Raise RuntimeError else Val tt) (tick w fs') []) ->
  wp (run_ env (Mkdir_p p) check true) w Q.
Proof.
  intros Hs Hf. apply wp_run_; [by eauto|].
  intros E fs' b. simpl. destruct (mkdir_p (fs w) p) as [fs1 b1] eqn:Em.
  intros [= <- <-]. destruct b1; [by apply Hs | apply Hf; by right].
Qed.

(** [chown] and [chmod] leave the tree as it is *)
Lemma wp_run_chown r o p (check : bool) w
  (Q : Res unit -> World -> list Msg -> Prop) :
  Q (Val tt) (tick w (fs w)) [] ->
  Q (if check then Raise RuntimeError else Val tt) (tick w (fs w)) [] ->
  wp (run_ env (Chown r o p) check true) w Q.
Proof.
  intros Hs Hf. apply wp_run_; [done|].
  intros E fs' b [= <- <-]. by destruct (path_exists _ _).
Qed.

Lemma wp_run_chmod m p (check : bool) w
  (Q : Res unit -> World -> list Msg -> Prop) :
  Q (Val tt) (tick w (fs w)) [] ->
  Q (if check then Raise RuntimeError else Val tt) (tick w (fs w)) [] ->
  wp (run_ env (Chmod m p) check true) w Q.
Proof.
  intros Hs Hf. apply wp_run_; [done|].
  intros E fs' b [= <- <-]. by destruct (path_exists _ _).
Qed.

End LogicCmd.

(** ** Tactics *)

Ltac wp_step :=
  lazymatch goal with
  | |- wp (bind _ _) _ _ => apply wp_bind
  | |- wp (ret _) _ _ => apply wp_ret
  | |- wp (raise _) _ _ => apply wp_raise
  | |- wp (try_except _ _ _) _ _ => apply wp_try
  | |- wp (print_colored _) _ _ => apply wp_print
  | |- wp (exists_ _) _ _ => apply wp_exists
  | |- wp (now _) _ _ => apply wp_now
  | |- wp (or_raise _ _) _ _ => apply wp_or_raise
  | |- wp (is_site_enabled _) _ _ => apply wp_is_site_enabled
  | |- wp (py_write _ _ _) _ _ => apply wp_py_write; [intros ? ? ? | intros ?]
  | |- wp (py_read _ _) _ _ => apply wp_py_read; [intros ? ? ? | intros ?]
  | |- wp (py_mkdir _ _) _ _ => apply wp_py_mkdir; [intros ? ? | intros ? ?]
  | |- wp (run_ _ (Cp _ _) _ true) _ _ =>
      apply wp_cp; [intros ? ? ? | intros ?]
  | |- wp (sudo_write _ _ _) _ _ =>
      apply wp_sudo_write; [intros ? ? ? | intros ?]
  | |- wp (run_ _ (Mkdir_p _) _ true) _ _ =>
      apply wp_mkdir_p; [intros ? ? | intros ? ?]
  | |- wp (run_ _ (Chown _ _ _) _ true) _ _ => apply wp_run_chown
  | |- wp (run_ _ (Chmod _ _) _ true) _ _ => apply wp_run_chmod
  | |- wp (run_ _ (Rm_f _) _ true) _ _ =>
      apply wp_rm_f; [intros ? ? | intros ?]
  | |- wp (run_ _ (Ln_s _ _) _ true) _ _ =>
      apply wp_ln_s;
      [intros ? ? [[? ->]|(? & ? & ? & ->)]%ln_s_Some | intros ?]
  | |- wp (test_nginx_config _) _ _ =>
      apply wp_test_nginx_config; intros ?
  | |- wp (reload_nginx _) _ _ =>
      apply wp_reload_nginx; [intros ? | intros ? ? | intros ? ?]
  end.

Ltac wp_rew :=
  match goal with
  | H : ?b = true |- _ => rewrite H
  | H : ?b = false |- _ => rewrite H
  end.

Ltac bool_atom b :=
  lazymatch b with
  | negb ?c => bool_atom c
  | andb ?c _ => bool_atom c
  | orb ?c _ => bool_atom c
  | _ => b
  end.

Ltac wp_case :=
  lazymatch goal with
  | |- wp (when ?b _) _ _ => let a := bool_atom b in destruct a eqn:?
  | |- wp (if ?b then _ else _) _ _ => let a := bool_atom b in destruct a eqn:?
  end.

Ltac wp_go :=
  repeat first
    [ wp_step
    | progress lazy beta iota
    | progress cbn [negb andb orb when tick fs steps app
                    is_RuntimeError is_Exception]
    | wp_rew
    | rewrite path_exists_delete_eq
    | wp_case ].

(** membership of a message in an explicit list *)
Ltac msgs :=
  rewrite ?elem_of_cons, ?elem_of_nil in *; intuition (try discriminate).

(** hypotheses that cannot hold *)
Ltac absurd_host Hrel :=
  repeat match goal with
  | H : ok _ _ _ = false \/ _ |- _ => destruct H as [H|H]
  | H : ok _ _ _ = false |- _ => rewrite Hrel in H by done; discriminate H
  | H : ok _ _ _ = true |- _ => rewrite Hrel in H by done; discriminate H
  | H : is_Some (delete ?p _ !! ?p) |- _ =>
      rewrite lookup_delete_eq in H; destruct H as [? H]; discriminate H
  | H : <[?p := _]> _ !! ?p = _ |- _ =>
      rewrite lookup_insert_eq in H; discriminate H
  | H : stat ?f ?p = Some _, H' : path_exists ?f ?p = false |- _ =>
      rewrite (path_exists_stat _ _ _ H) in H'; discriminate H'
  end.



(** * Writing a site configuration *)

Section Save.
Context (env : Env).

Lemma save_nginx_config_lockstep (d c : string) (b : bool) (w : World) :
  result (save_nginx_config env d c b w) = Val true ->
  read_file (fs (after (save_nginx_config env d c b w)))
    (CONFIGS_SITES env // (d +:+ ".conf")) = Some c /\
  read_file (fs (after (save_nginx_config env d c b w)))
    (NGINX_CONF_DIR // d) = Some c.
Proof.
  change (wp (save_nginx_config env d c b) w (fun r w' _ =>
    r = Val true ->
    read_file (fs w') (CONFIGS_SITES env // (d +:+ ".conf")) = Some c /\
    read_file (fs w') (NGINX_CONF_DIR // d) = Some c)).
  unfold save_nginx_config.
  apply wp_bind, wp_exists, wp_bind.
  apply wp_run_of.
  generalize (printed ((if b && path_exists (fs w) (NGINX_CONF_DIR // d)
      then backup_config_file env (NGINX_CONF_DIR // d) (BACKUPS_CONFIGS env)
      else ret None) w)).
  generalize (after ((if b && path_exists (fs w) (NGINX_CONF_DIR // d)
      then backup_config_file env (NGINX_CONF_DIR // d) (BACKUPS_CONFIGS env)
      else ret None) w)).
  destruct (result _) as [[backup_file|]|e]; [| |done]; intros w1 l1.
  all: unfold restore_if_backed_up, restore_config_file.
  all: wp_go; try done.
  all: cbn [fs tick steps] in *.
  all: intros _.
  all: split; [|by eapply read_file_write_file].
  all: eapply read_file_write_same; [|done].
  all: try apply read_file_mkdirs.
  all: by eapply read_file_write_file.
Qed.


Lemma mkdir_p_lookup_Some fs q p x :
  fs !! p = Some x -> (mkdir_p fs q).1 !! p = Some x.
Proof. apply mkdirs_lookup_Some. Qed.

Lemma mkdir_p_lookup_longer fs q p :
  length q < length p -> (mkdir_p fs q).1 !! p = fs !! p.
Proof. intros H. by apply mkdirs_lookup_longer. Qed.

Lemma lookup_insert_Some_ne (fs : FS) p q v x :
  p <> q -> fs !! q = Some x -> <[p := v]> fs !! q = Some x.
Proof. intros. by rewrite lookup_insert_ne. Qed.

Lemma lookup_insert_Some_eq (fs : FS) p v : <[p := v]> fs !! p = Some v.
Proof. apply lookup_insert_eq. Qed.

Lemma no_link_at_insert_File fs p q c :
  no_link_at fs p -> no_link_at (<[q := File c]> fs) p.
Proof.
  intros H t. destruct (decide (q = p)) as [->|Hne].
  - by rewrite lookup_insert_eq.
  - rewrite lookup_insert_ne by done. apply H.
Qed.

Lemma no_link_at_mkdir_p fs q p :
  no_link_at fs p -> no_link_at (mkdir_p fs q).1 p.
Proof. intros H t [[=]|E]%mkdirs_lookup_inv. by apply (H t). Qed.

Lemma no_link_at_Some fs p x :
  fs !! p = Some x -> (forall t, x <> Link t) -> no_link_at fs p.
Proof. intros H Hx t E. rewrite H in E. injection E as ->. by apply (Hx t). Qed.

Lemma no_link_at_None fs p : fs !! p = None -> no_link_at fs p.
Proof. intros H t E. by rewrite H in E. Qed.

Lemma cp_plain fs s d c :
  fs !! s = Some (File c) ->
  no_link_at fs d ->
  fs !! d <> Some Dir ->
  (fs !! d = None -> is_dir fs (parent d) = true) ->
  s <> d ->
  cp fs s d = Some (<[d := File c]> fs).
Proof.
  intros Hs Hl Hd Hp Hne. destruct (fs !! d) as [[c'|t|]|] eqn:E.
  - by eapply cp_File_File.
  - by destruct (Hl t).
  - done.
  - apply cp_File_fresh; auto.
Qed.

Lemma mkdir_p_not_Dir fs q p :
  length q < length p -> fs !! p <> Some Dir ->
  (mkdir_p fs q).1 !! p <> Some Dir.
Proof. intros H. by rewrite mkdir_p_lookup_longer. Qed.

Lemma length_path_join p n : length (p // n) = S (length p).
Proof. unfold path_join. rewrite length_app. simpl. lia. Qed.

(** lengths of paths built from the path constants *)
Ltac path_len :=
  unfold SITES_CONFIG, BACKUPS_CONFIGS, CONFIGS_SITES, TEMPLATES_SITES,
    NGINX_CONFIGS_DIR, TEMPLATES_DIR;
  rewrite ?length_path_join; simpl; lia.

(** two of the paths at hand differ *)
Ltac ne :=
  first
    [ assumption
    | apply not_eq_sym; assumption
    | match goal with H : forall n, _ <> _ |- _ => apply H end
    | apply not_eq_sym; match goal with H : forall n, _ <> _ |- _ => apply H end
    | solve [path_ne] ].

(** the entry at a path, through the writes made so far *)
Ltac fs_lookup :=
  solve
    [ repeat first
        [ eassumption
        | apply lookup_insert_Some_eq
        | apply lookup_insert_Some_ne; [solve [ne] |]
        | apply mkdir_p_lookup_Some ] ].

Ltac fs_no_link :=
  solve
    [ repeat first
        [ assumption
        | match goal with H : forall n, no_link_at _ _ |- _ => apply H end
        | apply no_link_at_insert_File
        | apply no_link_at_mkdir_p
        | eapply no_link_at_Some; [fs_lookup | done] ] ].

(** replace what the hypotheses say of the operations by the filesystems
    they produce, oldest first *)
Ltac fwd :=
  repeat match goal with
  | H : write_file ?X ?p ?c = Some ?Y |- _ =>
      is_var Y;
      let E := fresh in
      assert (E : Y = <[p := File c]> X)
        by (apply (write_file_not_link X p c Y); [fs_no_link | exact H]);
      clear H; subst Y
  | H : cp ?X ?s ?d = _ |- _ =>
      let E := fresh in
      eassert (E : cp X s d = Some (<[d := File _]> X));
      [ first
          [ eapply cp_File_File; [fs_lookup | fs_lookup | ne]
          | eapply cp_plain;
            [ fs_lookup
            | fs_no_link
            | apply mkdir_p_not_Dir; [path_len | auto]
            | intros _; rewrite parent_join; by apply mkdir_p_is_dir
            | ne ] ]
      | rewrite E in H; clear E;
        first [ discriminate H | injection H as <- ] ]
  | H : path_exists ?X ?p = false |- _ =>
      exfalso;
      first
        [ rewrite (path_exists_Dir X p) in H; [discriminate H | fs_lookup]
        | erewrite (path_exists_File X p) in H; [discriminate H | fs_lookup] ]
  end.

Lemma save_nginx_config_rollback (d c old : string) (w : World) :
  reliable env ->
  tidy env (fs w) ->
  fs w !! NGINX_CONF_DIR = Some Dir ->
  fs w !! (NGINX_CONF_DIR // d) = Some (File old) ->
  MsgNginxTestRefused ∈ printed (save_nginx_config env d c true w) ->
  result (save_nginx_config env d c true w) = Val false /\
  fs (after (save_nginx_config env d c true w)) !! (NGINX_CONF_DIR // d)
  = Some (File old) /\
  fs (after (save_nginx_config env d c true w))
  !! (CONFIGS_SITES env // (d +:+ ".conf")) = Some (File c).
Proof.
  intros Hrel (Hhd & Hlinks & Hbk) Hconf Hlive.
  assert (He : path_exists (fs w) (NGINX_CONF_DIR // d) = true)
    by by eapply path_exists_File.
  change (wp (save_nginx_config env d c true) w (fun r w' l =>
    MsgNginxTestRefused ∈ l ->
    r = Val false /\
    fs w' !! (NGINX_CONF_DIR // d) = Some (File old) /\
    fs w' !! (CONFIGS_SITES env // (d +:+ ".conf")) = Some (File c))).
  unfold save_nginx_config, backup_config_file, restore_if_backed_up,
    restore_config_file.
  rewrite !parent_join, name_join.
  set (mirror := CONFIGS_SITES env // _).
  set (live := NGINX_CONF_DIR // d) in *.
  assert (HB : forall n, no_link_at (fs w) (BACKUPS_CONFIGS env // n)).
  { intros n t [Ht _]%Hlinks.
    rewrite parent_join in Ht. revert Ht. path_ne. }
  assert (Hm : no_link_at (fs w) mirror).
  { intros t [Ht _]%Hlinks.
    unfold mirror in Ht. rewrite parent_join in Ht. revert Ht. path_ne. }
  assert (HBl : forall n, BACKUPS_CONFIGS env // n <> live)
    by (intros n; subst live; path_ne).
  assert (HBm : forall n, BACKUPS_CONFIGS env // n <> mirror)
    by (intros n; subst mirror; path_ne).
  assert (Hml : mirror <> live) by (subst mirror live; path_ne).
  assert (Hmc : mirror <> NGINX_CONF_DIR) by (subst mirror; path_ne).
  assert (HBc : forall n, BACKUPS_CONFIGS env // n <> NGINX_CONF_DIR)
    by (intros n; path_ne).
  assert (Hlc : live <> NGINX_CONF_DIR) by apply path_join_ne.
  wp_go.
  all: cbn [fs tick steps] in *; intros Hfail.
  all: try (exfalso; clear -Hfail; msgs; fail).
  all: absurd_host Hrel.
  all: fwd.
  all: split; [done|]; split; fs_lookup.
Qed.

(** C7, as amended: after a run of [save_nginx_config] that returns [True]
    the project mirror and the live file both read as the content that was
    to be written; after a run in which the syntax check rejected the new
    content and an old live file was there (on a tidy filesystem, the host
    refusing no file operation), [False] is returned, the live file holds
    its old content again and the mirror holds the new content. *)
Theorem save_nginx_config_mirror_and_live (d c : string) (b : bool)
  (w : World) :
  (result (save_nginx_config env d c b w) = Val true ->
   read_file (fs (after (save_nginx_config env d c b w)))
     (CONFIGS_SITES env // (d +:+ ".conf")) = Some c /\
   read_file (fs (after (save_nginx_config env d c b w)))
     (NGINX_CONF_DIR // d) = Some c) /\
  (forall old,
   reliable env ->
   tidy env (fs w) ->
   fs w !! NGINX_CONF_DIR = Some Dir ->
   fs w !! (NGINX_CONF_DIR // d) = Some (File old) ->
   MsgNginxTestRefused ∈ printed (save_nginx_config env d c true w) ->
   result (save_nginx_config env d c true w) = Val false /\
   fs (after (save_nginx_config env d c true w)) !! (NGINX_CONF_DIR // d)
   = Some (File old) /\
   fs (after (save_nginx_config env d c true w))
   !! (CONFIGS_SITES env // (d +:+ ".conf")) = Some (File c)).
Proof.
  split.
  - apply save_nginx_config_lockstep.
  - intros old. apply save_nginx_config_rollback.
Qed.

End Save.

(** * The registry and the enabled set *)

Section Registry.

Context (env : Env).

Lemma is_site_enabled_result d w :
  result (is_site_enabled d w) =
  Val (path_exists (fs w) (NGINX_ENABLED_DIR // d)
       && is_symlink (fs w) (NGINX_ENABLED_DIR // d)).
Proof. done. Qed.


(** C1, as amended: in every world, dangling links included,
    [is_site_enabled] changes nothing and prints nothing, and it answers
    [True] exactly when the entry of the domain in [sites-enabled] is a
    symbolic link whose target exists, [False] otherwise; and a save of
    any registry leaves its answer as it was, provided the entry is not a
    dangling link. *)
Theorem is_site_enabled_reads_the_link_only (d : string) (w : World)
  (config : pyval) :
  after (is_site_enabled d w) = w /\
  printed (is_site_enabled d w) = [] /\
  (result (is_site_enabled d w) = Val true <->
   exists t, fs w !! (NGINX_ENABLED_DIR // d) = Some (Link t) /\
             is_Some (follow (pred MAXSYMLINKS) (fs w) t)) /\
  (result (is_site_enabled d w) <> Val true ->
   result (is_site_enabled d w) = Val false) /\
  ((is_symlink (fs w) (NGINX_ENABLED_DIR // d) = true ->
    path_exists (fs w) (NGINX_ENABLED_DIR // d) = true) ->
   result (is_site_enabled d (after (save_sites_config env config w)))
   = result (is_site_enabled d w)).
Proof.
  split; [done|]. split; [done|]. rewrite !is_site_enabled_result.
  split; [|split; [|intros Hnot_dangling]].
  - rewrite path_exists_lookup. unfold is_symlink.
    destruct (fs w !! _) as [[c|t|]|]; simpl; split;
      try (intros [= H]; discriminate H); try (by intros (? & ? & ?)).
    + rewrite andb_true_r. intros [= H%bool_decide_eq_true]. eauto.
    + intros (? & [= <-] & H). by rewrite andb_true_r, bool_decide_eq_true_2.
  - by destruct (_ && _).
  - destruct (save_sites_config_run env config w)
      as [(its & clean & fs' & -> & Hc & Hw & _ & Hfs)|[_ Hfs]];
      rewrite Hfs; [|done].
    unfold write_file in Hw.
    destruct (write_target _ _ _) as [q|] eqn:Hq; [|done]. injection Hw as <-.
    apply write_target_lookup in Hq.
    rewrite is_symlink_insert_file by done.
    destruct (is_symlink (fs w) _) eqn:Hs; [|by rewrite !andb_false_r].
    rewrite Hnot_dangling by done. rewrite !andb_true_r. f_equal.
    specialize (Hnot_dangling eq_refl). unfold path_exists, stat in *.
    destruct (follow _ (fs w) _) eqn:Hf; [|done].
    by destruct (follow_insert_file MAXSYMLINKS (fs w)
      (NGINX_ENABLED_DIR // d) q (json_dumps env (PDict clean)) Hq
      (mk_is_Some _ _ Hf)) as [? ->].
Qed.

End Registry.

(** * Enabling and disabling a site *)

Section Enabled.

Context (env : Env).




(** C10: when the entry of the domain in [sites-enabled] is a regular file,
    [is_site_enabled] answers [False], yet [disable_site_with_rollback]
    does not answer "not enabled": it runs [rm -f] on the entry, and if the
    host lets that command run the file is gone afterwards (the path is
    free, or holds the link of a rollback). *)
Theorem regular_file_entry_not_enabled_yet_removed (d c : string) (w : World)
  (Hfile : fs w !! (NGINX_ENABLED_DIR // d) = Some (File c)) :
  result (is_site_enabled d w) = Val false /\
  MsgSiteNotEnabled d ∉ printed (disable_site_with_rollback env d w) /\
  (ok env (steps w) (Spawn (Sudo (Rm_f (NGINX_ENABLED_DIR // d)))) = true ->
   fs (after (disable_site_with_rollback env d w))
   = delete (NGINX_ENABLED_DIR // d) (fs w) \/
   fs (after (disable_site_with_rollback env d w))
   = <[NGINX_ENABLED_DIR // d := Link (NGINX_CONF_DIR // d)]> (fs w)).
Proof.
  assert (He : path_exists (fs w) (NGINX_ENABLED_DIR // d) = true)
    by by eapply path_exists_File.
  assert (Hs : is_symlink (fs w) (NGINX_ENABLED_DIR // d) = false)
    by by (unfold is_symlink; rewrite Hfile).
  split; [|split].
  - change (wp (is_site_enabled d) w (fun r _ _ => r = Val false)).
    wp_go. done.
  - change (wp (disable_site_with_rollback env d) w (fun r w' l =>
      MsgSiteNotEnabled d ∉ l)).
    unfold disable_site_with_rollback.
    wp_go.
    all: clear; rewrite ?elem_of_cons, ?elem_of_nil; intuition discriminate.
  - intros Hok.
    change (wp (disable_site_with_rollback env d) w (fun r w' l =>
      fs w' = delete (NGINX_ENABLED_DIR // d) (fs w) \/
      fs w' = <[NGINX_ENABLED_DIR // d := Link (NGINX_CONF_DIR // d)]> (fs w))).
    unfold disable_site_with_rollback.
    wp_go.
    all: cbn [fs tick steps] in *.
    all: repeat match goal with
         | H : _ \/ _ |- _ => destruct H as [H|H]
         | H : ok _ _ _ = false |- _ => rewrite Hok in H; discriminate H
         | H : _ !! _ = Some Dir |- _ => rewrite Hfile in H; discriminate H
         | H : is_Some (delete ?p _ !! ?p) |- _ =>
             rewrite lookup_delete_eq in H; destruct H as [? H]; discriminate H
         end.
    all: rewrite ?insert_delete_eq; eauto.
Qed.

End Enabled.

(** * Rendering *)

Section Render.

Context (env : Env).

Lemma truthy_PStr s : truthy (PStr s) = true <-> s <> "".
Proof.
  simpl. rewrite negb_true_iff. split.
  - intros H ->. by rewrite String.eqb_refl in H.
  - intros H. by apply String.eqb_neq.
Qed.

(** C9: the template [generate_nginx_config] picks is the TLS one exactly
    when [enable_ssl], [ssl_cert] and [ssl_key] are all true as Python
    tests them, and the plain one in every other case; for a record whose
    [enable_ssl] is a boolean and whose paths are strings (missing ones
    counting as empty) that is: [enable_ssl] is [True] and both paths are
    non-empty.  When the picked file exists, the text returned is that
    file's content formatted. *)
Theorem tls_template_iff (domain : string) (config : items) (w : World) :
  (template_file env config = TEMPLATES_SITES env // "site-ssl.conf.template"
   <->
   truthy (get_default "enable_ssl" (PBool false) config) = true /\
   truthy (get_default "ssl_cert" (PStr "") config) = true /\
   truthy (get_default "ssl_key" (PStr "") config) = true) /\
  (template_file env config <> TEMPLATES_SITES env // "site-ssl.conf.template"
   -> template_file env config = TEMPLATES_SITES env // "site.conf.template") /\
  (forall (enable_ssl : bool) (ssl_cert ssl_key : string),
   get_default "enable_ssl" (PBool false) config = PBool enable_ssl ->
   get_default "ssl_cert" (PStr "") config = PStr ssl_cert ->
   get_default "ssl_key" (PStr "") config = PStr ssl_key ->
   (template_file env config = TEMPLATES_SITES env // "site-ssl.conf.template"
    <-> enable_ssl = true /\ ssl_cert <> "" /\ ssl_key <> "")) /\
  (forall text,
   path_exists (fs w) (template_file env config) = true ->
   result (generate_nginx_config env domain config w) = Val text ->
   exists template,
     read_file (fs w) (template_file env config) = Some template /\
     str_format env template
       (format_fields domain config (clock env (steps w))) = Some text).
Proof.
  assert (Hne : TEMPLATES_SITES env // "site.conf.template"
                <> TEMPLATES_SITES env // "site-ssl.conf.template")
    by (intros E; apply app_inv_head in E; discriminate E).
  assert (Hiff : template_file env config
                 = TEMPLATES_SITES env // "site-ssl.conf.template" <->
     truthy (get_default "enable_ssl" (PBool false) config) = true /\
     truthy (get_default "ssl_cert" (PStr "") config) = true /\
     truthy (get_default "ssl_key" (PStr "") config) = true).
  { unfold template_file.
    destruct (truthy (get_default "enable_ssl" _ _)),
      (truthy (get_default "ssl_cert" _ _)),
      (truthy (get_default "ssl_key" _ _)); simpl; naive_solver. }
  split; [done|]. split; [|split].
  - unfold template_file. by destruct (_ && _).
  - intros b c k Hb Hc Hk. rewrite Hiff, Hb, Hc, Hk, !truthy_PStr. done.
  - intros text He.
    change (wp (generate_nginx_config env domain config) w (fun r _ _ =>
      r = Val text -> exists template,
        read_file (fs w) (template_file env config) = Some template /\
        str_format env template
          (format_fields domain config (clock env (steps w))) = Some text)).
    unfold generate_nginx_config. wp_go; try done.
    cbn [fs tick steps] in *.
    destruct (str_format env c _) eqn:Ef; [|done].
    intros [= <-]. eauto.
Qed.

End Render.

(** * Backups *)

Section Backup.

Context (env : Env).

(** C8, as amended: [backup_config_file] returns [None] and leaves the
    world alone when the file does not exist; the only exception that
    leaves it is the [OSError] of creating the backup directory, never the
    [RuntimeError] of the copy; and once the directory is there, it
    returns the path [backup_dir/<name>.backup.<timestamp>] when the copy
    goes through, and [None] when the copy fails. *)
Theorem backup_config_file_outcomes (file_path backup_dir : Path) (w : World) :
  (path_exists (fs w) file_path = false ->
   result (backup_config_file env file_path backup_dir w) = Val None /\
   after (backup_config_file env file_path backup_dir w) = w) /\
  (forall e,
   result (backup_config_file env file_path backup_dir w) = Raise e ->
   e = OSError /\
   path_exists (fs w) file_path = true /\
   (ok env (steps w) (PyMkdir backup_dir) = false \/
    (mkdir_p (fs w) backup_dir).2 = false)) /\
  (path_exists (fs w) file_path = true ->
   ok env (steps w) (PyMkdir backup_dir) = true ->
   (mkdir_p (fs w) backup_dir).2 = true ->
   let backup_file := backup_path env file_path backup_dir (S (steps w)) in
   let copied :=
     if ok env (S (steps w)) (Spawn (Sudo (Cp file_path backup_file)))
     then cp (mkdir_p (fs w) backup_dir).1 file_path backup_file
     else None in
   match copied with
   | Some fs' =>
       result (backup_config_file env file_path backup_dir w)
       = Val (Some backup_file) /\
       fs (after (backup_config_file env file_path backup_dir w)) = fs'
   | None =>
       result (backup_config_file env file_path backup_dir w) = Val None /\
       fs (after (backup_config_file env file_path backup_dir w))
       = (mkdir_p (fs w) backup_dir).1
   end).
Proof.
  split; [|split].
  - intros He.
    change (wp (backup_config_file env file_path backup_dir) w (fun r w' _ =>
      r = Val None /\ w' = w)).
    unfold backup_config_file. wp_go. done.
  - change (wp (backup_config_file env file_path backup_dir) w (fun r w' _ =>
      forall e, r = Raise e ->
      e = OSError /\ path_exists (fs w) file_path = true /\
      (ok env (steps w) (PyMkdir backup_dir) = false \/
       (mkdir_p (fs w) backup_dir).2 = false))).
    unfold backup_config_file. wp_go; try done.
    intros e [= <-]. split; [done|]. split; [done|]. naive_solver.
  - intros He Hok Hmk backup_file copied. subst copied backup_file.
    change (wp (backup_config_file env file_path backup_dir) w (fun r w' _ =>
      match
        (if ok env (S (steps w))
              (Spawn (Sudo (Cp file_path
                 (backup_path env file_path backup_dir (S (steps w))))))
         then cp (mkdir_p (fs w) backup_dir).1 file_path
                (backup_path env file_path backup_dir (S (steps w)))
         else None)
      with
      | Some fs' =>
          r = Val (Some (backup_path env file_path backup_dir (S (steps w))))
          /\ fs w' = fs'
      | None => r = Val None /\ fs w' = (mkdir_p (fs w) backup_dir).1
      end)).
    unfold backup_config_file, backup_path. wp_go.
    all: cbn [fs tick steps] in *.
    all: repeat match goal with
         | H : _ /\ _ |- _ => destruct H
         | H : _ \/ _ |- _ => destruct H
         end; try congruence.
    all: repeat match goal with
         | H : ok _ _ _ = _ |- _ => rewrite H
         | H : cp _ _ _ = _ |- _ => rewrite H
         end.
    all: try done.
    all: destruct (ok env (S (steps w)) _); by split.
Qed.
End Backup.

(** ** Instances *)


Lemma reliable_host_fine : reliable host_fine.
Proof. by intros n o H. Qed.

(** a save that goes through and creates the registry file leaves the
    answer for the enabled [a.com] as it was; and at a dangling link the
    answer is [False], as the characterisation says *)
Lemma is_site_enabled_reads_the_link_only_witness :
  (result (save_sites_config host_fine (PDict []) w_enabled_installed)
   = Val true /\
   read_file (fs w_enabled_installed) (SITES_CONFIG host_fine) = None /\
   read_file
     (fs (after (save_sites_config host_fine (PDict []) w_enabled_installed)))
     (SITES_CONFIG host_fine) = Some "{}" /\
   result (is_site_enabled "a.com" w_enabled_installed) = Val true /\
   result (is_site_enabled "a.com"
             (after (save_sites_config host_fine (PDict [])
                       w_enabled_installed)))
   = result (is_site_enabled "a.com" w_enabled_installed)) /\
  (fs w_dangling !! (NGINX_ENABLED_DIR // "a.com")
   = Some (Link (NGINX_CONF_DIR // "a.com")) /\
   (result (is_site_enabled "a.com" w_dangling) = Val true <->
    exists t,
      fs w_dangling !! (NGINX_ENABLED_DIR // "a.com") = Some (Link t) /\
      is_Some (follow (pred MAXSYMLINKS) (fs w_dangling) t)) /\
   result (is_site_enabled "a.com" w_dangling) = Val false).
Proof.
  split.
  - split; [vm_compute; reflexivity|]. split; [vm_compute; reflexivity|].
    split; [vm_compute; reflexivity|]. split; [vm_compute; reflexivity|].
    apply (proj2 (proj2 (proj2 (proj2
             (is_site_enabled_reads_the_link_only host_fine "a.com"
                w_enabled_installed (PDict [])))))).
    intros _. vm_compute. reflexivity.
  - split; [vm_compute; reflexivity|]. split.
    + apply (proj1 (proj2 (proj2
               (is_site_enabled_reads_the_link_only host_fine "a.com"
                  w_dangling (PDict []))))).
    + apply (proj1 (proj2 (proj2 (proj2
               (is_site_enabled_reads_the_link_only host_fine "a.com"
                  w_dangling (PDict [])))))).
      intros H. vm_compute in H. discriminate H.
Defined.

(** Two worlds with a symbolic link at the path of [a.com]: the query
    answers [True] in one and [False] in the other, whose link dangles;
    and a world in which the query answers [False] before the registry is
    saved and [True] after. *)
Lemma is_site_enabled_not_by_link_existence_alone :
  (is_symlink (fs w_enabled) (NGINX_ENABLED_DIR // "a.com") = true /\
   is_symlink (fs w_dangling) (NGINX_ENABLED_DIR // "a.com") = true /\
   result (is_site_enabled "a.com" w_enabled) = Val true /\
   result (is_site_enabled "a.com" w_dangling) = Val false) /\
  (result (is_site_enabled "a.com" w_link_to_registry) = Val false /\
   result (is_site_enabled "a.com"
             (after (save_sites_config host_fine (PDict [])
                       w_link_to_registry)))
   = Val true).
Proof. vm_compute. repeat split. Qed.




Lemma regular_file_entry_not_enabled_yet_removed_witness :
  result (is_site_enabled "a.com" w_regular_file) = Val false /\
  MsgSiteNotEnabled "a.com"
  ∉ printed (disable_site_with_rollback host_fine "a.com" w_regular_file) /\
  (ok host_fine (steps w_regular_file)
     (Spawn (Sudo (Rm_f (NGINX_ENABLED_DIR // "a.com")))) = true ->
   fs (after (disable_site_with_rollback host_fine "a.com" w_regular_file))
   = delete (NGINX_ENABLED_DIR // "a.com") (fs w_regular_file) \/
   fs (after (disable_site_with_rollback host_fine "a.com" w_regular_file))
   = <[NGINX_ENABLED_DIR // "a.com" := Link (NGINX_CONF_DIR // "a.com")]>
       (fs w_regular_file)).
Proof.
  apply (regular_file_entry_not_enabled_yet_removed host_fine "a.com"
           "server { }" w_regular_file).
  vm_compute. reflexivity.
Defined.

(** [nginx -t] rejects a new configuration of [a.com]: the live file is
    rolled back to the old text while the mirror keeps the new one. *)
Lemma save_nginx_config_leaves_mirror_ahead :
  result (save_nginx_config host_rejecting "a.com" "server { listen 80; }"
            true w_available) = Val false /\
  read_file
    (fs (after (save_nginx_config host_rejecting "a.com"
                  "server { listen 80; }" true w_available)))
    (CONFIGS_SITES host_rejecting // "a.com.conf")
  = Some "server { listen 80; }" /\
  read_file
    (fs (after (save_nginx_config host_rejecting "a.com"
                  "server { listen 80; }" true w_available)))
    (NGINX_CONF_DIR // "a.com")
  = Some "server { }".
Proof. vm_compute. repeat split. Qed.

(** The live file exists and the directory of the backups cannot be made:
    the [OSError] of [mkdir] leaves [backup_config_file]. *)
Lemma backup_config_file_raises :
  path_exists (fs w_backups_blocked) (NGINX_CONF_DIR // "a.com") = true /\
  result (backup_config_file host_fine (NGINX_CONF_DIR // "a.com")
            (BACKUPS_CONFIGS host_fine) w_backups_blocked)
  = Raise OSError.
Proof. vm_compute. repeat split. Qed.

(** * Further properties *)

Section Frame.

Context (env : Env).
Hypothesis Hhd : hd_error (NGINX_MANAGER_DIR env) <> Some "etc".

Lemma registry_not_in_sites_available p :
  parent p = NGINX_CONF_DIR -> p <> SITES_CONFIG env.
Proof.
  intros H ->. unfold SITES_CONFIG in H. rewrite parent_join in H.
  rewrite H in Hhd. by apply Hhd.
Qed.

Lemma registry_text_entry fs :
  links_ok fs -> registry_text env fs = registry_entry env fs.
Proof.
  intros Hl. unfold registry_text, registry_entry, read_file.
  rewrite stat_not_link; [by destruct (fs !! _) as [[]|]|].
  intros t [Ht _]%Hl. unfold SITES_CONFIG in Ht. rewrite parent_join in Ht.
  rewrite Ht in Hhd. by apply Hhd.
Qed.

Lemma kept_refl fs : links_ok fs -> kept env fs fs.
Proof. by split. Qed.

Lemma kept_registry_text fs0 fs :
  links_ok fs0 -> kept env fs0 fs ->
  registry_text env fs = registry_text env fs0.
Proof. intros H0 [Hl Hr]. by rewrite !registry_text_entry. Qed.

Lemma kept_insert_File fs0 fs q c :
  kept env fs0 fs -> q <> SITES_CONFIG env ->
  kept env fs0 (<[q := File c]> fs).
Proof.
  intros [Hl Hr] Hq. split.
  - intros p t. destruct (decide (q = p)) as [->|Hne].
    + by rewrite lookup_insert_eq.
    + rewrite lookup_insert_ne by done. apply Hl.
  - rewrite <- Hr. unfold registry_entry. by rewrite lookup_insert_ne.
Qed.

Lemma kept_mkdirs fs0 fs pre rest :
  kept env fs0 fs -> kept env fs0 (mkdirs fs pre rest).1.
Proof.
  intros [Hl Hr]. split.
  - intros p t [[=]|H]%mkdirs_lookup_inv. by apply Hl.
  - rewrite <- Hr. unfold registry_entry.
    destruct (fs !! SITES_CONFIG env) as [x|] eqn:E.
    + rewrite (mkdirs_lookup_Some _ _ _ _ _ E). reflexivity.
    + destruct ((mkdirs fs pre rest).1 !! SITES_CONFIG env) as [y|] eqn:E';
        [|done].
      apply mkdirs_lookup_inv in E' as [->|E']; [done | congruence].
Qed.

Lemma kept_mkdir_p fs0 fs p :
  kept env fs0 fs -> kept env fs0 (mkdir_p fs p).1.
Proof. apply kept_mkdirs. Qed.

(** where a write lands on a tree whose links are those of
    [sites-enabled] *)
Lemma write_target_links n fs p q :
  links_ok fs -> write_target n fs p = Some q ->
  q = p \/ parent q = NGINX_CONF_DIR.
Proof.
  intros Hl. destruct n as [|n]; simpl;
    destruct (fs !! p) as [[c|t|]|] eqn:E; try done;
    try (destruct (is_dir _ _); [|done]); try (intros [= <-]; by left).
  destruct (Hl _ _ E) as [_ Ht].
  destruct n as [|n]; simpl;
    destruct (fs !! t) as [[c'|t'|]|] eqn:E'; try done;
    try (destruct (is_dir _ _); [|done]); try (intros [= <-]; by right).
  - destruct (Hl _ _ E') as [Ht' _]. rewrite Ht in Ht'. done.
Qed.

Lemma kept_write_file fs0 fs p c fs' :
  kept env fs0 fs -> p <> SITES_CONFIG env ->
  write_file fs p c = Some fs' -> kept env fs0 fs'.
Proof.
  intros Hk Hp. unfold write_file.
  destruct (write_target _ _ _) as [q|] eqn:E; [|done]. intros [= <-].
  apply kept_insert_File; [done|].
  destruct (write_target_links _ _ _ _ (proj1 Hk) E) as [->|Hq]; [done|].
  by apply registry_not_in_sites_available.
Qed.

Lemma kept_cp fs0 fs s d fs' :
  kept env fs0 fs ->
  parent d <> NGINX_ENABLED_DIR -> d <> NGINX_ENABLED_DIR ->
  d <> SITES_CONFIG env -> (forall n, d // n <> SITES_CONFIG env) ->
  cp fs s d = Some fs' -> kept env fs0 fs'.
Proof.
  intros Hk Hd1 Hd2 Hd3 Hd4. unfold cp.
  destruct (stat fs s) as [[s' [c| |]]|]; try done.
  assert (Hnl : forall p, parent p <> NGINX_ENABLED_DIR -> no_link_at fs p).
  { intros p Hp t [Ht _]%Hk. done. }
  rewrite (stat_not_link fs d) by (by apply Hnl).
  destruct (fs !! d) as [[c'|t|]|] eqn:E.
  - destruct (decide _); [done|]. intros [= <-]. by apply kept_insert_File.
  - by destruct (Hnl d Hd1 t).
  - rewrite (stat_not_link fs (d // name s))
      by (apply Hnl; by rewrite parent_join).
    destruct (fs !! (d // name s)) as [[c'|t|]|] eqn:E'; try done.
    + destruct (decide _); [done|]. intros [= <-]. by apply kept_insert_File.
    + intros [= <-]. by apply kept_insert_File.
  - destruct (is_dir _ _); [|done]. intros [= <-]. by apply kept_insert_File.
Qed.



End Frame.

Section Sound.
Context (I : FS -> Prop) (P : Msg -> Prop).

Lemma sound_ret {A} (a : A) : sound I P (ret a).
Proof. intros w H. split; [done|]. by intros x ?%elem_of_nil. Qed.

Lemma sound_raise {A} e : sound I P (raise e : M A).
Proof. intros w H. split; [done|]. by intros x ?%elem_of_nil. Qed.

Lemma sound_bind {A B} (m : M A) (k : A -> M B) :
  sound I P m -> (forall a, sound I P (k a)) -> sound I P (bind m k).
Proof.
  intros Hm Hk w H. destruct (Hm w H) as [H1 H2]. unfold bind.
  destruct (result (m w)) as [a|e]; [|done].
  destruct (Hk a _ H1) as [H3 H4]. split; [done|]. simpl.
  intros x [?|?]%elem_of_app; auto.
Qed.

Lemma sound_try {A} (m : M A) c (h : Exn -> M A) :
  sound I P m -> (forall e, sound I P (h e)) -> sound I P (try_except m c h).
Proof.
  intros Hm Hh w H. destruct (Hm w H) as [H1 H2]. unfold try_except.
  destruct (result (m w)) as [a|e]; [done|].
  destruct (c e); [|done].
  destruct (Hh e _ H1) as [H3 H4]. split; [done|]. simpl.
  intros x [?|?]%elem_of_app; auto.
Qed.

Lemma sound_print x : P x -> sound I P (print_colored x).
Proof.
  intros Hx w H. split; [done|]. simpl.
  intros y ->%list_elem_of_singleton. done.
Qed.

Lemma sound_exists p : sound I P (exists_ p).
Proof. intros w H. split; [done|]. by intros x ?%elem_of_nil. Qed.

Lemma sound_or_raise {A} e (o : option A) : sound I P (or_raise e o).
Proof. destruct o; [apply sound_ret | apply sound_raise]. Qed.

Lemma sound_when b (m : M unit) : sound I P m -> sound I P (when b m).
Proof. destruct b; [done | intros _; apply sound_ret]. Qed.

Context (env : Env).

Lemma sound_now : sound I P (now env).
Proof. intros w H. split; [done|]. by intros x ?%elem_of_nil. Qed.

Lemma sound_spawn c :
  (forall f, I f -> I (effect c f).1) -> sound I P (spawn env c).
Proof.
  intros Hc w H. unfold spawn.
  destruct (ok env _ _); [|split; [done | by intros x ?%elem_of_nil]].
  specialize (Hc _ H). destruct (effect c (fs w)) as [f b].
  split; [done | by intros x ?%elem_of_nil].
Qed.

Lemma sound_run c check :
  (forall f, I f -> I (effect c f).1) -> sound I P (run env c check true).
Proof.
  intros Hc. unfold run. apply sound_bind; [by apply sound_spawn|].
  intros b. destruct (_ && _); [apply sound_raise | apply sound_ret].
Qed.

Lemma sound_run_ c check :
  (forall f, I f -> I (effect c f).1) -> sound I P (run_ env c check true).
Proof.
  intros Hc. apply sound_bind; [by apply sound_run|]. intros _.
  apply sound_ret.
Qed.

Lemma sound_sudo_write p c :
  (forall f f', I f -> write_file f p c = Some f' -> I f') ->
  sound I P (sudo_write env p c).
Proof.
  intros Hc. unfold sudo_write. apply sound_bind.
  - apply sound_spawn. intros f Hf. simpl.
    destruct (write_file f p c) eqn:E; [by eapply Hc | done].
  - intros b. destruct (negb b); [apply sound_raise | apply sound_ret].
Qed.

Lemma sound_py_write p c :
  (forall f f', I f -> write_file f p c = Some f' -> I f') ->
  sound I P (py_write env p c).
Proof.
  intros Hc w H. unfold py_write.
  destruct (ok env _ _); [|split; [done | by intros x ?%elem_of_nil]].
  destruct (write_file _ _ _) eqn:E;
    (split; [by eauto | by intros x ?%elem_of_nil]).
Qed.

Lemma sound_py_read p : sound I P (py_read env p).
Proof.
  intros w H. unfold py_read.
  destruct (ok env _ _); [|split; [done | by intros x ?%elem_of_nil]].
  destruct (read_file _ _);
    (split; [done | by intros x ?%elem_of_nil]).
Qed.

Lemma sound_py_mkdir p :
  (forall f, I f -> I (mkdir_p f p).1) -> sound I P (py_mkdir env p).
Proof.
  intros Hc w H. unfold py_mkdir.
  destruct (ok env _ _); [|split; [done | by intros x ?%elem_of_nil]].
  specialize (Hc _ H). destruct (mkdir_p _ _) as [f b].
  split; [done | by intros x ?%elem_of_nil].
Qed.

Lemma sound_test_nginx_config :
  P MsgNginxTestPassed -> P MsgNginxTestRefused ->
  sound I P (test_nginx_config env).
Proof.
  intros H1 H2. unfold test_nginx_config. apply sound_try.
  - apply sound_bind; [by apply sound_run_|]. intros _.
    apply sound_bind; [by apply sound_print|]. intros _. apply sound_ret.
  - intros _. apply sound_bind; [by apply sound_print|]. intros _.
    apply sound_ret.
Qed.

End Sound.

Ltac sound_step :=
  lazymatch goal with
  | |- sound _ _ (bind _ _) => apply sound_bind; [|intros ?]
  | |- sound _ _ (ret _) => apply sound_ret
  | |- sound _ _ (raise _) => apply sound_raise
  | |- sound _ _ (try_except _ _ _) => apply sound_try; [|intros ?]
  | |- sound _ _ (print_colored _) => apply sound_print; try done
  | |- sound _ _ (exists_ _) => apply sound_exists
  | |- sound _ _ (now _) => apply sound_now
  | |- sound _ _ (or_raise _ _) => apply sound_or_raise
  | |- sound _ _ (when _ _) => apply sound_when
  | |- sound _ _ (run_ _ _ _ true) => apply sound_run_; intros ? ?
  | |- sound _ _ (sudo_write _ _ _) => apply sound_sudo_write; intros ? ? ? ?
  | |- sound _ _ (py_write _ _ _) => apply sound_py_write; intros ? ? ? ?
  | |- sound _ _ (py_read _ _) => apply sound_py_read
  | |- sound _ _ (py_mkdir _ _) => apply sound_py_mkdir; intros ? ?
  | |- sound _ _ (test_nginx_config _) =>
      apply sound_test_nginx_config; try done
  | |- sound _ _ (if ?b then _ else _) => destruct b
  | |- sound _ _ (match ?o with Some _ => _ | None => _ end) => destruct o
  end.

Ltac sound_go := repeat first [sound_step | progress lazy beta iota].

Section Frame2.
Context (env : Env).
Hypothesis Hhd : hd_error (NGINX_MANAGER_DIR env) <> Some "etc".

Lemma kept_effect_cp fs0 f s d :
  kept env fs0 f ->
  parent d <> NGINX_ENABLED_DIR -> d <> NGINX_ENABLED_DIR ->
  d <> SITES_CONFIG env -> (forall n, d // n <> SITES_CONFIG env) ->
  kept env fs0 (match cp f s d with
                | Some fs' => (fs', true)
                | None => (f, false)
                end).1.
Proof.
  intros Hk ? ? ? ?. destruct (cp f s d) eqn:E; [|done].
  by eapply kept_cp.
Qed.

Lemma save_nginx_config_sound fs0 d c b :
  sound (kept env fs0) save_msg (save_nginx_config env d c b).
Proof.
  unfold save_nginx_config, backup_config_file, restore_if_backed_up,
    restore_config_file.
  sound_go.
  all: cbn [effect fst].
  all: try by apply kept_mkdir_p.
  all: try (eapply (kept_write_file env Hhd);
              [eassumption | | eassumption]; path_ne).
  all: apply kept_effect_cp; [assumption|..]; rewrite ?parent_join;
    try (lazymatch goal with |- forall n : string, _ => intros n end);
    path_ne.
Qed.

(** the messages of the provisioning block of [add_site] are none *)
Lemma provision_root_sound fs0 d root :
  sound (kept env fs0) (fun _ => False) (provision_root env d root).
Proof.
  unfold provision_root. sound_go.
  all: cbn [effect fst]; try done.
  - by apply kept_mkdir_p.
  - eapply (kept_write_file env Hhd); [eassumption | | eassumption].
    intros E. apply (f_equal name) in E. unfold SITES_CONFIG in E.
    by rewrite !name_join in E.
Qed.

End Frame2.

Section Unchanged.
Context (env : Env).

Lemma load_sites_config_sound fs0 :
  sound (fun f => f = fs0) (fun x => x = MsgLoadRegistryFailed)
    (load_sites_config env).
Proof. unfold load_sites_config. sound_go. Qed.

Lemma generate_nginx_config_sound fs0 d config :
  sound (fun f => f = fs0) (fun _ => False) (generate_nginx_config env d config).
Proof. unfold generate_nginx_config. sound_go. Qed.

End Unchanged.

Lemma wp_conseq {A} (m : M A) w (R Q : Res A -> World -> list Msg -> Prop) :
  wp m w R -> (forall r w' l, R r w' l -> Q r w' l) -> wp m w Q.
Proof. unfold wp. eauto. Qed.

Lemma wp_sound {A : Type} (I : FS -> Prop) (P : Msg -> Prop) (m : M A) w :
  sound I P m -> I (fs w) ->
  wp m w (fun _ w' l => I (fs w') /\ forall x, x ∈ l -> P x).
Proof. intros H Hw. apply (H w Hw). Qed.

(** writing a regular file keeps the directories *)
Lemma follow_insert_Dir n fs p t e c :
  (fs !! t = None \/ exists c', fs !! t = Some (File c')) ->
  follow n fs p = Some (e, Dir) ->
  follow n (<[t := File c]> fs) p = Some (e, Dir).
Proof.
  intros Ht. revert p. induction n as [|n IH]; intros p;
    rewrite !follow_unfold; destruct (decide (p = t)) as [->|Hne];
    rewrite ?lookup_insert_eq, ?lookup_insert_ne by done; try done.
  - by destruct Ht as [->|[c' ->]].
  - by destruct Ht as [->|[c' ->]].
  - destruct (fs !! p) as [[]|]; eauto.
Qed.

Lemma is_dir_write_file fs p q c fs' :
  is_dir fs p = true -> write_file fs q c = Some fs' -> is_dir fs' p = true.
Proof.
  unfold is_dir, write_file, stat. destruct p as [|a p]; [done|].
  destruct (follow _ fs _) as [[e []]|] eqn:Ef; try done. intros _.
  destruct (write_target _ _ _) as [t|] eqn:Et; [|done]. intros [= <-].
  apply write_target_lookup in Et.
  by rewrite (follow_insert_Dir _ _ _ _ _ _ Et Ef).
Qed.

Lemma path_exists_write_file fs p q c fs' :
  path_exists fs p = true -> write_file fs q c = Some fs' ->
  path_exists fs' p = true.
Proof.
  unfold path_exists, write_file, stat.
  destruct (follow _ fs p) eqn:Ef; [|done]. intros _.
  destruct (write_target _ _ _) as [t|] eqn:Et; [|done]. intros [= <-].
  apply write_target_lookup in Et.
  by destruct (follow_insert_file MAXSYMLINKS fs p t c Et (mk_is_Some _ _ Ef))
    as [? ->].
Qed.

Lemma path_exists_written fs p c fs' :
  write_file fs p c = Some fs' -> path_exists fs' p = true.
Proof.
  intros H%read_file_write_file. unfold read_file in H. unfold path_exists.
  by destruct (stat fs' p).
Qed.

Section Specs.
Context (env : Env).

Lemma load_sites_config_returns w :
  exists v, result (load_sites_config env w) = Val v.
Proof.
  change (wp (load_sites_config env) w (fun r _ _ => exists v, r = Val v)).
  unfold load_sites_config. wp_go; eauto.
  destruct (json_loads env c) as [config'|]; wp_go; eauto.
  destruct (py_iter config') as [keys|] eqn:Ek; wp_go; eauto.
  destruct (pop_enabled_loop keys config') as [v|] eqn:Ev; wp_go; eauto.
Qed.

Lemma load_sites_config_spec w :
  wp (load_sites_config env) w (fun r w' l =>
    (exists v, r = Val v) /\ fs w' = fs w /\
    forall x, x ∈ l -> x = MsgLoadRegistryFailed).
Proof.
  split; [apply load_sites_config_returns|].
  by apply (load_sites_config_sound env (fs w) w).
Qed.

Lemma generate_nginx_config_spec d config w :
  wp (generate_nginx_config env d config) w (fun r w' l =>
    fs w' = fs w /\ l = []).
Proof.
  destruct (generate_nginx_config_sound env (fs w) d config w eq_refl)
    as [H1 H2].
  split; [done|]. destruct (printed _) as [|x l]; [done|].
  destruct (H2 x). apply list_elem_of_here.
Qed.

(** a successful [save_nginx_config] printed that it wrote both copies and
    that the syntax check passed, and nothing else *)
Lemma save_nginx_config_printed d c b w :
  result (save_nginx_config env d c b w) = Val true ->
  printed (save_nginx_config env d c b w) =
  [MsgSavedToProject (CONFIGS_SITES env // (d +:+ ".conf"));
   MsgCopiedToSystem (NGINX_CONF_DIR // d);
   MsgNginxTestPassed].
Proof.
  change (wp (save_nginx_config env d c b) w (fun r _ l =>
    r = Val true ->
    l = [MsgSavedToProject (CONFIGS_SITES env // (d +:+ ".conf"));
         MsgCopiedToSystem (NGINX_CONF_DIR // d);
         MsgNginxTestPassed])).
  unfold save_nginx_config, backup_config_file, restore_if_backed_up,
    restore_config_file.
  wp_go; done.
Qed.

(** provisioning that went through left the document root and its index
    page in place *)
Lemma provision_root_done d root w :
  result (provision_root env d root w) = Val tt ->
  is_dir (fs (after (provision_root env d root w))) root = true /\
  path_exists (fs (after (provision_root env d root w)))
    (root // "index.html") = true.
Proof.
  change (wp (provision_root env d root) w (fun r w' _ =>
    r = Val tt ->
    is_dir (fs w') root = true /\
    path_exists (fs w') (root // "index.html") = true)).
  unfold provision_root. wp_go; try done.
  all: cbn [fs tick]; intros _.
  - split; [by apply mkdir_p_is_dir | done].
  - split.
    + eapply is_dir_write_file; [|done]. by apply mkdir_p_is_dir.
    + by eapply path_exists_written.
Qed.


Lemma save_sites_config_sound :
  forall config,
  sound (fun _ => True) (fun x => x = MsgSaveRegistryFailed)
    (save_sites_config env config).
Proof.
  intros config. unfold save_sites_config.
  destruct config; try apply sound_raise. sound_go; done.
Qed.

End Specs.

Lemma dict_set_fresh k v d :
  dict_get k d = None -> dict_set k v d = d ++ [(k, v)].
Proof.
  induction d as [|[k' v'] d IH]; simpl; [done|].
  destruct (String.eqb k k'); [done|]. intros H. by rewrite IH.
Qed.

(** the record the loop of [save_sites_config] keeps for the last item *)
Lemma clean_loop_last its k r acc clean :
  clean_loop (its ++ [(k, PDict r)]) acc = Some clean ->
  dict_get k clean = Some (PDict (dict_remove "enabled" r)).
Proof.
  revert acc. induction its as [|[k' x] its IH]; intros acc; simpl.
  - intros [= <-]. apply dict_get_set_eq.
  - destruct (without_enabled x); [apply IH | done].
Qed.

Section Specs2.
Context (env : Env).

(** [save_nginx_config] prints that the syntax check passed only when it
    returns [True] *)
Lemma save_nginx_config_passed d c b w :
  MsgNginxTestPassed ∈ printed (save_nginx_config env d c b w) ->
  result (save_nginx_config env d c b w) = Val true.
Proof.
  change (wp (save_nginx_config env d c b) w (fun r _ l =>
    MsgNginxTestPassed ∈ l -> r = Val true)).
  unfold save_nginx_config, backup_config_file, restore_if_backed_up,
    restore_config_file.
  wp_go; try done.
  all: intros Hin; exfalso; clear -Hin; msgs.
Qed.

(** the three ways [save_sites_config] ends *)
Lemma save_sites_config_cases config w :
  (exists its clean fs',
     config = PDict its /\ clean_loop its [] = Some clean /\
     write_file (fs w) (SITES_CONFIG env)
       (json_dumps env (PDict clean)) = Some fs' /\
     result (save_sites_config env config w) = Val true /\
     fs (after (save_sites_config env config w)) = fs' /\
     printed (save_sites_config env config w) = []) \/
  (exists its clean,
     config = PDict its /\ clean_loop its [] = Some clean /\
     (ok env (steps w) (PyOpenWrite (SITES_CONFIG env)) = false \/
      write_file (fs w) (SITES_CONFIG env)
        (json_dumps env (PDict clean)) = None) /\
     result (save_sites_config env config w) = Val false /\
     fs (after (save_sites_config env config w)) = fs w /\
     printed (save_sites_config env config w) = [MsgSaveRegistryFailed]) \/
  ((forall its, config = PDict its -> clean_loop its [] = None) /\
   result (save_sites_config env config w) = Raise AttributeError /\
   after (save_sites_config env config w) = w /\
   printed (save_sites_config env config w) = []).
Proof.
  change (wp (save_sites_config env config) w (fun r w' l =>
    (exists its clean fs',
       config = PDict its /\ clean_loop its [] = Some clean /\
       write_file (fs w) (SITES_CONFIG env)
         (json_dumps env (PDict clean)) = Some fs' /\
       r = Val true /\ fs w' = fs' /\ l = []) \/
    (exists its clean,
       config = PDict its /\ clean_loop its [] = Some clean /\
       (ok env (steps w) (PyOpenWrite (SITES_CONFIG env)) = false \/
        write_file (fs w) (SITES_CONFIG env)
          (json_dumps env (PDict clean)) = None) /\
       r = Val false /\ fs w' = fs w /\ l = [MsgSaveRegistryFailed]) \/
    ((forall its, config = PDict its -> clean_loop its [] = None) /\
     r = Raise AttributeError /\ w' = w /\ l = []))).
  unfold save_sites_config.
  destruct config as [| | | | |l|its];
    try (apply wp_raise; right; right; by repeat split).
  apply wp_bind, wp_or_raise.
  destruct (clean_loop its []) as [clean|] eqn:Ec.
  - apply wp_try, wp_bind, wp_py_write.
    + intros fs' _ Hw. apply wp_ret. left. by exists its, clean, fs'.
    + intros Hf. simpl. apply wp_bind, wp_print, wp_ret. right. left.
      by exists its, clean.
  - right. right. repeat split; try done. by intros ? [= <-].
Qed.

(** [load_sites_config] returns records only when it read the registry
    file and [json.load] made a value of its text *)
Lemma load_sites_config_reads w v :
  result (load_sites_config env w) = Val v ->
  v = PDict [] \/
  exists text config,
    read_file (fs w) (SITES_CONFIG env) = Some text /\
    json_loads env text = Some config.
Proof.
  change (wp (load_sites_config env) w (fun r _ _ =>
    r = Val v -> v = PDict [] \/
    exists text config,
      read_file (fs w) (SITES_CONFIG env) = Some text /\
      json_loads env text = Some config)).
  unfold load_sites_config. wp_go; try (intros [= <-]; by left).
  cbn [fs tick] in *.
  destruct (json_loads env c) as [config'|] eqn:Ej; wp_go;
    try (intros [= <-]; by left).
  destruct (py_iter config') as [keys|] eqn:Ek; wp_go;
    try (intros [= <-]; by left).
  destruct (pop_enabled_loop keys config') as [v'|] eqn:Ev; wp_go;
    try (intros [= <-]; by left).
  intros _. right. by exists c, config'.
Qed.

End Specs2.

(** membership in the lines printed, from what each call may print *)
Ltac alphabet :=
  repeat match goal with
  | H : _ ∈ _ ++ _ |- _ => apply elem_of_app in H as [H|H]
  | H : _ ∈ _ :: _ |- _ => apply elem_of_cons in H as [H|H]
  | H : _ ∈ [] |- _ => by apply elem_of_nil in H
  | H : ?x ∈ ?l, Hl : forall y, y ∈ ?l -> _ |- _ => apply Hl in H
  | H : ?x ∈ ?l, Hl : ?x ∈ ?l -> _ |- _ => apply Hl in H
  | H : @eq (Res _) _ _ |- _ => discriminate H
  | H : @eq Msg _ _ |- _ => discriminate H
  | H : save_msg _ |- _ => destruct H
  | H : False |- _ => destruct H
  end.

(** the facts of a run that did not return [True] *)
Ltac leaf_fail :=
  split; [intros ? ? ?; by exfalso; eauto|];
  split; [intros H; by alphabet|];
  split; [intros _; assumption | by intros [=]].

(** the facts of a run of [bind_ssl_to_site] that got past its checks and
    left the registry as it was *)
Ltac leaf_kept :=
  split; [intros ? [= <-] ?; congruence|];
  split; [intros; exfalso; eauto 10|];
  split; [intros [?|?]; congruence|];
  left; split; [assumption|];
  intros ? ?; first [by eauto | exfalso; by alphabet].

Section Create.
Context (env : Env).
Hypothesis Hhd : hd_error (NGINX_MANAGER_DIR env) <> Some "etc".

(** [add_site], with its document root and its record named *)
Lemma add_site_unfold d root_dir php :
  add_site env d root_dir php =
  (let* sites := load_sites_config env in
   let* dup := or_raise TypeError (py_contains d sites) in
   if dup then
     print_colored (MsgDomainExists d) ;;
     ret false
   else
     let* created_at := now env in
     let* config_content :=
       generate_nginx_config env d
         (site_config d (root_of d root_dir) php created_at) in
     let* saved := save_nginx_config env d config_content true in
     if negb saved then ret false
     else
       let* provisioned :=
         try_except
           (provision_root env d (root_of d root_dir) ;; ret true)
           is_RuntimeError
           (fun _ => print_colored MsgCreateRootFailed ;; ret false) in
       if negb provisioned then ret false
       else
         let* sites' :=
           or_raise TypeError
             (py_setitem sites (PStr d)
                (PDict (site_config d (root_of d root_dir) php created_at))) in
         let* stored := save_sites_config env sites' in
         if stored then
           print_colored (MsgSiteAdded d) ;;
           ret true
         else ret false).
Proof. reflexivity. Qed.

Lemma add_site_run d root_dir php w :
  links_ok (fs w) ->
  wp (add_site env d root_dir php) w (fun r w' l =>
    (forall sites,
       result (load_sites_config env w) = Val sites ->
       py_contains d sites = Some true ->
       r = Val false /\ fs w' = fs w /\ MsgDomainExists d ∈ l) /\
    (MsgNginxTestRefused ∈ l ->
       r <> Val true /\
       forall old,
         reliable env ->
         (forall n, fs w !! (BACKUPS_CONFIGS env // n) <> Some Dir) ->
         fs w !! NGINX_CONF_DIR = Some Dir ->
         fs w !! (NGINX_CONF_DIR // d) = Some (File old) ->
         r = Val false /\ fs w' !! (NGINX_CONF_DIR // d) = Some (File old)) /\
    (r <> Val true -> kept env (fs w) (fs w')) /\
    (r = Val true ->
       MsgNginxTestPassed ∈ l /\ (MsgNginxTestRefused ∉ l) /\
       (MsgCreateRootFailed ∉ l) /\
       is_dir (fs w') (root_of d root_dir) = true /\
       path_exists (fs w') (root_of d root_dir // "index.html") = true /\
       exists its clean t,
         result (load_sites_config env w) = Val (PDict its) /\
         dict_get d its = None /\
         clean_loop (its ++ [(d, PDict (site_config d (root_of d root_dir) php t))]) []
         = Some clean /\
         dict_get d clean
         = Some (PDict (site_config d (root_of d root_dir) php t)) /\
         read_file (fs w') (SITES_CONFIG env)
         = Some (json_dumps env (PDict clean)))).
Proof.
  intros Hlinks. rewrite add_site_unfold.
  apply wp_bind, wp_run_of.
  destruct (load_sites_config_returns env w) as [sites Hload].
  destruct (load_sites_config_sound env (fs w) w eq_refl) as [Hfs1 Hl1].
  rewrite Hload.
  revert Hfs1 Hl1.
  generalize (after (load_sites_config env w)).
  generalize (printed (load_sites_config env w)).
  intros l1 w1 Hfs1 Hl1.
  apply wp_bind, wp_or_raise.
  assert (Hk1 : kept env (fs w) (fs w1)) by (rewrite Hfs1; by apply kept_refl).
  destruct (py_contains d sites) as [[|]|] eqn:Hdup.
  - (* the domain is registered *)
    wp_go. split; [|split; [|split]]; try done.
    + intros _ _ _. split; [done|]. split; [done|].
      rewrite elem_of_app, list_elem_of_singleton. by right.
    + intros H. alphabet.
  - (* it is not *)
    assert (Hno : forall sites0, Val sites = Val sites0 ->
              py_contains d sites0 = Some true -> False)
      by (intros ? [= <-] ?; congruence).
    cbv beta iota zeta. apply wp_bind, wp_now, wp_bind.
    set (t := clock env (steps w1)).
    eapply wp_conseq; [apply generate_nginx_config_spec|].
    intros [content|e] w2 l2 [Hfs2 ->]; rewrite Hfs1 in Hfs2.
    2: { split; [intros ? ? ?; by exfalso; eauto|].
         split; [intros H; alphabet|]. split; [|done].
         intros _. rewrite Hfs2. by apply kept_refl. }
    apply wp_bind, wp_run_of.
    assert (Hk2 : kept env (fs w) (fs w2)) by (rewrite Hfs2; by apply kept_refl).
    destruct (save_nginx_config_sound env Hhd (fs w) d content true w2 Hk2)
      as [Hk3 Hl3].
    pose proof (save_nginx_config_printed env d content true w2) as Hp3.
    pose proof (fun old Hrel Hbk => save_nginx_config_rollback env d content old w2 Hrel
      (conj Hhd (conj (eq_ind_r links_ok Hlinks Hfs2)
         (eq_ind_r (fun f => forall n, f !! (BACKUPS_CONFIGS env // n) <> Some Dir) Hbk Hfs2)))) as Hr3.
    rewrite Hfs2 in Hr3.
    revert Hk3 Hl3 Hp3 Hr3.
    generalize (after (save_nginx_config env d content true w2)).
    generalize (printed (save_nginx_config env d content true w2)).
    destruct (result (save_nginx_config env d content true w2)) as [[|]|e].
    all: intros l3 w3 Hk3 Hl3 Hp3 Hr3.
    + (* the configuration was written and accepted *)
      specialize (Hp3 eq_refl). subst l3. clear Hl3 Hr3.
      cbn [negb]. apply wp_bind, wp_try, wp_bind, wp_run_of.
      destruct (provision_root_sound env Hhd (fs w) d (root_of d root_dir)
                  w3 Hk3) as [Hk4 Hl4].
      pose proof (provision_root_done env d (root_of d root_dir) w3) as Hd4.
      revert Hk4 Hl4 Hd4.
      generalize (after (provision_root env d (root_of d root_dir) w3)).
      generalize (printed (provision_root env d (root_of d root_dir) w3)).
      destruct (result (provision_root env d (root_of d root_dir) w3))
        as [[]|e]; intros l4 w4 Hk4 Hl4 Hd4.
      * (* the document root is in place *)
        destruct (Hd4 eq_refl) as [Hdir Hidx]. clear Hd4.
        wp_go.
        destruct sites as [| | | | |l|its];
          try (cbn [py_setitem list_index]; leaf_fail; fail).
        cbn [py_setitem py_contains] in Hdup |- *. injection Hdup as Hdup.
        assert (Hget : dict_get d its = None).
        { unfold dict_mem in Hdup. by destruct (dict_get d its). }
        rewrite (dict_set_fresh _ _ _ Hget).
        apply wp_bind, wp_run_of.
        destruct (save_sites_config_sound env
          (PDict (its ++ [(d, PDict (site_config d (root_of d root_dir) php t))]))
          w4 I) as [_ Hl5].
        revert Hl5.
        destruct (save_sites_config_run env
          (PDict (its ++ [(d, PDict (site_config d (root_of d root_dir) php t))])) w4)
          as [(its' & clean & fs' & [= <-] & Hc & Hw & -> & Hfs5)|[Hn Hfs5]].
        -- revert Hfs5.
           generalize (after (save_sites_config env
             (PDict (its ++ [(d, PDict (site_config d (root_of d root_dir) php t))])) w4)).
           generalize (printed (save_sites_config env
             (PDict (its ++ [(d, PDict (site_config d (root_of d root_dir) php t))])) w4)).
           intros l5 w5 Hfs5 Hl5. wp_go.
           split; [intros ? ? ?; by exfalso; eauto|].
           split; [intros H; alphabet|]. split; [done|]. intros _.
           split; [rewrite !elem_of_app, !elem_of_cons; tauto|].
           split; [intros H; alphabet|].
           split; [intros H; alphabet|].
           rewrite Hfs5.
           split; [by eapply is_dir_write_file|].
           split; [by eapply path_exists_write_file|].
           exists its, clean, t. split; [done|]. split; [done|].
           split; [done|].
           split; [by rewrite (clean_loop_last _ _ _ _ _ Hc)|].
           by eapply read_file_write_file.
        -- revert Hn Hfs5.
           generalize (after (save_sites_config env
             (PDict (its ++ [(d, PDict (site_config d (root_of d root_dir) php t))])) w4)).
           generalize (printed (save_sites_config env
             (PDict (its ++ [(d, PDict (site_config d (root_of d root_dir) php t))])) w4)).
           destruct (result (save_sites_config env
             (PDict (its ++ [(d, PDict (site_config d (root_of d root_dir) php t))])) w4))
             as [[|]|e]; intros l5 w5 Hn Hfs5 Hl5; [done| |].
           ++ wp_go. rewrite Hfs5. leaf_fail.
           ++ rewrite Hfs5. leaf_fail.
      * (* it is not *)
        destruct (is_RuntimeError e); wp_go; leaf_fail.
    + (* the configuration was rejected, or not written *)
      wp_go. split; [intros ? ? ?; by exfalso; eauto|].
      split; [|split; [done | by intros [=]]].
      intros H. split; [done|]. intros old Hrel Hbk Hconf Hlive.
      split; [done|]. eapply Hr3; try done. clear -H Hl1. by alphabet.
    + split; [intros ? ? ?; by exfalso; eauto|].
      split; [|split; [done | by intros [=]]].
      intros H. split; [done|]. intros old Hrel Hbk Hconf Hlive.
      assert (Hin : MsgNginxTestRefused ∈ l3) by (clear -H Hl1; by alphabet).
      by destruct (Hr3 old Hrel Hbk Hconf Hlive Hin) as [? _].
  - (* [in] is not defined on what the registry holds *)
    split; [intros ? [= <-] ?; congruence|].
    split; [intros H; alphabet|]. split; [done | by intros [=]].
Qed.



(** an import that stays within the package does nothing *)
Lemma wp_import_from {A : Type} (package : list string) (level : nat)
  (k : M A) (w : World) (Q : Res A -> World -> list Msg -> Prop) :
  (level <= length package)%nat -> wp k w Q ->
  wp (import_from package level ;; k) w Q.
Proof.
  intros Hle Hk. unfold wp, bind, import_from.
  by rewrite (proj2 (Nat.leb_le _ _) Hle).
Qed.

(** an import that climbs above the top-level package ends the call *)
Lemma import_from_beyond {A : Type} (package : list string) (level : nat)
  (k : unit -> M A) (w : World) :
  (length package < level)%nat ->
  bind (import_from package level) k w = raise ImportError w.
Proof.
  intros Hlt. unfold bind, import_from.
  by rewrite (proj2 (Nat.leb_gt _ _) Hlt).
Qed.

(** in a package less than two deep the first import of
    [bind_ssl_to_site] raises, and that is all the call does *)
Lemma bind_ssl_to_site_shallow (package : list string) (d : string)
  (w : World) :
  (length package < 2)%nat ->
  bind_ssl_to_site env package d w = raise ImportError w.
Proof. intros Hlt. unfold bind_ssl_to_site. by apply import_from_beyond. Qed.

(** the checks [bind_ssl_to_site] makes after it saved the registry change
    no file *)
Lemma recheck_sound f0 d :
  sound (fun f => f = f0) (fun _ => True)
    (let* t := test_nginx_config env in
     if t then reload_nginx env ;; print_colored (MsgCertificateBound d)
     else print_colored MsgConfigTestFailed).
Proof. unfold reload_nginx. sound_go; done. Qed.

Lemma bind_ssl_to_site_run package d w :
  (2 <= length package)%nat ->
  links_ok (fs w) ->
  wp (bind_ssl_to_site env package d) w (fun r w' l =>
    (forall sites,
       result (load_sites_config env w) = Val sites ->
       py_contains d sites = Some false ->
       fs w' = fs w /\ MsgSiteUnknown ∈ l) /\
    (forall sites site v,
       result (load_sites_config env w) = Val sites ->
       py_contains d sites = Some true ->
       py_getitem sites (PStr d) = Some site ->
       py_get "enable_ssl" site = Some v -> truthy v = true ->
       fs w' = fs w /\ MsgAlreadySecured ∈ l) /\
    (path_exists (fs w) (SSL_DIR // d // "fullchain.pem") = false \/
     path_exists (fs w) (SSL_DIR // d // "key.pem") = false ->
     fs w' = fs w) /\
    (kept env (fs w) (fs w') /\
     (MsgNginxTestPassed ∈ l -> reliable env -> exists e, r = Raise e) \/
     exists its r clean pre post,
       result (load_sites_config env w) = Val (PDict its) /\
       dict_get d its = Some (PDict r) /\
       truthy (get_default "enable_ssl" PNone r) = false /\
       path_exists (fs w) (SSL_DIR // d // "fullchain.pem") = true /\
       path_exists (fs w) (SSL_DIR // d // "key.pem") = true /\
       l = pre ++ [MsgCopiedToSystem (NGINX_CONF_DIR // d);
                   MsgNginxTestPassed] ++ post /\
       (MsgNginxTestRefused ∉ pre) /\
       clean_loop (dict_set d (PDict (with_certificate d r)) its) []
       = Some clean /\
       read_file (fs w') (SITES_CONFIG env)
       = Some (json_dumps env (PDict clean)))).
Proof.
  intros Hdeep Hlinks. unfold bind_ssl_to_site.
  apply wp_import_from; [lia|].
  apply wp_import_from; [lia|].
  apply wp_import_from; [lia|].
  apply wp_bind, wp_run_of.
  destruct (load_sites_config_returns env w) as [sites Hload].
  destruct (load_sites_config_sound env (fs w) w eq_refl) as [Hfs1 Hl1].
  rewrite Hload.
  revert Hfs1 Hl1.
  generalize (after (load_sites_config env w)).
  generalize (printed (load_sites_config env w)).
  intros l1 w1 Hfs1 Hl1.
  assert (Hk1 : kept env (fs w) (fs w1)) by (rewrite Hfs1; by apply kept_refl).
  apply wp_bind, wp_or_raise.
  destruct (py_contains d sites) as [[|]|] eqn:Hknown.
  - cbn [negb]. apply wp_bind, wp_or_raise.
    destruct (py_getitem sites (PStr d)) as [site|] eqn:Hsite.
    2: { split; [intros ? [= <-] ?; congruence|].
         split; [intros ? ? ? [= <-] ? ?; congruence|]. split; [done|]; left; split; [done|]; intros ? ?; exfalso; by alphabet. }
    apply wp_bind, wp_or_raise.
    destruct (py_get "enable_ssl" site) as [v|] eqn:Hv.
    2: { split; [intros ? [= <-] ?; congruence|].
         split; [intros ? ? ? [= <-] ? ? ?; congruence|]. split; [done|]; left; split; [done|]; intros ? ?; exfalso; by alphabet. }
    destruct (truthy v) eqn:Htruthy.
    { wp_go. split; [intros ? [= <-] ?; congruence|].
      split; [|split; [done|]; left; split; [done|]; intros ? ?; exfalso; by alphabet]. intros _ _ _ _ _ _ _ _. split; [done|].
      rewrite !elem_of_app, list_elem_of_singleton. tauto. }
    assert (Hsecured : forall sites0 site0 v0,
      Val sites = Val sites0 -> py_contains d sites0 = Some true ->
      py_getitem sites0 (PStr d) = Some site0 ->
      py_get "enable_ssl" site0 = Some v0 -> truthy v0 = true -> False)
      by (intros ? ? ? [= <-] ? ? ? ?; congruence).
    apply wp_bind, wp_exists, wp_bind, wp_exists.
    rewrite Hfs1.
    destruct (path_exists (fs w) (SSL_DIR // d // "fullchain.pem")) eqn:Hce.
    2: { wp_go. split; [intros ? [= <-] ?; congruence|].
         split; [intros; exfalso; eauto|]. split; [done|]; left; split; [done|]; intros ? ?; exfalso; by alphabet. }
    destruct (path_exists (fs w) (SSL_DIR // d // "key.pem")) eqn:Hke.
    2: { wp_go. split; [intros ? [= <-] ?; congruence|].
         split; [intros; exfalso; eauto|]. split; [done|]; left; split; [done|]; intros ? ?; exfalso; by alphabet. }
    cbn [negb orb].
    destruct site as [| | | | | |r]; try discriminate Hv.
    destruct sites as [| | | | |l|its];
      cbn [py_getitem list_index] in Hsite; try discriminate Hsite. cbn [py_get] in Hv. injection Hv as <-.
    repeat first
      [wp_step | progress lazy beta iota | progress cbn [py_setitem]].
    fold (with_certificate d r).
    eapply wp_conseq; [apply generate_nginx_config_spec|].
    intros [content|e] w2 l2 [Hfs2 ->]; rewrite Hfs1 in Hfs2.
    all: assert (Hk2 : kept env (fs w) (fs w2))
      by (rewrite Hfs2; by apply kept_refl).
    2: { leaf_kept. }
    apply wp_bind, wp_run_of.
    destruct (save_nginx_config_sound env Hhd (fs w) d content true w2 Hk2)
      as [Hk3 _].
    pose proof (save_nginx_config_printed env d content true w2) as Hp3.
    pose proof (save_nginx_config_passed env d content true w2) as Hq3.
    revert Hk3 Hp3 Hq3.
    generalize (after (save_nginx_config env d content true w2)).
    generalize (printed (save_nginx_config env d content true w2)).
    destruct (result (save_nginx_config env d content true w2)) as [[|]|e].
    all: intros l3 w3 Hk3 Hp3 Hq3.
    2: { wp_go. leaf_kept. }
    2: { leaf_kept. }
    specialize (Hp3 eq_refl). subst l3. clear Hq3.
    apply wp_bind, wp_run_of.
    set (sites' := PDict (dict_set d (PDict (with_certificate d r)) its)).
    destruct (save_sites_config_cases env sites' w3)
      as [(its' & clean & fs' & [= <-] & Hc & Hw & Hr5 & Hfs5 & _)|
          [(its' & clean & [= <-] & Hc & Hw & Hr5 & Hfs5 & _)|
           (_ & Hr5 & Hfs5 & _)]].
    + (* the registry was written *)
      rewrite Hr5. revert Hfs5.
      generalize (after (save_sites_config env sites' w3)).
      generalize (printed (save_sites_config env sites' w3)).
      intros l5 w5 Hfs5.
      assert (Hreg : read_file (fs w5) (SITES_CONFIG env)
                     = Some (json_dumps env (PDict clean)))
        by (rewrite Hfs5; by eapply read_file_write_file).
      eapply wp_conseq; [apply (wp_sound _ _ _ _ (recheck_sound (fs w5) d))|];
        [done|].
      intros r6 w6 l6 [Hfs6 _]. rewrite Hfs6.
      split; [intros ? [= <-] ?; congruence|].
      split; [intros; exfalso; eauto 10|].
      split; [intros [?|?]; congruence|]. right.
      exists its, r, clean,
        (l1 ++ [MsgSavedToProject (CONFIGS_SITES env // (d +:+ ".conf"))]),
        (l5 ++ l6).
      do 5 (split; [done|]).
      split; [by rewrite <- !app_assoc|].
      split; [intros H; alphabet | done].
    + (* it could not be written *)
      assert (Hno : reliable env -> False).
      { intros Hrel.
        destruct (load_sites_config_reads env w _ Hload)
          as [[= ->]|(text & config & Htext & _)]; [done|].
        change (registry_text env (fs w) = Some text) in Htext.
        rewrite (registry_text_entry env Hhd) in Htext by done.
        destruct Hk3 as [_ Hreg].
        rewrite Htext in Hreg. unfold registry_entry in Hreg.
        destruct (fs w3 !! SITES_CONFIG env) as [[c| |]|] eqn:E;
          try discriminate Hreg.
        destruct Hw as [Hw|Hw]; [by rewrite Hrel in Hw|].
        by rewrite (write_file_File _ _ _ _ E) in Hw. }
      rewrite Hr5. revert Hfs5.
      generalize (after (save_sites_config env sites' w3)).
      generalize (printed (save_sites_config env sites' w3)).
      intros l5 w5 Hfs5. rewrite <- Hfs5 in Hk3.
      eapply wp_conseq; [apply (wp_sound _ _ _ _ (recheck_sound (fs w5) d))|];
        [done|].
      intros r6 w6 l6 [Hfs6 _]. rewrite <- Hfs6 in Hk3.
      split; [intros ? [= <-] ?; congruence|].
      split; [intros; exfalso; eauto 10|].
      split; [intros [?|?]; congruence|].
      left. split; [assumption|]. intros _ Hrel. by destruct Hno.
    + (* a record is no [dict] *)
      rewrite Hr5, Hfs5.
      split; [intros ? [= <-] ?; congruence|].
      split; [intros; exfalso; eauto 10|].
      split; [intros [?|?]; congruence|].
      left. split; [assumption|]. eauto.
  - wp_go. split; [|split; [intros ? ? ? [= <-] ? ?; congruence|
      split; [done|]; left; split; [done|]; intros ? ?; exfalso; by alphabet]].
    intros _ _ _. split; [done|].
    rewrite !elem_of_app, list_elem_of_singleton. tauto.
  - split; [intros ? [= <-] ?; congruence|].
    split; [intros ? ? ? [= <-] ? ?; congruence|]. split; [done|].
    left. split; [done|]. intros ? ?; exfalso; by alphabet.
Qed.


End Create.

(** * Creating a site and binding a certificate *)

Lemma dict_get_remove_ne k k' d :
  k <> k' -> dict_get k' (dict_remove k d) = dict_get k' d.
Proof.
  intros Hne. induction d as [|[k0 v0] d IH]; simpl; [done|].
  destruct (String.eqb k k0) eqn:E; simpl.
  - apply String.eqb_eq in E as <-.
    by apply String.eqb_neq in Hne; rewrite String.eqb_sym, Hne.
  - by rewrite IH.
Qed.

(** the loop of [save_sites_config] leaves alone the records of the
    domains it does not meet *)
Lemma clean_loop_get_other its k acc clean :
  clean_loop its acc = Some clean -> k ∉ map fst its ->
  dict_get k clean = dict_get k acc.
Proof.
  revert acc. induction its as [|[k' x] its IH]; intros acc; simpl.
  - by intros [= <-].
  - destruct (without_enabled x) as [x'|]; [|done].
    intros Hc [Hne Hnin]%not_elem_of_cons.
    rewrite (IH _ Hc Hnin). by apply dict_get_set_ne.
Qed.

(** on a registry whose domains are distinct, the loop of
    [save_sites_config] keeps for each domain its record without
    [enabled] *)
Lemma clean_loop_get its k x acc clean :
  clean_loop its acc = Some clean -> NoDup (map fst its) ->
  dict_get k its = Some x ->
  exists x', without_enabled x = Some x' /\ dict_get k clean = Some x'.
Proof.
  revert acc. induction its as [|[k' y] its IH]; intros acc; simpl; [done|].
  destruct (without_enabled y) as [y'|] eqn:Ey; [|done].
  intros Hc [Hnin Hnd]%NoDup_cons.
  destruct (String.eqb k k') eqn:E.
  - apply String.eqb_eq in E as ->. intros [= <-]. exists y'. split; [done|].
    rewrite (clean_loop_get_other _ _ _ _ Hc Hnin). apply dict_get_set_eq.
  - intros Hx. by apply (IH _ Hc Hnd).
Qed.

Lemma dict_set_keys k v d :
  dict_get k d <> None -> map fst (dict_set k v d) = map fst d.
Proof.
  induction d as [|[k' v'] d IH]; simpl; [done|].
  destruct (String.eqb k k') eqn:E; simpl.
  - apply String.eqb_eq in E as ->. done.
  - intros H. by rewrite IH.
Qed.

Section ExtraCreate.
Context (env : Env).

(** X1: [add_site] on a domain that the loaded registry contains returns
    [False] after the message that the domain exists; it touches no file
    and prints nothing else of its own. *)
Theorem add_site_refuses_registered_domain (d : string)
  (root_dir : option Path) (enable_php : bool) (w : World) (sites : pyval)
  (Hload : result (load_sites_config env w) = Val sites)
  (Hin : py_contains d sites = Some true) :
  result (add_site env d root_dir enable_php w) = Val false /\
  fs (after (add_site env d root_dir enable_php w)) = fs w /\
  printed (add_site env d root_dir enable_php w)
  = printed (load_sites_config env w) ++ [MsgDomainExists d].
Proof.
  destruct (load_sites_config_sound env (fs w) w eq_refl) as [Hfs _].
  change (wp (add_site env d root_dir enable_php) w (fun r w' l =>
    r = Val false /\ fs w' = fs w /\
    l = printed (load_sites_config env w) ++ [MsgDomainExists d])).
  unfold add_site. apply wp_bind, wp_run_of. rewrite Hload.
  apply wp_bind, wp_or_raise. rewrite Hin. wp_go. by rewrite Hfs.
Qed.


(** X3: on a tidy filesystem, when [add_site] returns [True] the syntax
    check has passed and was never refused, provisioning did not fail, the
    document root is a directory holding an [index.html], the domain was
    not in the registry that was loaded, and the registry file now reads as
    the dump of that registry with the new record added: the record of the
    domain in it is the one [add_site] built, with [enable_ssl] false. *)
Theorem add_site_success (d : string) (root_dir : option Path)
  (enable_php : bool) (w : World) (Htidy : tidy env (fs w))
  (Hdone : result (add_site env d root_dir enable_php w) = Val true) :
  MsgNginxTestPassed ∈ printed (add_site env d root_dir enable_php w) /\
  (MsgNginxTestRefused ∉ printed (add_site env d root_dir enable_php w)) /\
  (MsgCreateRootFailed ∉ printed (add_site env d root_dir enable_php w)) /\
  is_dir (fs (after (add_site env d root_dir enable_php w)))
    (root_of d root_dir) = true /\
  path_exists (fs (after (add_site env d root_dir enable_php w)))
    (root_of d root_dir // "index.html") = true /\
  exists its clean t,
    result (load_sites_config env w) = Val (PDict its) /\
    dict_get d its = None /\
    clean_loop
      (its ++ [(d, PDict (site_config d (root_of d root_dir) enable_php t))])
      [] = Some clean /\
    dict_get d clean
    = Some (PDict (site_config d (root_of d root_dir) enable_php t)) /\
    registry_text env (fs (after (add_site env d root_dir enable_php w)))
    = Some (json_dumps env (PDict clean)).
Proof.
  destruct Htidy as (Hhd & Hlinks & Hbk).
  destruct (add_site_run env Hhd d root_dir enable_php w Hlinks)
    as (_ & _ & _ & H).
  exact (H Hdone).
Qed.

(** X4: on a tidy filesystem and a host that refuses no file operation,
    when the domain has a live configuration and the syntax check rejects
    the new one, [add_site] returns [False], the live configuration holds
    its old text again, and the registry file is as it was. *)
Theorem add_site_rolls_back_live_file (d : string) (root_dir : option Path)
  (enable_php : bool) (old : string) (w : World)
  (Hrel : reliable env) (Htidy : tidy env (fs w))
  (Hconf : fs w !! NGINX_CONF_DIR = Some Dir)
  (Hlive : fs w !! (NGINX_CONF_DIR // d) = Some (File old))
  (Hrefused :
     MsgNginxTestRefused ∈ printed (add_site env d root_dir enable_php w)) :
  result (add_site env d root_dir enable_php w) = Val false /\
  fs (after (add_site env d root_dir enable_php w)) !! (NGINX_CONF_DIR // d)
  = Some (File old) /\
  registry_text env (fs (after (add_site env d root_dir enable_php w)))
  = registry_text env (fs w).
Proof.
  destruct Htidy as (Hhd & Hlinks & Hbk).
  destruct (add_site_run env Hhd d root_dir enable_php w Hlinks)
    as (_ & Href & Hkept & _).
  destruct (Href Hrefused) as [Hn Hold].
  destruct (Hold old Hrel Hbk Hconf Hlive) as [Hr Hl].
  split; [done|]. split; [done|]. by apply kept_registry_text, Hkept.
Qed.

End ExtraCreate.

Section ExtraBind.
Context (env : Env).

(** X5: [bind_ssl_to_site] resolves its three relative imports before
    anything else.  In a package less than two deep, and [nginx], the
    package the program loads the module in, is one, every call raises
    [ImportError] at the first of them: nothing is loaded, printed or
    changed.  Only in a package at least two deep does a call reach its
    checks, and these come before any write: for a domain that the loaded
    registry does not contain it prints that the site is unknown; for a
    site whose [enable_ssl] is truthy it prints that the site is secured
    already; and when the certificate or the key of the domain is not on
    disk, whatever the registry holds, it stops as well: in all three
    cases no file has changed. *)
Theorem bind_ssl_to_site_imports_then_checks (package : list string)
  (d : string) (w : World) :
  (result (bind_ssl_to_site env ssl_package d w) = Raise ImportError /\
   after (bind_ssl_to_site env ssl_package d w) = w /\
   printed (bind_ssl_to_site env ssl_package d w) = []) /\
  ((length package < 2)%nat ->
   result (bind_ssl_to_site env package d w) = Raise ImportError /\
   after (bind_ssl_to_site env package d w) = w /\
   printed (bind_ssl_to_site env package d w) = []) /\
  ((2 <= length package)%nat ->
   (forall sites,
      result (load_sites_config env w) = Val sites ->
      py_contains d sites = Some false ->
      result (bind_ssl_to_site env package d w) = Val tt /\
      fs (after (bind_ssl_to_site env package d w)) = fs w /\
      printed (bind_ssl_to_site env package d w)
      = printed (load_sites_config env w) ++ [MsgSiteUnknown]) /\
   (forall sites site v,
      result (load_sites_config env w) = Val sites ->
      py_contains d sites = Some true ->
      py_getitem sites (PStr d) = Some site ->
      py_get "enable_ssl" site = Some v -> truthy v = true ->
      result (bind_ssl_to_site env package d w) = Val tt /\
      fs (after (bind_ssl_to_site env package d w)) = fs w /\
      printed (bind_ssl_to_site env package d w)
      = printed (load_sites_config env w) ++ [MsgAlreadySecured]) /\
   (path_exists (fs w) (SSL_DIR // d // "fullchain.pem") = false \/
    path_exists (fs w) (SSL_DIR // d // "key.pem") = false ->
    fs (after (bind_ssl_to_site env package d w)) = fs w /\
    MsgCopiedToSystem (NGINX_CONF_DIR // d)
    ∉ printed (bind_ssl_to_site env package d w))).
Proof.
  split; [by rewrite bind_ssl_to_site_shallow by (simpl; lia)|].
  split; [intros Hshallow; by rewrite bind_ssl_to_site_shallow|].
  intros Hdeep.
  change (wp (bind_ssl_to_site env package d) w (fun r w' l =>
    (forall sites,
       result (load_sites_config env w) = Val sites ->
       py_contains d sites = Some false ->
       r = Val tt /\ fs w' = fs w /\
       l = printed (load_sites_config env w) ++ [MsgSiteUnknown]) /\
    (forall sites site v,
       result (load_sites_config env w) = Val sites ->
       py_contains d sites = Some true ->
       py_getitem sites (PStr d) = Some site ->
       py_get "enable_ssl" site = Some v -> truthy v = true ->
       r = Val tt /\ fs w' = fs w /\
       l = printed (load_sites_config env w) ++ [MsgAlreadySecured]) /\
    (path_exists (fs w) (SSL_DIR // d // "fullchain.pem") = false \/
     path_exists (fs w) (SSL_DIR // d // "key.pem") = false ->
     fs w' = fs w /\ MsgCopiedToSystem (NGINX_CONF_DIR // d) ∉ l))).
  unfold bind_ssl_to_site.
  apply wp_import_from; [lia|].
  apply wp_import_from; [lia|].
  apply wp_import_from; [lia|].
  apply wp_bind, wp_run_of.
  destruct (load_sites_config_returns env w) as [sites Hload].
  destruct (load_sites_config_sound env (fs w) w eq_refl) as [Hfs1 Hl1].
  rewrite Hload. revert Hfs1 Hl1.
  generalize (after (load_sites_config env w)).
  generalize (printed (load_sites_config env w)).
  intros l1 w1 Hfs1 Hl1.
  apply wp_bind, wp_or_raise.
  destruct (py_contains d sites) as [[|]|] eqn:Hknown.
  - cbn [negb]. apply wp_bind, wp_or_raise.
    destruct (py_getitem sites (PStr d)) as [site|] eqn:Hsite.
    2: { split; [intros ? [= <-] ?; congruence|].
         split; [intros ? ? ? [= <-] ? ?; congruence|].
         intros _. split; [done|]. intros H. alphabet. }
    apply wp_bind, wp_or_raise.
    destruct (py_get "enable_ssl" site) as [v|] eqn:Hv.
    2: { split; [intros ? [= <-] ?; congruence|].
         split; [intros ? ? ? [= <-] ? ? ?; congruence|].
         intros _. split; [done|]. intros H. alphabet. }
    destruct (truthy v) eqn:Htruthy.
    { wp_go. split; [intros ? [= <-] ?; congruence|].
      split; [by intros|]. intros _. split; [done|]. intros H. alphabet. }
    apply wp_bind, wp_exists, wp_bind, wp_exists.
    rewrite Hfs1.
    destruct (path_exists (fs w) (SSL_DIR // d // "fullchain.pem")) eqn:Hce.
    2: { wp_go. split; [intros ? [= <-] ?; congruence|].
         split; [intros ? ? ? [= <-] ? ? ? ?; congruence|].
         intros _. split; [done|]. intros H. alphabet. }
    destruct (path_exists (fs w) (SSL_DIR // d // "key.pem")) eqn:Hke.
    2: { wp_go. split; [intros ? [= <-] ?; congruence|].
         split; [intros ? ? ? [= <-] ? ? ? ?; congruence|].
         intros _. split; [done|]. intros H. alphabet. }
    cbn [negb orb]. apply wp_run_of.
    split; [intros ? [= <-] ?; congruence|].
    split; [intros ? ? ? [= <-] ? ? ? ?; congruence|].
    intros [?|?]; congruence.
  - wp_go. split; [by intros|].
    split; [intros ? ? ? [= <-] ? ?; congruence|].
    intros _. split; [done|]. intros H. alphabet.
  - split; [intros ? [= <-] ?; congruence|].
    split; [intros ? ? ? [= <-] ? ?; congruence|].
    intros _. split; [done|]. intros H. alphabet.
Qed.


(** X7: in the body of [bind_ssl_to_site] the registry is saved before
    the second syntax check and the reload, and nothing undoes it.  On a
    tidy filesystem and a host that refuses no file operation, a run that
    printed that the syntax check passed and that returned, which takes a
    package at least two deep and so is no run of the program as it loads
    the module, leaves in the registry file the dump of the registry with
    the three fields set on the site, whatever the second check and the
    reload did; when the domains of the registry are distinct, the record
    of the site in it has [enable_ssl] true and the paths of the
    certificate and the key. *)
Theorem bind_ssl_to_site_keeps_binding (package : list string) (d : string)
  (w : World)
  (Htidy : tidy env (fs w)) (Hrel : reliable env)
  (Hpassed : MsgNginxTestPassed ∈ printed (bind_ssl_to_site env package d w))
  (Hret : result (bind_ssl_to_site env package d w) = Val tt) :
  (2 <= length package)%nat /\
  exists its r clean,
    result (load_sites_config env w) = Val (PDict its) /\
    dict_get d its = Some (PDict r) /\
    clean_loop (dict_set d (PDict (with_certificate d r)) its) []
    = Some clean /\
    registry_text env (fs (after (bind_ssl_to_site env package d w)))
    = Some (json_dumps env (PDict clean)) /\
    (NoDup (map fst its) ->
     exists r',
       dict_get d clean = Some (PDict r') /\
       dict_get "enable_ssl" r' = Some (PBool true) /\
       dict_get "ssl_cert" r'
       = Some (PStr (path_str (SSL_DIR // d // "fullchain.pem"))) /\
       dict_get "ssl_key" r'
       = Some (PStr (path_str (SSL_DIR // d // "key.pem")))).
Proof.
  destruct (le_lt_dec 2 (length package)) as [Hdeep|Hshallow].
  2: { rewrite bind_ssl_to_site_shallow in Hret by done. discriminate Hret. }
  split; [done|].
  destruct Htidy as (Hhd & Hlinks & _).
  destruct (bind_ssl_to_site_run env Hhd package d w Hdeep Hlinks)
    as (_ & _ & _ & H4).
  destruct H4 as [[_ Hraise]|(its & r & clean & pre & post & H)].
  { destruct (Hraise Hpassed Hrel) as [e He]. congruence. }
  destruct H as (Hload & Hsite & _ & _ & _ & _ & _ & Hc & Hreg).
  exists its, r, clean. do 4 (split; [done|]).
  intros Hnd.
  destruct (clean_loop_get _ d (PDict (with_certificate d r)) _ _ Hc)
    as (x' & [= <-] & Hx).
  - rewrite dict_set_keys; [done | by rewrite Hsite].
  - apply dict_get_set_eq.
  - eexists. split; [exact Hx|]. unfold with_certificate.
    rewrite !dict_get_remove_ne by done.
    split; [|split].
    + rewrite !dict_get_set_ne by done. apply dict_get_set_eq.
    + rewrite dict_get_set_ne by done. apply dict_get_set_eq.
    + apply dict_get_set_eq.
Qed.

End ExtraBind.


(** * Commands, the syntax check and the reload *)

Section ExtraService.
Context (env : Env).


(** X10: [reload_nginx] never raises and changes no file, and it reloads
    only what [test_nginx_config] has accepted.  When [sudo nginx -t]
    fails it returns [False] after the line of the refusal, without
    handing the reload to the host: the check is the only command of the
    run.  When the check passes it returns what
    [sudo systemctl reload nginx] did, after the line that goes with it. *)
Theorem reload_nginx_tests_first (w : World) :
  fs (after (reload_nginx env w)) = fs w /\
  (ok env (steps w) (Spawn (Sudo Nginx_t)) = false ->
   result (reload_nginx env w) = Val false /\
   printed (reload_nginx env w) = [MsgNginxTestRefused] /\
   steps (after (reload_nginx env w)) = S (steps w)) /\
  (ok env (steps w) (Spawn (Sudo Nginx_t)) = true ->
   result (reload_nginx env w)
   = Val (ok env (S (steps w)) (Spawn (Sudo Systemctl_reload_nginx))) /\
   printed (reload_nginx env w)
   = [MsgNginxTestPassed;
      if ok env (S (steps w)) (Spawn (Sudo Systemctl_reload_nginx))
      then MsgNginxReloaded else MsgNginxReloadFailed] /\
   steps (after (reload_nginx env w)) = S (S (steps w))).
Proof.
  change (wp (reload_nginx env) w (fun r w' l =>
    fs w' = fs w /\
    (ok env (steps w) (Spawn (Sudo Nginx_t)) = false ->
     r = Val false /\ l = [MsgNginxTestRefused] /\
     steps w' = S (steps w)) /\
    (ok env (steps w) (Spawn (Sudo Nginx_t)) = true ->
     r = Val (ok env (S (steps w)) (Spawn (Sudo Systemctl_reload_nginx))) /\
     l = [MsgNginxTestPassed;
          if ok env (S (steps w)) (Spawn (Sudo Systemctl_reload_nginx))
          then MsgNginxReloaded else MsgNginxReloadFailed] /\
     steps w' = S (S (steps w))))).
  apply wp_reload_nginx.
  - intros ->. by repeat split.
  - intros -> ->. by repeat split.
  - intros -> ->. by repeat split.
Qed.

End ExtraService.

(** * Backups *)

(** what a name resolves to is an entry that is no link *)
Lemma follow_lookup n fs p q nd :
  follow n fs p = Some (q, nd) -> fs !! q = Some nd.
Proof.
  revert p. induction n as [|n IH]; intros p; rewrite follow_unfold;
    destruct (fs !! p) as [[c|t|]|] eqn:E; try done;
    try (intros [= <- <-]; done).
  apply IH.
Qed.

Lemma follow_not_Link n fs p q t : follow n fs p <> Some (q, Link t).
Proof.
  revert p. induction n as [|n IH]; intros p; rewrite follow_unfold;
    destruct (fs !! p) as [[c|t'|]|] eqn:E; done.
Qed.

(** overwriting the file a name resolves to changes what the name reads
    as, and nothing else about it *)
Lemma follow_insert_target n fs p q c0 c :
  follow n fs p = Some (q, File c0) ->
  follow n (<[q := File c]> fs) p = Some (q, File c).
Proof.
  intros H. pose proof (follow_lookup _ _ _ _ _ H) as Hq. revert p H.
  induction n as [|n IH]; intros p; rewrite !follow_unfold;
    destruct (decide (p = q)) as [->|Hne];
    rewrite ?Hq, ?lookup_insert_eq, ?lookup_insert_ne by done; try done.
  - destruct (fs !! p) as [[]|]; try done; by intros [= -> ?].
  - destruct (fs !! p) as [[c'|t|]|]; try done; try (by intros [= -> ?]).
    apply IH.
Qed.

(** what [cp] leaves at a destination that is no directory *)
Lemma cp_read fs s d fs' :
  cp fs s d = Some fs' -> is_dir fs d = false ->
  read_file fs' d = read_file fs s /\ is_Some (read_file fs s).
Proof.
  unfold cp, read_file, is_dir.
  destruct (stat fs s) as [[s' [c| |]]|] eqn:Es; try done.
  destruct (stat fs d) as [[q [c0|t|]]|] eqn:Ed.
  - destruct (decide (q = s')); [done|]. intros [= <-] _.
    unfold stat in *. rewrite (follow_insert_target _ _ _ _ _ c Ed). eauto.
  - done.
  - by destruct d.
  - destruct (fs !! d) eqn:El; [done|].
    destruct (match parent d with [] => _ | _ => _ end); [|done].
    intros [= <-] _. rewrite stat_lookup, lookup_insert_eq. eauto.
Qed.

(** [cp] leaves its source as it was *)
Lemma cp_source fs s d fs' :
  cp fs s d = Some fs' -> read_file fs' s = read_file fs s.
Proof.
  unfold cp, read_file.
  destruct (stat fs s) as [[s' [c| |]]|] eqn:Es; try done.
  assert (Hsame : forall t,
    (fs !! t = None \/ exists c', fs !! t = Some (File c')) ->
    stat (<[t := File c]> fs) s = Some (s', File c)).
  { intros t Ht. by apply follow_insert_same. }
  destruct (stat fs d) as [[q [c0|t|]]|] eqn:Ed.
  - destruct (decide (q = s')); [done|]. intros [= <-].
    rewrite Hsame; [done|]. right. exists c0. by eapply follow_lookup.
  - done.
  - destruct (stat fs (q // name s)) as [[q' [c1|t|]]|] eqn:Eq; try done.
    + destruct (decide (q' = s')); [done|]. intros [= <-].
      rewrite Hsame; [done|]. right. exists c1. by eapply follow_lookup.
    + destruct (fs !! (q // name s)) eqn:El; [done|]. intros [= <-].
      rewrite Hsame; [done | by left].
  - destruct (fs !! d) eqn:El; [done|].
    destruct (is_dir fs (parent d)); [|done]. intros [= <-].
    rewrite Hsame; [done | by left].
Qed.

Section ExtraBackup.
Context (env : Env).

(** X11: [restore_config_file] does nothing at all when the backup does not
    exist.  When it exists, either the copy goes through, the line on the
    rollback is printed and the target, unless it is a directory, reads as
    the backup does; or [RuntimeError] is raised and no file has
    changed. *)
Theorem restore_config_file_outcomes (backup_file target_file : Path)
  (w : World) :
  (path_exists (fs w) backup_file = false ->
   result (restore_config_file env backup_file target_file w) = Val tt /\
   after (restore_config_file env backup_file target_file w) = w /\
   printed (restore_config_file env backup_file target_file w) = []) /\
  (path_exists (fs w) backup_file = true ->
   (result (restore_config_file env backup_file target_file w) = Val tt /\
    printed (restore_config_file env backup_file target_file w)
    = [MsgRolledBackToBackup] /\
    cp (fs w) backup_file target_file
    = Some (fs (after (restore_config_file env backup_file target_file w))) /\
    (is_dir (fs w) target_file = false ->
     read_file (fs (after (restore_config_file env backup_file target_file w)))
       target_file
     = read_file (fs w) backup_file)) \/
   (result (restore_config_file env backup_file target_file w)
    = Raise RuntimeError /\
    printed (restore_config_file env backup_file target_file w) = [] /\
    fs (after (restore_config_file env backup_file target_file w)) = fs w)).
Proof.
  change (wp (restore_config_file env backup_file target_file) w
    (fun r w' l =>
      (path_exists (fs w) backup_file = false ->
       r = Val tt /\ w' = w /\ l = []) /\
      (path_exists (fs w) backup_file = true ->
       (r = Val tt /\ l = [MsgRolledBackToBackup] /\
        cp (fs w) backup_file target_file = Some (fs w') /\
        (is_dir (fs w) target_file = false ->
         read_file (fs w') target_file = read_file (fs w) backup_file)) \/
       (r = Raise RuntimeError /\ l = [] /\ fs w' = fs w)))).
  unfold restore_config_file. wp_go; cbn [fs tick]; try done.
  - split; [done|]. intros _. left. do 3 (split; [done|]).
    intros Hd. by destruct (cp_read _ _ _ _ H0 Hd).
  - split; [done|]. intros _. by right.
Qed.

(** X12: a backup that [backup_config_file] returns is a copy: unless its
    path was taken by a link or a directory, it reads as the file did, and
    the file still reads as it did. *)
Theorem backup_config_file_copies (file_path backup_dir b : Path)
  (w : World)
  (Hdone : result (backup_config_file env file_path backup_dir w)
           = Val (Some b))
  (Hlink : no_link_at (fs w) b) (Hdir : fs w !! b <> Some Dir) :
  is_Some (read_file (fs w) file_path) /\
  read_file (fs (after (backup_config_file env file_path backup_dir w))) b
  = read_file (fs w) file_path /\
  read_file (fs (after (backup_config_file env file_path backup_dir w)))
    file_path
  = read_file (fs w) file_path.
Proof.
  revert Hdone.
  change (wp (backup_config_file env file_path backup_dir) w (fun r w' _ =>
    r = Val (Some b) ->
    is_Some (read_file (fs w) file_path) /\
    read_file (fs w') b = read_file (fs w) file_path /\
    read_file (fs w') file_path = read_file (fs w) file_path)).
  unfold backup_config_file. wp_go; try done.
  cbn [fs tick steps] in *. intros [= <-].
  set (b := backup_dir // _) in *.
  assert (Hb : is_dir (mkdir_p (fs w) backup_dir).1 b = false).
  { unfold is_dir. destruct b as [|x b'] eqn:Eb; [by destruct backup_dir|].
    rewrite <- Eb in *. rewrite stat_lookup.
    rewrite mkdir_p_lookup_longer
      by (subst b; rewrite length_path_join; lia).
    destruct (fs w !! b) as [[c|t|]|] eqn:E; try done. by destruct (Hlink t). }
  assert (Hsrc : read_file (mkdir_p (fs w) backup_dir).1 file_path
                 = read_file (fs w) file_path).
  { unfold read_file, stat in *.
    destruct (follow MAXSYMLINKS (fs w) file_path) as [[q nd]|] eqn:Es.
    - unfold mkdir_p. by rewrite (mkdirs_follow _ _ _ _ _ _ Es).
    - unfold path_exists, stat in Heqb0. by rewrite Es in Heqb0. }
  destruct (cp_read _ _ _ _ H2 Hb) as [Hrb Hsome].
  rewrite <- Hsrc. split; [done|]. split; [done|]. by eapply cp_source.
Qed.

End ExtraBackup.

(** * Enabling and disabling, when they go through *)

Lemma is_site_enabled_after_link (d : string) (f : FS) (c : string) (w' : World) :
  f !! (NGINX_CONF_DIR // d) = Some (File c) ->
  fs w' = <[NGINX_ENABLED_DIR // d := Link (NGINX_CONF_DIR // d)]> f ->
  result (is_site_enabled d w') = Val true.
Proof.
  intros Hc Hfs. rewrite is_site_enabled_result, Hfs. f_equal.
  assert (Hne : NGINX_ENABLED_DIR // d <> NGINX_CONF_DIR // d) by path_ne.
  rewrite path_exists_lookup, lookup_insert_eq. unfold is_symlink.
  rewrite lookup_insert_eq, andb_true_r. apply bool_decide_eq_true.
  rewrite follow_unfold, lookup_insert_ne, Hc by done. eauto.
Qed.

Section ExtraEnabled.
Context (env : Env).

Lemma enable_site_run (d : string) (w : World) :
  (path_exists (fs w) (NGINX_CONF_DIR // d) = false ->
   result (enable_site_with_rollback env d w) = Val false /\
   after (enable_site_with_rollback env d w) = w /\
   printed (enable_site_with_rollback env d w)
   = [MsgConfigMissing (NGINX_CONF_DIR // d)]) /\
  (result (enable_site_with_rollback env d w) = Val true ->
   path_exists (fs w) (NGINX_CONF_DIR // d) = true /\
   fs (after (enable_site_with_rollback env d w))
   = <[NGINX_ENABLED_DIR // d := Link (NGINX_CONF_DIR // d)]> (fs w) /\
   printed (enable_site_with_rollback env d w)
   = [MsgNginxTestPassed; MsgNginxTestPassed; MsgNginxReloaded;
      MsgSiteEnabled d] /\
   forall c, fs w !! (NGINX_CONF_DIR // d) = Some (File c) ->
     result (is_site_enabled d (after (enable_site_with_rollback env d w)))
     = Val true).
Proof.
  change (wp (enable_site_with_rollback env d) w (fun r w' l =>
    (path_exists (fs w) (NGINX_CONF_DIR // d) = false ->
     r = Val false /\ w' = w /\ l = [MsgConfigMissing (NGINX_CONF_DIR // d)]) /\
    (r = Val true ->
     path_exists (fs w) (NGINX_CONF_DIR // d) = true /\
     fs w' = <[NGINX_ENABLED_DIR // d := Link (NGINX_CONF_DIR // d)]> (fs w) /\
     l = [MsgNginxTestPassed; MsgNginxTestPassed; MsgNginxReloaded;
          MsgSiteEnabled d] /\
     forall c, fs w !! (NGINX_CONF_DIR // d) = Some (File c) ->
       result (is_site_enabled d w') = Val true))).
  unfold enable_site_with_rollback. wp_go; cbn [fs tick steps] in *.
  all: split; [done || (intros; congruence)|]; try (by intros [=]).
  all: intros _; split; [done|].
  all: try match goal with
    | H : is_Some (delete ?p _ !! ?p) |- _ =>
        rewrite lookup_delete_eq in H; by destruct H
    | H : stat ?f ?p = Some _, H' : path_exists ?f ?p = false |- _ =>
        rewrite (path_exists_stat _ _ _ H) in H'; discriminate H'
    end.
  all: rewrite ?insert_delete_eq; split; [done|]; split; [done|].
  all: intros c Hc; by apply (is_site_enabled_after_link d (fs w) c).
Qed.


Lemma disable_site_run (d : string) (w : World)
  (Hdone : result (disable_site_with_rollback env d w) = Val true) :
  path_exists (fs w) (NGINX_ENABLED_DIR // d) = true /\
  fs (after (disable_site_with_rollback env d w))
  = delete (NGINX_ENABLED_DIR // d) (fs w) /\
  printed (disable_site_with_rollback env d w)
  = [MsgNginxTestPassed; MsgNginxTestPassed; MsgNginxReloaded;
     MsgSiteDisabled d] /\
  result (is_site_enabled d (after (disable_site_with_rollback env d w)))
  = Val false /\
  (fs (after (disable_site_with_rollback env d w)) !! (NGINX_CONF_DIR // d))
  = (fs w !! (NGINX_CONF_DIR // d)).
Proof.
  revert Hdone.
  change (wp (disable_site_with_rollback env d) w (fun r w' l =>
    r = Val true ->
    path_exists (fs w) (NGINX_ENABLED_DIR // d) = true /\
    fs w' = delete (NGINX_ENABLED_DIR // d) (fs w) /\
    l = [MsgNginxTestPassed; MsgNginxTestPassed; MsgNginxReloaded;
         MsgSiteDisabled d] /\
    result (is_site_enabled d w') = Val false /\
    (fs w' !! (NGINX_CONF_DIR // d)) = (fs w !! (NGINX_CONF_DIR // d)))).
  unfold disable_site_with_rollback. wp_go; cbn [fs tick steps] in *.
  all: try (by intros [=]).
  intros _. do 3 (split; [done|]). split.
  - rewrite is_site_enabled_result. cbn [fs tick].
    by rewrite path_exists_delete_eq.
  - rewrite lookup_delete_ne; [done|]. path_ne.
Qed.


(** X15: enabling and disabling undo each other.  From a state in which
    the domain has no entry in [sites-enabled], an enable and then a
    disable that both return [True] leave every file as it was; and so do
    a disable and then an enable, from a state in which the entry is the
    symbolic link to the live configuration. *)
Theorem enable_disable_round_trip (d : string) (w : World) :
  (fs w !! (NGINX_ENABLED_DIR // d) = None ->
   result (enable_site_with_rollback env d w) = Val true ->
   result (disable_site_with_rollback env d
             (after (enable_site_with_rollback env d w))) = Val true ->
   fs (after (disable_site_with_rollback env d
                (after (enable_site_with_rollback env d w)))) = fs w) /\
  (fs w !! (NGINX_ENABLED_DIR // d) = Some (Link (NGINX_CONF_DIR // d)) ->
   result (disable_site_with_rollback env d w) = Val true ->
   result (enable_site_with_rollback env d
             (after (disable_site_with_rollback env d w))) = Val true ->
   fs (after (enable_site_with_rollback env d
                (after (disable_site_with_rollback env d w)))) = fs w).
Proof.
  split.
  - intros Hfree He Hd.
    destruct (disable_site_run _ _ Hd) as (_ & -> & _).
    destruct (enable_site_run d w) as (_ & Hen).
    destruct (Hen He) as (_ & -> & _).
    by rewrite delete_insert_eq, delete_id.
  - intros Hlink Hd He.
    destruct (enable_site_run d
                (after (disable_site_with_rollback env d w))) as (_ & Hen).
    destruct (Hen He) as (_ & -> & _).
    destruct (disable_site_run _ _ Hd) as (_ & -> & _).
    by rewrite insert_delete_eq, insert_id.
Qed.


End ExtraEnabled.

(** * The registry file *)

Lemma dict_get_notin k (d : items) : k ∉ map fst d -> dict_get k d = None.
Proof.
  induction d as [|[k' v] d IH]; simpl; [done|].
  intros [Hne Hnin]%not_elem_of_cons.
  apply String.eqb_neq in Hne. rewrite Hne. by apply IH.
Qed.

Lemma dict_get_app_notin k v (pre suf : items) :
  k ∉ map fst pre -> dict_get k (pre ++ (k, v) :: suf) = Some v.
Proof.
  induction pre as [|[k' v'] pre IH]; simpl.
  - by rewrite String.eqb_refl.
  - intros [Hne Hnin]%not_elem_of_cons.
    apply String.eqb_neq in Hne. rewrite Hne. by apply IH.
Qed.

Lemma dict_set_app_notin k v v' (pre suf : items) :
  k ∉ map fst pre ->
  dict_set k v' (pre ++ (k, v) :: suf) = pre ++ (k, v') :: suf.
Proof.
  induction pre as [|[k0 v0] pre IH]; simpl.
  - by rewrite String.eqb_refl.
  - intros [Hne Hnin]%not_elem_of_cons.
    apply String.eqb_neq in Hne. rewrite Hne. by rewrite IH.
Qed.

Lemma records_cons k x its :
  records ((k, x) :: its) -> (exists r, x = PDict r) /\ records its.
Proof.
  intros H. split.
  - apply (H k). apply list_elem_of_here.
  - intros k' x' Hin. apply (H k'). by apply list_elem_of_further.
Qed.

Lemma strip_enabled_keys its : map fst (strip_enabled its) = map fst its.
Proof. unfold strip_enabled. rewrite map_map. by apply map_ext. Qed.

Lemma dict_remove_idemp k d : dict_remove k (dict_remove k d) = dict_remove k d.
Proof.
  induction d as [|[k' v] d IH]; simpl; [done|].
  destruct (String.eqb k k') eqn:E; simpl; [done|]. by rewrite E, IH.
Qed.

Lemma strip_enabled_idemp its :
  strip_enabled (strip_enabled its) = strip_enabled its.
Proof.
  unfold strip_enabled. rewrite map_map. apply map_ext. intros [k x]. simpl.
  f_equal. destruct x; simpl; try done. by rewrite dict_remove_idemp.
Qed.

Lemma records_strip its : records its -> records (strip_enabled its).
Proof.
  intros H k x [[k' x'] [[= -> ->] Hin]]%list_elem_of_fmap.
  destruct (H _ _ Hin) as [r ->]. simpl. eauto.
Qed.

(** the loop of [load_sites_config], on a registry of records with
    distinct domains *)
Lemma pop_enabled_loop_strip (pre suf : items) :
  NoDup (map fst (pre ++ suf)) -> records suf ->
  pop_enabled_loop (map PStr (map fst suf)) (PDict (pre ++ suf))
  = Some (PDict (pre ++ strip_enabled suf)).
Proof.
  revert pre. induction suf as [|[k x] suf IH]; intros pre Hnd Hrec; simpl;
    [done|].
  apply records_cons in Hrec as [[r ->] Hrec].
  assert (Hk : k ∉ map fst pre).
  { rewrite map_app in Hnd. apply NoDup_app in Hnd as (_ & Hd & _).
    intros Hin. apply (Hd _ Hin). simpl. apply list_elem_of_here. }
  unfold pop_enabled_at. cbn [py_getitem].
  rewrite dict_get_app_notin by done. cbn [without_enabled py_setitem].
  rewrite dict_set_app_notin by done.
  rewrite (cons_middle _ pre suf), app_assoc. rewrite IH; [|by rewrite
    <- app_assoc, !map_app in *|done].
  by rewrite <- app_assoc.
Qed.

(** the loop of [save_sites_config], on such a registry *)
Lemma clean_loop_strip (its acc : items) :
  NoDup (map fst (acc ++ its)) -> records its ->
  clean_loop its acc = Some (acc ++ strip_enabled its).
Proof.
  revert acc. induction its as [|[k x] its IH]; intros acc Hnd Hrec; simpl.
  - by rewrite app_nil_r.
  - apply records_cons in Hrec as [[r ->] Hrec].
    assert (Hk : k ∉ map fst acc).
    { rewrite map_app in Hnd. apply NoDup_app in Hnd as (_ & Hd & _).
      intros Hin. apply (Hd _ Hin). simpl. apply list_elem_of_here. }
    cbn [without_enabled]. rewrite dict_set_fresh by by apply dict_get_notin.
    rewrite IH; [by rewrite <- app_assoc| |done].
    by rewrite <- app_assoc, !map_app in *.
Qed.

Section ExtraRegistry.
Context (env : Env).

(** X17: [load_sites_config] never raises and never changes a file.  When
    the registry file does not exist it returns the empty registry at
    once; and whenever it prints that loading failed, which is its only
    message, what it returns is the empty registry as well. *)
Theorem load_sites_config_outcomes (w : World) :
  fs (after (load_sites_config env w)) = fs w /\
  (exists v, result (load_sites_config env w) = Val v) /\
  (path_exists (fs w) (SITES_CONFIG env) = false ->
   result (load_sites_config env w) = Val (PDict []) /\
   printed (load_sites_config env w) = [] /\
   after (load_sites_config env w) = w) /\
  (printed (load_sites_config env w) = [] \/
   printed (load_sites_config env w) = [MsgLoadRegistryFailed] /\
   result (load_sites_config env w) = Val (PDict [])) /\
  (ok env (steps w) (PyOpenRead (SITES_CONFIG env)) = false ->
   result (load_sites_config env w) = Val (PDict [])) /\
  (forall text,
     read_file (fs w) (SITES_CONFIG env) = Some text ->
     json_loads env text = None ->
     result (load_sites_config env w) = Val (PDict [])).
Proof.
  change (wp (load_sites_config env) w (fun r w' l =>
    fs w' = fs w /\ (exists v, r = Val v) /\
    (path_exists (fs w) (SITES_CONFIG env) = false ->
     r = Val (PDict []) /\ l = [] /\ w' = w) /\
    (l = [] \/ l = [MsgLoadRegistryFailed] /\ r = Val (PDict [])) /\
    (ok env (steps w) (PyOpenRead (SITES_CONFIG env)) = false ->
     r = Val (PDict [])) /\
    (forall text,
       read_file (fs w) (SITES_CONFIG env) = Some text ->
       json_loads env text = None -> r = Val (PDict [])))).
  unfold load_sites_config. wp_go; cbn [fs tick] in *.
  - destruct (json_loads env c) as [config'|] eqn:Ej; wp_go;
      [|by repeat split; eauto].
    destruct (py_iter config') as [keys|] eqn:Ek; wp_go;
      [|by repeat split; eauto].
    destruct (pop_enabled_loop keys config') as [v|] eqn:Ev; wp_go.
    + repeat split; eauto; try done; try congruence.
    + by repeat split; eauto.
  - by repeat split; eauto.
  - by repeat split; eauto.
Qed.

(** what [load_sites_config] does with a registry file it can read *)
Lemma load_sites_config_read w text :
  ok env (steps w) (PyOpenRead (SITES_CONFIG env)) = true ->
  read_file (fs w) (SITES_CONFIG env) = Some text ->
  forall its,
  json_loads env text = Some (PDict its) ->
  forall v,
  pop_enabled_loop (map PStr (map fst its)) (PDict its) = Some v ->
  result (load_sites_config env w) = Val v /\
  printed (load_sites_config env w) = [].
Proof.
  intros Hok Hread its Hjson v Hloop.
  change (wp (load_sites_config env) w (fun r _ l => r = Val v /\ l = [])).
  unfold load_sites_config. apply wp_bind, wp_exists.
  assert (He : path_exists (fs w) (SITES_CONFIG env) = true).
  { unfold read_file in Hread. unfold path_exists.
    by destruct (stat (fs w) (SITES_CONFIG env)). }
  rewrite He. cbn [negb]. apply wp_try, wp_bind, wp_py_read.
  - intros c _ Hc. rewrite Hread in Hc. injection Hc as <-.
    apply wp_bind, wp_or_raise. rewrite Hjson.
    apply wp_bind, wp_or_raise. cbn [py_iter]. rewrite map_PStr_fst.
    apply wp_or_raise. by rewrite Hloop.
  - intros [Hf|Hf]; congruence.
Qed.

(** X18: from a registry file that holds a JSON object of records with
    distinct domains, [load_sites_config] returns these records in their
    order, each without its [enabled] key and with every other key and
    value as it is in the file; it prints nothing. *)
Theorem load_sites_config_strips_enabled_only (w : World) (text : string)
  (its : items)
  (Hok : ok env (steps w) (PyOpenRead (SITES_CONFIG env)) = true)
  (Hread : read_file (fs w) (SITES_CONFIG env) = Some text)
  (Hjson : json_loads env text = Some (PDict its))
  (Hrec : records its) (Hnd : NoDup (map fst its)) :
  result (load_sites_config env w) = Val (PDict (strip_enabled its)) /\
  printed (load_sites_config env w) = [].
Proof.
  apply (load_sites_config_read w text Hok Hread its Hjson).
  by apply (pop_enabled_loop_strip []).
Qed.


(** X20: what is saved is what is loaded.  When [save_sites_config] has
    returned [True] on a registry of records with distinct domains, and
    [json.loads] reads back the text that [json.dumps] made of it, a
    [load_sites_config] that is allowed to read the file returns the
    registry that was given, without the [enabled] keys. *)
Theorem save_then_load_round_trip (its : items) (w : World)
  (Hrec : records its) (Hnd : NoDup (map fst its))
  (Hcodec : json_loads env (json_dumps env (PDict (strip_enabled its)))
            = Some (PDict (strip_enabled its)))
  (Hsaved : result (save_sites_config env (PDict its) w) = Val true)
  (Hok : ok env (steps (after (save_sites_config env (PDict its) w)))
           (PyOpenRead (SITES_CONFIG env)) = true) :
  result (load_sites_config env
            (after (save_sites_config env (PDict its) w)))
  = Val (PDict (strip_enabled its)) /\
  printed (load_sites_config env
             (after (save_sites_config env (PDict its) w))) = [].
Proof.
  destruct (save_sites_config_cases env (PDict its) w)
    as [(its' & clean & fs' & [= <-] & Hc & Hw & _ & Hfs & _)|
        [(? & ? & _ & _ & _ & Hr & _)|(_ & Hr & _)]]; try congruence.
  rewrite (clean_loop_strip its []) in Hc by done. injection Hc as <-.
  eapply (load_sites_config_read _
            (json_dumps env (PDict (strip_enabled its))) Hok).
  - rewrite Hfs. by eapply read_file_write_file.
  - exact Hcodec.
  - rewrite (pop_enabled_loop_strip []).
    + by rewrite strip_enabled_idemp.
    + simpl. by rewrite strip_enabled_keys.
    + by apply records_strip.
Qed.

(** X21: the [enabled] keys of what is saved do not matter, and saving is
    idempotent: on a registry of records with distinct domains,
    [save_sites_config] does with the registry stripped of its [enabled]
    keys, which is what [load_sites_config] returns, exactly what it does
    with the registry itself. *)
Theorem save_sites_config_ignores_enabled (its : items) (w : World)
  (Hrec : records its) (Hnd : NoDup (map fst its)) :
  save_sites_config env (PDict (strip_enabled its)) w
  = save_sites_config env (PDict its) w.
Proof.
  unfold save_sites_config.
  rewrite (clean_loop_strip its []) by done.
  rewrite (clean_loop_strip (strip_enabled its) []);
    [by rewrite strip_enabled_idemp| |by apply records_strip].
  simpl. by rewrite strip_enabled_keys.
Qed.

End ExtraRegistry.

(** * Writing a site configuration, without a backup and when it raises *)

Section ExtraSave.
Context (env : Env).

(** X22: without a backup there is no rollback.  When the live
    configuration of the domain did not exist, or [auto_backup] is off,
    and the syntax check rejects what [save_nginx_config] wrote, the call
    returns [False] and the rejected text stays in the system directory,
    as in the project mirror. *)
Theorem save_nginx_config_rejected_stays (d c : string) (b : bool)
  (w : World)
  (Hnone : path_exists (fs w) (NGINX_CONF_DIR // d) = false \/ b = false)
  (Hrefused : MsgNginxTestRefused ∈ printed (save_nginx_config env d c b w)) :
  result (save_nginx_config env d c b w) = Val false /\
  read_file (fs (after (save_nginx_config env d c b w))) (NGINX_CONF_DIR // d)
  = Some c /\
  read_file (fs (after (save_nginx_config env d c b w)))
    (CONFIGS_SITES env // (d +:+ ".conf")) = Some c /\
  MsgRolledBackToBackup ∉ printed (save_nginx_config env d c b w).
Proof.
  revert Hrefused.
  change (wp (save_nginx_config env d c b) w (fun r w' l =>
    MsgNginxTestRefused ∈ l ->
    r = Val false /\
    read_file (fs w') (NGINX_CONF_DIR // d) = Some c /\
    read_file (fs w') (CONFIGS_SITES env // (d +:+ ".conf")) = Some c /\
    MsgRolledBackToBackup ∉ l)).
  unfold save_nginx_config.
  apply wp_bind, wp_exists. lazy beta iota.
  replace (b && path_exists (fs w) (NGINX_CONF_DIR // d)) with false
    by (destruct Hnone as [-> | ->]; by rewrite ?andb_false_r).
  apply wp_bind, wp_ret.
  unfold restore_if_backed_up. wp_go; cbn [fs tick steps] in *.
  all: intros Hin; try (exfalso; clear -Hin; msgs; fail).
  all: split; [done|]; split; [by eapply read_file_write_file|].
  all: split; [|clear; intros Hin; msgs].
  all: eapply read_file_write_same; [|done].
  all: try apply read_file_mkdirs.
  all: by eapply read_file_write_file.
Qed.

(** X23: the exceptions that leave [save_nginx_config] are two: the
    [OSError] of making the directory of the backups, before anything is
    written or printed, and the [RuntimeError] of a rollback copy that
    fails after the failure was reported.  Both need a backup: with
    [auto_backup] off, or for a domain without a live configuration, the
    call always returns. *)
Theorem save_nginx_config_exceptions (d c : string) (b : bool) (w : World)
  (e : Exn) (Hraise : result (save_nginx_config env d c b w) = Raise e) :
  b = true /\ path_exists (fs w) (NGINX_CONF_DIR // d) = true /\
  (e = OSError /\ printed (save_nginx_config env d c b w) = [] \/
   e = RuntimeError /\
   MsgSaveConfigFailed ∈ printed (save_nginx_config env d c b w)).
Proof.
  revert Hraise.
  change (wp (save_nginx_config env d c b) w (fun r w' l =>
    r = Raise e ->
    b = true /\ path_exists (fs w) (NGINX_CONF_DIR // d) = true /\
    (e = OSError /\ l = [] \/ e = RuntimeError /\ MsgSaveConfigFailed ∈ l))).
  unfold save_nginx_config, backup_config_file, restore_if_backed_up,
    restore_config_file.
  wp_go; cbn [fs tick steps] in *; try (by intros [=]).
  all: intros [= <-]; split; [done|]; split; [done|].
  all: first [by left | right; split; [done|]; msgs].
Qed.

End ExtraSave.

(** * The document root *)

Section ExtraRoot.
Context (env : Env).

(** X24: the provisioning block of [add_site] does not touch an index page
    that is there: when [index.html] exists below the document root, the
    block writes no file, it at most creates the directories [mkdir -p]
    creates, and the page reads as before. *)
Theorem provision_root_keeps_index (d : string) (root : Path) (w : World)
  (Hindex : path_exists (fs w) (root // "index.html") = true) :
  (fs (after (provision_root env d root w)) = fs w \/
   fs (after (provision_root env d root w)) = (mkdir_p (fs w) root).1) /\
  read_file (fs (after (provision_root env d root w))) (root // "index.html")
  = read_file (fs w) (root // "index.html").
Proof.
  assert (Hmk : path_exists (mkdir_p (fs w) root).1 (root // "index.html")
                = true).
  { unfold path_exists, stat, mkdir_p in *.
    destruct (follow _ (fs w) _) as [x|] eqn:E; [|done].
    by rewrite (mkdirs_follow _ _ _ _ _ _ E). }
  assert (Hrd : read_file (mkdir_p (fs w) root).1 (root // "index.html")
                = read_file (fs w) (root // "index.html")).
  { unfold path_exists, read_file, stat, mkdir_p in *.
    destruct (follow _ (fs w) _) as [x|] eqn:E; [|done].
    by rewrite (mkdirs_follow _ _ _ _ _ _ E). }
  change (wp (provision_root env d root) w (fun _ w' _ =>
    (fs w' = fs w \/ fs w' = (mkdir_p (fs w) root).1) /\
    read_file (fs w') (root // "index.html")
    = read_file (fs w) (root // "index.html"))).
  unfold provision_root. wp_go; cbn [fs tick steps] in *.
  all: try (split; [by eauto | done]).
  all: try congruence.
  all: destruct H as [[_ ->]|(_ & _ & ->)]; split; by eauto.
Qed.

End ExtraRoot.

(** * The main configuration and the modules *)

(** what a path reads as, through the writes and the directories made
    since it was written *)
Ltac reads :=
  solve
    [ repeat first
        [ eassumption
        | eapply read_file_write_file; eassumption
        | eapply read_file_write_same; [|eassumption]
        | apply read_file_mkdirs ] ].

Section ExtraMain.
Context (env : Env).


(** X26: [save_main_config] catches [RuntimeError] only.  When no backup
    is made, because [backup] is off or [nginx.conf] does not exist, and
    the project copy cannot be written, the [OSError] of [open] leaves the
    call, no file has changed and the system file was not attempted: the
    [open] is the only operation of the run. *)
Theorem save_main_config_oserror_escapes (c : string) (b : bool) (w : World)
  (Hnone : b = false \/ path_exists (fs w) NGINX_MAIN_CONF = false)
  (Hfail :
     ok env (steps w) (PyOpenWrite (CONFIGS_MAIN env // "nginx.conf")) = false \/
     write_file (fs w) (CONFIGS_MAIN env // "nginx.conf") c = None) :
  result (save_main_config env c b w) = Raise OSError /\
  fs (after (save_main_config env c b w)) = fs w /\
  steps (after (save_main_config env c b w)) = S (steps w).
Proof.
  change (wp (save_main_config env c b) w (fun r w' l =>
    r = Raise OSError /\ fs w' = fs w /\ steps w' = S (steps w))).
  unfold save_main_config. apply wp_bind, wp_exists. lazy beta iota.
  replace (b && path_exists (fs w) NGINX_MAIN_CONF) with false
    by (destruct Hnone as [-> | ->]; by rewrite ?andb_false_r).
  apply wp_bind, wp_ret. apply wp_try, wp_bind, wp_py_write.
  - intros fs' Hok Hw. destruct Hfail; congruence.
  - intros _. done.
Qed.

(** X27: the ways [save_main_config] ends.  It raises [OSError], or, only
    when a backup was asked for and [nginx.conf] existed, the
    [RuntimeError] of a rollback copy that failed.  When it returns
    [True] the syntax check has passed and the project copy and
    [nginx.conf] both read as the new text.  And without a backup a text
    that the syntax check rejects stays in [nginx.conf]: the call returns
    [False] and rolls nothing back. *)
Theorem save_main_config_outcomes (c : string) (b : bool) (w : World) :
  (forall e, result (save_main_config env c b w) = Raise e ->
     e = OSError \/
     e = RuntimeError /\ b = true /\
     path_exists (fs w) NGINX_MAIN_CONF = true) /\
  (result (save_main_config env c b w) = Val true ->
   (MsgNginxTestPassed ∈ printed (save_main_config env c b w) /\
    MsgNginxTestRefused ∉ printed (save_main_config env c b w)) /\
   read_file (fs (after (save_main_config env c b w)))
     (CONFIGS_MAIN env // "nginx.conf") = Some c /\
   read_file (fs (after (save_main_config env c b w))) NGINX_MAIN_CONF
   = Some c) /\
  (b = false \/ path_exists (fs w) NGINX_MAIN_CONF = false ->
   MsgNginxTestRefused ∈ printed (save_main_config env c b w) ->
   result (save_main_config env c b w) = Val false /\
   (MsgRolledBackToBackup ∉ printed (save_main_config env c b w)) /\
   read_file (fs (after (save_main_config env c b w))) NGINX_MAIN_CONF
   = Some c).
Proof.
  change (wp (save_main_config env c b) w (fun r w' l =>
    (forall e, r = Raise e ->
       e = OSError \/
       e = RuntimeError /\ b = true /\
       path_exists (fs w) NGINX_MAIN_CONF = true) /\
    (r = Val true ->
     (MsgNginxTestPassed ∈ l /\ MsgNginxTestRefused ∉ l) /\
     read_file (fs w') (CONFIGS_MAIN env // "nginx.conf") = Some c /\
     read_file (fs w') NGINX_MAIN_CONF = Some c) /\
    (b = false \/ path_exists (fs w) NGINX_MAIN_CONF = false ->
     MsgNginxTestRefused ∈ l ->
     r = Val false /\ (MsgRolledBackToBackup ∉ l) /\
     read_file (fs w') NGINX_MAIN_CONF = Some c))).
  unfold save_main_config, backup_config_file, restore_if_backed_up,
    restore_config_file.
  wp_go; cbn [fs tick steps] in *.
  all: split; [first [by intros ? [=] | intros ? [= <-]; by eauto]|].
  all: split;
    [first [by intros [=]
           | intros _; split;
             [split; [clear; msgs | intros Hin; msgs]|split; reads]]|].
  all: try (intros [?|?]; congruence).
  all: intros _ Hin; try (exfalso; clear -Hin; msgs; fail).
  all: split; [done|]; split; [clear; intros Hin; msgs|]; reads.
Qed.

End ExtraMain.

(** ** Instances *)

Lemma reliable_host_json_all : reliable host_registry.
Proof. by intros n o H. Qed.

Lemma reliable_host_check_fails : reliable host_check_fails.
Proof. intros n o H. exact H. Qed.

Lemma reliable_host_reload_fails : reliable host_reload_fails.
Proof.
  intros n o H. destruct o as [c| | |]; try done.
  destruct c as [| | | | | | | | |c]; try done. by destruct c.
Qed.

Lemma tidy_w_site ok : tidy (host_json ok) (fs w_site).
Proof.
  split; [done|]. split.
  - intros p t H. apply elem_of_list_to_map_2 in H.
    repeat (apply elem_of_cons in H as [H|H]; [discriminate H|]).
    by apply elem_of_nil in H.
  - intros n H. apply elem_of_list_to_map_2 in H.
    repeat (apply elem_of_cons in H as [H|H]; [discriminate H|]).
    by apply elem_of_nil in H.
Qed.

Lemma add_site_refuses_registered_domain_witness :
  result (add_site host_registry "a.com" None false w_site) = Val false /\
  fs (after (add_site host_registry "a.com" None false w_site)) = fs w_site /\
  printed (add_site host_registry "a.com" None false w_site)
  = printed (load_sites_config host_registry w_site)
    ++ [MsgDomainExists "a.com"].
Proof.
  apply (add_site_refuses_registered_domain host_registry "a.com" None false
           w_site registry_plain).
  - vm_compute. reflexivity.
  - vm_compute. reflexivity.
Defined.


Lemma add_site_success_witness :
  MsgNginxTestPassed
  ∈ printed (add_site host_registry "c.com" None true w_site) /\
  (MsgNginxTestRefused
   ∉ printed (add_site host_registry "c.com" None true w_site)) /\
  (MsgCreateRootFailed
   ∉ printed (add_site host_registry "c.com" None true w_site)) /\
  is_dir (fs (after (add_site host_registry "c.com" None true w_site)))
    (root_of "c.com" None) = true /\
  path_exists (fs (after (add_site host_registry "c.com" None true w_site)))
    (root_of "c.com" None // "index.html") = true /\
  exists its clean t,
    result (load_sites_config host_registry w_site) = Val (PDict its) /\
    dict_get "c.com" its = None /\
    clean_loop
      (its ++ [("c.com", PDict (site_config "c.com" (root_of "c.com" None)
                                  true t))])
      [] = Some clean /\
    dict_get "c.com" clean
    = Some (PDict (site_config "c.com" (root_of "c.com" None) true t)) /\
    registry_text host_registry
      (fs (after (add_site host_registry "c.com" None true w_site)))
    = Some (json_dumps host_registry (PDict clean)).
Proof.
  apply (add_site_success host_registry "c.com" None true w_site).
  - exact (tidy_w_site _).
  - vm_compute. reflexivity.
Defined.

Lemma add_site_rolls_back_live_file_witness :
  result (add_site host_check_fails "b.com" None false w_site) = Val false /\
  fs (after (add_site host_check_fails "b.com" None false w_site))
  !! (NGINX_CONF_DIR // "b.com") = Some (File "server { listen 8080; }") /\
  registry_text host_check_fails
    (fs (after (add_site host_check_fails "b.com" None false w_site)))
  = registry_text host_check_fails (fs w_site).
Proof.
  apply (add_site_rolls_back_live_file host_check_fails "b.com" None false
           "server { listen 8080; }" w_site).
  - exact reliable_host_check_fails.
  - exact (tidy_w_site _).
  - vm_compute. reflexivity.
  - vm_compute. reflexivity.
  - vm_compute. repeat constructor.
Defined.

(** the call of the program, and a call in a nested package for a domain
    that is not registered *)
Lemma bind_ssl_to_site_imports_then_checks_witness :
  (result (bind_ssl_to_site host_registry ssl_package "a.com" w_site)
   = Raise ImportError /\
   after (bind_ssl_to_site host_registry ssl_package "a.com" w_site) = w_site /\
   printed (bind_ssl_to_site host_registry ssl_package "a.com" w_site) = []) /\
  (result (bind_ssl_to_site host_registry nested_package "b.com" w_site)
   = Val tt /\
   fs (after (bind_ssl_to_site host_registry nested_package "b.com" w_site))
   = fs w_site /\
   printed (bind_ssl_to_site host_registry nested_package "b.com" w_site)
   = printed (load_sites_config host_registry w_site) ++ [MsgSiteUnknown]).
Proof.
  split.
  - apply (proj1 (proj2 (bind_ssl_to_site_imports_then_checks host_registry
                           ssl_package "a.com" w_site))).
    vm_compute. lia.
  - apply (proj1 (proj2 (proj2 (bind_ssl_to_site_imports_then_checks
                                  host_registry nested_package "b.com" w_site))
                    ltac:(vm_compute; lia)) registry_plain).
    + vm_compute. reflexivity.
    + vm_compute. reflexivity.
Defined.


(** in a nested package: the reload fails, and the registry holds the
    certificate of [a.com] *)
Lemma bind_ssl_to_site_keeps_binding_witness :
  MsgNginxReloadFailed
  ∈ printed (bind_ssl_to_site host_reload_fails nested_package "a.com" w_site) /\
  (2 <= length nested_package)%nat /\
  exists its r clean,
    result (load_sites_config host_reload_fails w_site) = Val (PDict its) /\
    dict_get "a.com" its = Some (PDict r) /\
    clean_loop (dict_set "a.com" (PDict (with_certificate "a.com" r)) its) []
    = Some clean /\
    registry_text host_reload_fails
      (fs (after (bind_ssl_to_site host_reload_fails nested_package "a.com"
                    w_site)))
    = Some (json_dumps host_reload_fails (PDict clean)) /\
    (NoDup (map fst its) ->
     exists r',
       dict_get "a.com" clean = Some (PDict r') /\
       dict_get "enable_ssl" r' = Some (PBool true) /\
       dict_get "ssl_cert" r'
       = Some (PStr (path_str (SSL_DIR // "a.com" // "fullchain.pem"))) /\
       dict_get "ssl_key" r'
       = Some (PStr (path_str (SSL_DIR // "a.com" // "key.pem")))).
Proof.
  split; [vm_compute; repeat constructor|].
  apply (bind_ssl_to_site_keeps_binding host_reload_fails nested_package
           "a.com" w_site).
  - exact (tidy_w_site _).
  - exact reliable_host_reload_fails.
  - vm_compute. repeat constructor.
  - vm_compute. reflexivity.
Defined.

Lemma backup_config_file_copies_witness :
  is_Some (read_file (fs w_available) (NGINX_CONF_DIR // "a.com")) /\
  read_file
    (fs (after (backup_config_file host_fine (NGINX_CONF_DIR // "a.com")
                  (BACKUPS_CONFIGS host_fine) w_available)))
    (backup_path host_fine (NGINX_CONF_DIR // "a.com")
       (BACKUPS_CONFIGS host_fine) 1)
  = read_file (fs w_available) (NGINX_CONF_DIR // "a.com") /\
  read_file
    (fs (after (backup_config_file host_fine (NGINX_CONF_DIR // "a.com")
                  (BACKUPS_CONFIGS host_fine) w_available)))
    (NGINX_CONF_DIR // "a.com")
  = read_file (fs w_available) (NGINX_CONF_DIR // "a.com").
Proof.
  apply (backup_config_file_copies host_fine (NGINX_CONF_DIR // "a.com")
           (BACKUPS_CONFIGS host_fine)
           (backup_path host_fine (NGINX_CONF_DIR // "a.com")
              (BACKUPS_CONFIGS host_fine) 1) w_available).
  - vm_compute. reflexivity.
  - intros t. vm_compute. discriminate.
  - vm_compute. discriminate.
Defined.


(** an enable and a disable that both go through, and back *)
Lemma enable_disable_round_trip_witness :
  fs (after (disable_site_with_rollback host_fine "a.com"
               (after (enable_site_with_rollback host_fine "a.com"
                         w_available))))
  = fs w_available /\
  fs (after (enable_site_with_rollback host_fine "a.com"
               (after (disable_site_with_rollback host_fine "a.com"
                         w_enabled))))
  = fs w_enabled.
Proof.
  split.
  - apply (proj1 (enable_disable_round_trip host_fine "a.com" w_available)).
    + vm_compute. reflexivity.
    + vm_compute. reflexivity.
    + vm_compute. reflexivity.
  - apply (proj2 (enable_disable_round_trip host_fine "a.com" w_enabled)).
    + vm_compute. reflexivity.
    + vm_compute. reflexivity.
    + vm_compute. reflexivity.
Defined.

Lemma records_registry_plain :
  records [("a.com",
            PDict (site_config "a.com" (WEB_ROOT_BASE // "a.com") false t0))].
Proof.
  intros k x [[= -> ->]|H]%elem_of_cons; [eauto|]. by apply elem_of_nil in H.
Qed.

Lemma records_registry_with_enabled : records registry_with_enabled.
Proof.
  intros k x [[= -> ->]|H]%elem_of_cons; [eauto|]. by apply elem_of_nil in H.
Qed.

Lemma load_sites_config_strips_enabled_only_witness :
  result (load_sites_config host_registry w_site)
  = Val (PDict (strip_enabled
                  [("a.com",
                    PDict (site_config "a.com" (WEB_ROOT_BASE // "a.com")
                             false t0))])) /\
  printed (load_sites_config host_registry w_site) = [].
Proof.
  apply (load_sites_config_strips_enabled_only host_registry w_site
           (json_text "" registry_plain)).
  - vm_compute. reflexivity.
  - vm_compute. reflexivity.
  - vm_compute. reflexivity.
  - exact records_registry_plain.
  - apply NoDup_singleton.
Defined.

Lemma save_then_load_round_trip_witness :
  result (load_sites_config host_registry
            (after (save_sites_config host_registry
                      (PDict registry_with_enabled) w_site)))
  = Val (PDict (strip_enabled registry_with_enabled)) /\
  printed (load_sites_config host_registry
             (after (save_sites_config host_registry
                       (PDict registry_with_enabled) w_site))) = [].
Proof.
  apply (save_then_load_round_trip host_registry registry_with_enabled w_site).
  - exact records_registry_with_enabled.
  - apply NoDup_singleton.
  - vm_compute. reflexivity.
  - vm_compute. reflexivity.
  - vm_compute. reflexivity.
Defined.

Lemma save_sites_config_ignores_enabled_witness :
  save_sites_config host_registry
    (PDict (strip_enabled registry_with_enabled)) w_site
  = save_sites_config host_registry (PDict registry_with_enabled) w_site.
Proof.
  apply (save_sites_config_ignores_enabled host_registry
           registry_with_enabled w_site).
  - exact records_registry_with_enabled.
  - apply NoDup_singleton.
Defined.

Lemma save_nginx_config_rejected_stays_witness :
  result (save_nginx_config host_check_fails "c.com" "server { listen 81; }"
            true w_site) = Val false /\
  read_file
    (fs (after (save_nginx_config host_check_fails "c.com"
                  "server { listen 81; }" true w_site)))
    (NGINX_CONF_DIR // "c.com") = Some "server { listen 81; }" /\
  read_file
    (fs (after (save_nginx_config host_check_fails "c.com"
                  "server { listen 81; }" true w_site)))
    (CONFIGS_SITES host_check_fails // ("c.com" +:+ ".conf"))
  = Some "server { listen 81; }" /\
  MsgRolledBackToBackup
  ∉ printed (save_nginx_config host_check_fails "c.com"
               "server { listen 81; }" true w_site).
Proof.
  apply (save_nginx_config_rejected_stays host_check_fails "c.com"
           "server { listen 81; }" true w_site).
  - left. vm_compute. reflexivity.
  - vm_compute. repeat constructor.
Defined.

Lemma save_nginx_config_exceptions_witness :
  true = true /\
  path_exists (fs w_backups_blocked) (NGINX_CONF_DIR // "a.com") = true /\
  (OSError = OSError /\
   printed (save_nginx_config host_fine "a.com" "server { listen 81; }" true
              w_backups_blocked) = [] \/
   OSError = RuntimeError /\
   MsgSaveConfigFailed
   ∈ printed (save_nginx_config host_fine "a.com" "server { listen 81; }"
                true w_backups_blocked)).
Proof.
  apply (save_nginx_config_exceptions host_fine "a.com"
           "server { listen 81; }" true w_backups_blocked OSError).
  vm_compute. reflexivity.
Defined.

Lemma provision_root_keeps_index_witness :
  (fs (after (provision_root host_registry "a.com" (WEB_ROOT_BASE // "a.com")
                w_site)) = fs w_site \/
   fs (after (provision_root host_registry "a.com" (WEB_ROOT_BASE // "a.com")
                w_site))
   = (mkdir_p (fs w_site) (WEB_ROOT_BASE // "a.com")).1) /\
  read_file
    (fs (after (provision_root host_registry "a.com"
                  (WEB_ROOT_BASE // "a.com") w_site)))
    (WEB_ROOT_BASE // "a.com" // "index.html")
  = read_file (fs w_site) (WEB_ROOT_BASE // "a.com" // "index.html").
Proof.
  apply (provision_root_keeps_index host_registry "a.com"
           (WEB_ROOT_BASE // "a.com") w_site).
  vm_compute. reflexivity.
Defined.

Lemma save_main_config_oserror_escapes_witness :
  result (save_main_config host_registry "events { }" true w_site)
  = Raise OSError /\
  fs (after (save_main_config host_registry "events { }" true w_site))
  = fs w_site /\
  steps (after (save_main_config host_registry "events { }" true w_site))
  = S (steps w_site).
Proof.
  apply (save_main_config_oserror_escapes host_registry "events { }" true
           w_site).
  - right. vm_compute. reflexivity.
  - right. vm_compute. reflexivity.
Defined.
